(** * excel-viewer: the grid viewer and the rich-grid conversion

    A shallow embedding of [src/components/SimpleExcelViewer.tsx] (the
    [SimpleExcelViewer] component: workbook loading, cell editing, display
    text, column labels, grid dimensions) and of [convertToLuckysheetData]
    of the alternative [ExcelViewer] component.

    Conventions.
    - A JavaScript value of type [any] is a [JsVal]; its numbers are
      IEEE-754 doubles ([PrimFloat.float]). Numbers that are array indices,
      loop counters or palette indices are integers ([nat] or [Z]).
    - A JavaScript array is a [list (option A)]: [None] is a hole, which
      reads as [undefined].
    - React state is a record, every setter a function on it. A load is
      one transition: while it runs [isLoading] is set and the component
      renders the loading placeholder only.
    - Code that can throw returns a [Completion].
    - [console.log] calls and the [title], [style] and [className]
      attributes of the rendered elements are left out. *)

From Stdlib Require Import ZArith Lia Ascii String PrimFloat SpecFloat FloatOps.
From stdpp Require Import base option list gmap strings pretty sorting.
From Equations Require Import Equations.

Local Open Scope string_scope.
Local Open Scope Z_scope.
Local Open Scope list_scope.

(** ** JavaScript values *)

Module Js.

Inductive JsVal : Type :=
| VUndefined
| VNull
| VBool (b : bool)
| VNum (x : float)
| VStr (s : string).

(** ToBoolean on a number: [+0], [-0] and [NaN] are falsy. *)
Definition number_truthy (x : float) : bool :=
  negb (PrimFloat.is_zero x || PrimFloat.is_nan x).

Definition string_truthy (s : string) : bool :=
  match s with EmptyString => false | String _ _ => true end.

Definition truthy (v : JsVal) : bool :=
  match v with
  | VUndefined | VNull => false
  | VBool b => b
  | VNum x => number_truthy x
  | VStr s => string_truthy s
  end.

(** [a || b] *)
Definition or (a b : JsVal) : JsVal := if truthy a then a else b.

(** An optional property read: a missing property is [undefined]. *)
Definition of_opt_string (o : option string) : JsVal :=
  match o with Some s => VStr s | None => VUndefined end.

(** [o || null] for an optional string property. *)
Definition string_or_null (o : option string) : option string :=
  match o with
  | Some s => if string_truthy s then Some s else None
  | None => None
  end.

(** [s.slice(n)] for [0 <= n]. *)
Fixpoint slice (n : nat) (s : string) : string :=
  match n, s with
  | O, _ => s
  | S _, EmptyString => EmptyString
  | S n', String _ s' => slice n' s'
  end.

(** [String.fromCharCode(z)] for a code below 256. *)
Definition fromCharCode (z : Z) : string :=
  String (ascii_of_N (Z.to_N z)) EmptyString.

(** The outcome of code that can throw: [Throw m] is an [Error] whose
    [message] is [m]. *)
Inductive Completion (A : Type) : Type :=
| Normal (a : A)
| Throw (message : string).
Arguments Normal {A} a.
Arguments Throw {A} message.

Definition bind {A B} (c : Completion A) (k : A -> Completion B) : Completion B :=
  match c with
  | Normal a => k a
  | Throw m => Throw m
  end.

(** Arrays with holes. *)
Abbreviation Array A := (list (option A)).

(** [a[i]]: a hole and an index past the end both read as [undefined]. *)
Definition get {A} (a : Array A) (i : nat) : option A := mjoin (a !! i).

(** [a[i] = x]: in range the slot is overwritten; past the end the array
    grows, the slots in between being holes. *)
Definition set {A} (a : Array A) (i : nat) (x : A) : Array A :=
  if decide (i < length a)%nat
  then <[i := Some x]> a
  else a ++ replicate (i - length a) None ++ [Some x].

End Js.
Import Js.

(** ** Column labels *)

(** [getColumnLabel]: the loop, with [label] and [num] as its state, on
    the integers. It is what the source computes for an integer index below
    [2^53]; the loop as the source runs it on doubles, and where the two
    part, is [getColumnLabel_double] further down. *)
Equations? getColumnLabel_loop (num : Z) (label : string) : string
  by wf (Z.to_nat (num + 1)) lt :=
  getColumnLabel_loop num label with decide (0 <= num) => {
    | left _ =>
        getColumnLabel_loop (num / 26 - 1)
          (fromCharCode (65 + num mod 26) +:+ label);
    | right _ => label }.
Proof.
  assert (num / 26 <= num) by (apply Z.div_le_upper_bound; lia). lia.
Qed.

Definition getColumnLabel (index : Z) : string :=
  getColumnLabel_loop index "".

(** The standard reading of a spreadsheet column label, to compare
    [getColumnLabel] with: bijective base 26, [A] = 1 ... [Z] = 26, most
    significant letter first; the index is the numeral's value minus
    one. *)
Definition letter_value (a : ascii) : Z := Z.of_N (N_of_ascii a) - 64.

Fixpoint bijective26 (acc : Z) (s : string) : Z :=
  match s with
  | EmptyString => acc
  | String a s' => bijective26 (26 * acc + letter_value a) s'
  end.

Definition label_index (s : string) : Z := bijective26 0 s - 1.

Definition is_upper (a : ascii) : bool :=
  (65 <=? Z.of_N (N_of_ascii a)) && (Z.of_N (N_of_ascii a) <=? 90).

Fixpoint all_upper (s : string) : bool :=
  match s with
  | EmptyString => true
  | String a s' => is_upper a && all_upper s'
  end.


(** ** The parser's output

    The cell, worksheet and workbook objects that [XLSX.read] returns, with
    the properties the viewer reads. An absent property is [None] (or
    [VUndefined] where the viewer passes the value on unexamined). *)

Record Color : Type := {
  rgb : option string;
  indexed : option Z;
}.

Record Fill : Type := { bgColor : option Color }.

Record Font : Type := {
  font_color : option Color;
  font_bold : JsVal;
  font_italic : JsVal;
  font_sz : option float;
  font_name : option string;
}.

Record StyleAlignment : Type := {
  style_horizontal : option string;
  style_vertical : option string;
}.

(** The viewer passes the border object on as it is. *)
Inductive Border : Type := BorderObject (sides : list (string * string)).

Record Style : Type := {
  fill : option Fill;
  font : option Font;
  style_alignment : option StyleAlignment;
  style_border : option Border;
}.

(** [cell.v], [cell.w], [cell.f], [cell.t], [cell.s]. *)
Record CellObject : Type := {
  cell_v : JsVal;
  cell_w : option string;
  cell_f : option string;
  cell_t : option string;
  cell_s : option Style;
}.

(** A worksheet: the ['!ref'] property and the cells keyed by address. *)
Record WorkSheet : Type := {
  ws_ref : option string;
  ws_cells : gmap string CellObject;
}.

Record WorkBook : Type := {
  SheetNames : list string;
  Sheets : gmap string WorkSheet;
}.

Record CellAddress : Type := { addr_r : Z; addr_c : Z }.
Record Range : Type := { range_s : CellAddress; range_e : CellAddress }.

(** What the libraries and the runtime supply, left abstract here:
    [XLSX.utils.decode_range], [XLSX.utils.encode_cell],
    [XLSX.utils.sheet_to_json] with the options of the call, the text of a
    double and [JSON.stringify] of a style. The one fact used about them
    is what the default reference ["A1:A1"] decodes to. *)
Class Platform : Type := {
  decode_range : string -> Range;
  encode_cell : CellAddress -> string;
  sheet_to_json : WorkSheet -> list (list JsVal);
  number_to_string : float -> string;
  json_stringify : option Style -> string;
  decode_range_A1 :
    decode_range "A1:A1" =
      {| range_s := {| addr_r := 0; addr_c := 0 |};
         range_e := {| addr_r := 0; addr_c := 0 |} |};
}.

(** [String(v)] *)
Definition to_string `{Platform} (v : JsVal) : string :=
  match v with
  | VUndefined => "undefined"
  | VNull => "null"
  | VBool true => "true"
  | VBool false => "false"
  | VNum x => number_to_string x
  | VStr s => s
  end.

(** A [string | null] inside a template literal. *)
Definition template_of_opt_string (o : option string) : string :=
  match o with Some s => s | None => "null" end.

(** The message of the [TypeError] raised by a property read on
    [undefined] (the text is the engine's). *)
Definition TypeError_undefined (prop : string) : string :=
  "Cannot read properties of undefined (reading '" +:+ prop +:+ "')".

(** ** The cell-presentation record and the sheet *)

Record CellAlignment : Type := { horizontal : string; vertical : string }.

Record Cell : Type := {
  value : JsVal;
  formula : option string;
  type : string;
  style : option Style;
  backgroundColor : option string;
  textColor : option string;
  isBold : JsVal;
  isItalic : JsVal;
  fontSize : option string;
  fontFamily : option string;
  alignment : option CellAlignment;
  border : option Border;
  originalCell : option CellObject;
  debugInfo : option string;
}.

Record Sheet : Type := {
  name : string;
  data : Array (Array Cell);
  rawData : list (list JsVal);
}.

(** The component's state, one field per [useState]. *)
Record ViewerState : Type := {
  sheets : list Sheet;
  activeSheetIndex : nat;
  isLoading : bool;
  error : option string;
  showFormulas : bool;
}.

Definition initial_state : ViewerState :=
  {| sheets := []; activeSheetIndex := 0; isLoading := false;
     error := None; showFormulas := false |}.

Definition setSheets (x : list Sheet) (st : ViewerState) : ViewerState :=
  {| sheets := x; activeSheetIndex := activeSheetIndex st;
     isLoading := isLoading st; error := error st;
     showFormulas := showFormulas st |}.

Definition setActiveSheetIndex (x : nat) (st : ViewerState) : ViewerState :=
  {| sheets := sheets st; activeSheetIndex := x;
     isLoading := isLoading st; error := error st;
     showFormulas := showFormulas st |}.

Definition setIsLoading (x : bool) (st : ViewerState) : ViewerState :=
  {| sheets := sheets st; activeSheetIndex := activeSheetIndex st;
     isLoading := x; error := error st;
     showFormulas := showFormulas st |}.

Definition setError (x : option string) (st : ViewerState) : ViewerState :=
  {| sheets := sheets st; activeSheetIndex := activeSheetIndex st;
     isLoading := isLoading st; error := x;
     showFormulas := showFormulas st |}.

Definition setShowFormulas (x : bool) (st : ViewerState) : ViewerState :=
  {| sheets := sheets st; activeSheetIndex := activeSheetIndex st;
     isLoading := isLoading st; error := error st;
     showFormulas := x |}.

(** ** Formatting helpers *)

Definition indexedColors : gmap Z string :=
  list_to_map
    [ (64, "#000000"); (9, "#ffffff"); (10, "#ff0000"); (11, "#00ff00");
      (12, "#0000ff"); (13, "#ffff00"); (14, "#ff00ff"); (15, "#00ffff");
      (43, "#92d050"); (44, "#00b0f0"); (45, "#0070c0"); (46, "#002060") ].

(** [color.rgb] truthy: [`#${color.rgb.slice(2)}`]. *)
Definition rgb_css (color : Color) : option string :=
  match rgb color with
  | Some x => if string_truthy x then Some ("#" +:+ slice 2 x) else None
  | None => None
  end.

Definition getCellBackgroundColor (cell : CellObject) : option string :=
  match (cell_s cell ≫= fill) ≫= bgColor with
  | Some color =>
      match rgb_css color with
      | Some css => Some css
      | None =>
          match indexed color with
          | Some i =>
              if decide (i = 0) then None
              else
                match indexedColors !! i with
                | Some css => if string_truthy css then Some css else None
                | None => None
                end
          | None => None
          end
      end
  | None => None
  end.

Definition getCellTextColor (cell : CellObject) : option string :=
  match (cell_s cell ≫= font) ≫= font_color with
  | Some color => rgb_css color
  | None => None
  end.

(** [cell.s && cell.s.font && cell.s.font.bold]: the first absent link
    gives [undefined], otherwise the property as it is. *)
Definition isCellBold (cell : CellObject) : JsVal :=
  match cell_s cell ≫= font with
  | Some f => font_bold f
  | None => VUndefined
  end.

Definition isCellItalic (cell : CellObject) : JsVal :=
  match cell_s cell ≫= font with
  | Some f => font_italic f
  | None => VUndefined
  end.

Definition getCellFontSize `{Platform} (cell : CellObject) : option string :=
  match (cell_s cell ≫= font) ≫= font_sz with
  | Some sz =>
      if number_truthy sz then Some (number_to_string sz +:+ "px") else None
  | None => None
  end.

Definition getCellFontFamily (cell : CellObject) : option string :=
  string_or_null ((cell_s cell ≫= font) ≫= font_name).

Definition string_or_default (o : option string) (d : string) : string :=
  match string_or_null o with Some s => s | None => d end.

Definition getCellAlignment (cell : CellObject) : option CellAlignment :=
  match cell_s cell ≫= style_alignment with
  | Some a =>
      Some {| horizontal := string_or_default (style_horizontal a) "left";
              vertical := string_or_default (style_vertical a) "middle" |}
  | None => None
  end.

Definition getCellBorder (cell : CellObject) : option Border :=
  cell_s cell ≫= style_border.

(** ** Loading a workbook *)

Section Viewer.
Context `{Platform}.

(** The record stored for a cell the worksheet has. *)
Definition cell_record (cell : CellObject) : Cell :=
  let backgroundColor := getCellBackgroundColor cell in
  let textColor := getCellTextColor cell in
  let isBold := isCellBold cell in
  {| value := Js.or (Js.or (of_opt_string (cell_w cell)) (cell_v cell)) (VStr "");
     formula := string_or_null (cell_f cell);
     type := string_or_default (cell_t cell) "n";
     style := cell_s cell;
     backgroundColor := backgroundColor;
     textColor := textColor;
     isBold := isBold;
     isItalic := isCellItalic cell;
     fontSize := getCellFontSize cell;
     fontFamily := getCellFontFamily cell;
     alignment := getCellAlignment cell;
     border := getCellBorder cell;
     originalCell := Some cell;
     debugInfo :=
       Some ("BG: " +:+ template_of_opt_string backgroundColor
             +:+ ", Text: " +:+ template_of_opt_string textColor
             +:+ ", Bold: " +:+ to_string isBold
             +:+ ", Style: " +:+ json_stringify (cell_s cell)) |}.

(** The record stored for a position the worksheet has no cell at, and,
    with the typed text as [value], for a position edited before it held
    a record. *)
Definition blank_record (v : string) : Cell :=
  {| value := VStr v; formula := None; type := "n"; style := None;
     backgroundColor := None; textColor := None;
     isBold := VBool false; isItalic := VBool false;
     fontSize := None; fontFamily := None; alignment := None;
     border := None; originalCell := None; debugInfo := None |}.

(** [for (let i = 0; i < n; i++) body] *)
Definition for_range {St : Type} (n : Z) (body : nat -> St -> St) (init : St) : St :=
  fold_left (fun s i => body i s) (seq 0 (Z.to_nat n)) init.

(** The body of the inner loop: what is stored at [(row, col)]. *)
Definition cell_at (worksheet : WorkSheet) (row col : nat) : Cell :=
  let cellAddress := encode_cell {| addr_r := Z.of_nat row; addr_c := Z.of_nat col |} in
  match ws_cells worksheet !! cellAddress with
  | Some cell => cell_record cell
  | None => blank_record ""
  end.

(** [cellMatrix[row] = []] followed by the inner loop, which fills that
    same array. *)
Definition cellMatrix_row (worksheet : WorkSheet) (cols : Z) (row : nat) : Array Cell :=
  for_range cols (fun col r => Js.set r col (cell_at worksheet row col)) [].

Definition cellMatrix (worksheet : WorkSheet) (rows cols : Z) : Array (Array Cell) :=
  for_range rows (fun row m => Js.set m row (cellMatrix_row worksheet cols row)) [].

(** [worksheet['!ref'] || 'A1:A1'] *)
Definition ref_or_default (worksheet : WorkSheet) : string :=
  string_or_default (ws_ref worksheet) "A1:A1".

Definition sheet_rows (worksheet : WorkSheet) : Z :=
  addr_r (range_e (decode_range (ref_or_default worksheet))) + 1.

Definition sheet_cols (worksheet : WorkSheet) : Z :=
  addr_c (range_e (decode_range (ref_or_default worksheet))) + 1.

(** The callback of [workbook.SheetNames.map], once the worksheet is at
    hand. *)
Definition sheet_of_worksheet (sheetName : string) (worksheet : WorkSheet) : Sheet :=
  {| name := sheetName;
     data := cellMatrix worksheet (sheet_rows worksheet) (sheet_cols worksheet);
     rawData := sheet_to_json worksheet |}.

(** The callback itself: a name the workbook has no worksheet for makes
    [worksheet['!ref']] a read on [undefined]. *)
Definition sheet_entry (workbook : WorkBook) (sheetName : string) : Completion Sheet :=
  match Sheets workbook !! sheetName with
  | Some worksheet => Normal (sheet_of_worksheet sheetName worksheet)
  | None => Throw (TypeError_undefined "!ref")
  end.

(** [Array.prototype.map] with a callback that can throw. *)
Fixpoint map_completion {A B : Type} (f : A -> Completion B) (l : list A)
  : Completion (list B) :=
  match l with
  | [] => Normal []
  | x :: l' =>
      bind (f x) (fun y => bind (map_completion f l') (fun ys => Normal (y :: ys)))
  end.

Definition sheetsData (workbook : WorkBook) : Completion (list Sheet) :=
  map_completion (sheet_entry workbook) (SheetNames workbook).

(** [loadExcelFile]. [read] is the outcome of [file.arrayBuffer()] followed
    by [XLSX.read]: the workbook, or the exception either of them threw.
    The function is the sequence of its state updates: the two before the
    [try], those of the [try] body or of the [catch], the one of the
    [finally]. *)
Definition load_updates (read : Completion WorkBook) : list (ViewerState -> ViewerState) :=
  [setIsLoading true; setError None]
  ++ match bind read sheetsData with
     | Normal sd => [setSheets sd; setActiveSheetIndex 0]
     | Throw message => [setError (Some ("Error loading Excel file: " +:+ message))]
     end
  ++ [setIsLoading false].

Definition apply_updates (updates : list (ViewerState -> ViewerState))
  (st : ViewerState) : ViewerState :=
  fold_left (fun s update => update s) updates st.

Definition loadExcelFile (read : Completion WorkBook) (st : ViewerState) : ViewerState :=
  apply_updates (load_updates read) st.

(** ** Editing a cell *)

Definition with_value (existingCell : Cell) (v : string) : Cell :=
  {| value := VStr v;
     formula := formula existingCell;
     type := type existingCell;
     style := style existingCell;
     backgroundColor := backgroundColor existingCell;
     textColor := textColor existingCell;
     isBold := isBold existingCell;
     isItalic := isItalic existingCell;
     fontSize := fontSize existingCell;
     fontFamily := fontFamily existingCell;
     alignment := alignment existingCell;
     border := border existingCell;
     originalCell := originalCell existingCell;
     debugInfo := debugInfo existingCell |}.

Definition with_data (sheet : Sheet) (d : Array (Array Cell)) : Sheet :=
  {| name := name sheet; data := d; rawData := rawData sheet |}.

(** [m[row] && m[row][col]] *)
Definition get2 (m : Array (Array Cell)) (row col : nat) : option Cell :=
  Js.get m row ≫= fun r => Js.get r col.

(** [handleCellChange]. The sheet object of the copied list is the one of
    the current state, updated in place; the result is the state after
    [setSheets(newSheets)]. With no sheet at the active index the read of
    [.data] throws. *)
Definition handleCellChange (rowIndex colIndex : nat) (v : string) (st : ViewerState)
  : Completion ViewerState :=
  match sheets st !! activeSheetIndex st with
  | None => Throw (TypeError_undefined "data")
  | Some sheet =>
      let '(data1, row) :=
        match Js.get (data sheet) rowIndex with
        | Some row => (data sheet, row)
        | None => (Js.set (data sheet) rowIndex [], [])
        end in
      let existingCell := Js.get row colIndex in
      let newCell :=
        match existingCell with
        | Some existingCell => with_value existingCell v
        | None => blank_record v
        end in
      let data2 := Js.set data1 rowIndex (Js.set row colIndex newCell) in
      Normal (setSheets (<[activeSheetIndex st := with_data sheet data2]> (sheets st)) st)
  end.

(** ** Rendering *)

(** [Math.max(...xs, last)] on array lengths, where a hole of the spread
    array is [undefined] and makes the result [NaN] ([None]). *)
Definition math_max (xs : list (option nat)) (last : nat) : option nat :=
  foldr (fun x acc => n ← x; m ← acc; Some (Nat.max n m)) (Some last) xs.

Definition maxRows (activeSheet : Sheet) : nat :=
  Nat.max (length (data activeSheet)) 20.

(** [data.map(row => row.length)] keeps the holes of [data]. *)
Definition maxCols (activeSheet : Sheet) : option nat :=
  math_max (map (fmap (length (A:=option Cell))) (data activeSheet)) 10.

(** [Array.from({ length }, f)]: a [NaN] length is length 0. *)
Definition Array_from {A : Type} (len : option nat) (f : nat -> A) : list A :=
  map f (seq 0 (default 0%nat len)).

Definition getCellDisplayValue (showFormulas : bool) (cell : option Cell) : string :=
  match cell with
  | None => to_string (Js.or VUndefined (VStr ""))
  | Some cell =>
      match formula cell with
      | Some f =>
          if showFormulas && string_truthy f then "=" +:+ f
          else to_string (Js.or (value cell) (VStr ""))
      | None => to_string (Js.or (value cell) (VStr ""))
      end
  end.

(** The grid as rendered: the sheet tabs with the index each one selects,
    the column headers, and the text of every input, row by row. *)
Record Grid : Type := {
  grid_tabs : list (nat * string);
  grid_header : list string;
  grid_body : list (list string);
}.

Inductive View : Type :=
| ViewLoading
| ViewError (message : string)
| ViewNothing
| ViewGrid (g : Grid).

Definition render_grid (st : ViewerState) (activeSheet : Sheet) : Grid :=
  let maxRows := maxRows activeSheet in
  let maxCols := maxCols activeSheet in
  {| grid_tabs :=
       if decide (1 < length (sheets st))%nat
       then imap (fun index sheet => (index, name sheet)) (sheets st)
       else [];
     grid_header :=
       Array_from maxCols (fun colIndex => getColumnLabel (Z.of_nat colIndex));
     grid_body :=
       Array_from (Some maxRows) (fun rowIndex =>
         Array_from maxCols (fun colIndex =>
           getCellDisplayValue (showFormulas st)
             (get2 (data activeSheet) rowIndex colIndex))) |}.

(** The component's render: the early returns, then the grid; with no
    sheet at the active index the read of [activeSheet.data] throws. *)
Definition render (st : ViewerState) : Completion View :=
  if isLoading st then Normal ViewLoading
  else
    match string_or_null (error st) with
    | Some message => Normal (ViewError message)
    | None =>
        if decide (length (sheets st) = 0)%nat then Normal ViewNothing
        else
          match sheets st !! activeSheetIndex st with
          | Some activeSheet => Normal (ViewGrid (render_grid st activeSheet))
          | None => Throw (TypeError_undefined "data")
          end
    end.

(** ** The component as a transition system

    An event is a file handed to the component, or a click or a keystroke
    on an element of the rendered grid. *)
Inductive Event : Type :=
| Load (read : Completion WorkBook)
| SelectTab (index : nat)
| ToggleFormulas
| Edit (rowIndex colIndex : nat) (v : string).

Inductive step : ViewerState -> Event -> ViewerState -> Prop :=
| step_load st read :
    step st (Load read) (loadExcelFile read st)
| step_tab st g index sheetName :
    render st = Normal (ViewGrid g) ->
    (index, sheetName) ∈ grid_tabs g ->
    step st (SelectTab index) (setActiveSheetIndex index st)
| step_toggle st g :
    render st = Normal (ViewGrid g) ->
    step st ToggleFormulas (setShowFormulas (negb (showFormulas st)) st)
| step_edit st g rowIndex colIndex text v st' :
    render st = Normal (ViewGrid g) ->
    grid_body g !! rowIndex ≫= (fun r => r !! colIndex) = Some text ->
    handleCellChange rowIndex colIndex v st = Normal st' ->
    step st (Edit rowIndex colIndex v) st'.

Inductive reachable : ViewerState -> Prop :=
| reachable_initial : reachable initial_state
| reachable_step st e st' : reachable st -> step st e st' -> reachable st'.

End Viewer.

(** ** The rich-grid conversion ([ExcelViewer]) *)

Module Luckysheet.

Record CellType : Type := { fa : string; t : string }.

Record CellValue : Type := {
  v : JsVal;
  ct : CellType;
  m : string;
  bg : option string;
  bl : Z;
  it : Z;
  ff : string;
  fs : Z;
  fc : string;
  ht : Z;
  vt : Z;
}.

Record CellData : Type := { r : nat; c : nat; cell : CellValue }.

End Luckysheet.

(** [l.forEach((x, i) => ...)], the callback acting on a state. *)
Fixpoint forEach_from {A St : Type} (i : nat) (f : A -> nat -> St -> St)
  (l : list A) (s : St) : St :=
  match l with
  | [] => s
  | x :: l' => forEach_from (S i) f l' (f x i s)
  end.

Definition forEach {A St : Type} (f : A -> nat -> St -> St) (l : list A) (s : St) : St :=
  forEach_from 0 f l s.

(** [cell !== null && cell !== undefined && cell !== ''] *)
Definition is_filled (cell : JsVal) : bool :=
  match cell with
  | VNull | VUndefined | VStr EmptyString => false
  | _ => true
  end.

Definition luckysheet_cell `{Platform} (rowIndex colIndex : nat) (cell : JsVal)
  : Luckysheet.CellData :=
  {| Luckysheet.r := rowIndex;
     Luckysheet.c := colIndex;
     Luckysheet.cell :=
       {| Luckysheet.v := cell;
          Luckysheet.ct := {| Luckysheet.fa := "General"; Luckysheet.t := "g" |};
          Luckysheet.m := to_string cell;
          Luckysheet.bg := None;
          Luckysheet.bl := 0;
          Luckysheet.it := 0;
          Luckysheet.ff := "Arial";
          Luckysheet.fs := 10;
          Luckysheet.fc := "#000000";
          Luckysheet.ht := 1;
          Luckysheet.vt := 1 |} |}.

Definition convertToLuckysheetData `{Platform} (data : list (list JsVal))
  : list Luckysheet.CellData :=
  forEach (fun row rowIndex result =>
    forEach (fun cell colIndex result =>
      if is_filled cell
      then result ++ [luckysheet_cell rowIndex colIndex cell]
      else result) row result) data [].

(** ** Vocabulary of the statements *)

Section Vocabulary.
Context `{Platform}.

(** A matrix without holes, of [rows] rows of [cols] cells each. *)
Definition matrix_dims (m : Array (Array Cell)) (rows cols : Z) : Prop :=
  Z.of_nat (length m) = rows /\
  Forall (fun row => exists cells : Array Cell,
            row = Some cells /\ Z.of_nat (length cells) = cols /\
            Forall is_Some cells) m.

(** The end of the range a worksheet declares. *)
Definition declared_end (worksheet : WorkSheet) : CellAddress :=
  range_e (decode_range (ref_or_default worksheet)).

(** A well-formed workbook: every listed name has a worksheet, and the
    declared range of each ends at a cell address. *)
Definition well_formed (workbook : WorkBook) : Prop :=
  forall sheetName, sheetName ∈ SheetNames workbook ->
    exists worksheet, Sheets workbook !! sheetName = Some worksheet /\
      0 <= addr_r (declared_end worksheet) /\
      0 <= addr_c (declared_end worksheet).

(** A cell has a formula when the property is neither [null] nor empty. *)
Definition has_formula (cell : Cell) : bool :=
  match formula cell with
  | Some f => string_truthy f
  | None => false
  end.

(** What holds of every [value] the viewer stores: it is truthy or the
    empty string. *)
Definition stored_value (v : JsVal) : Prop := truthy v = true \/ v = VStr "".

Definition cells_of (m : Array (Array Cell)) (cell : Cell) : Prop :=
  exists row col, get2 m row col = Some cell.

(** The shape of a matrix: the length of every row, [None] at a hole. *)
Definition row_lengths (m : Array (Array Cell)) : list (option nat) :=
  map (fmap (M:=option) (length (A:=option Cell))) m.

(** What an edit stores at the edited position. *)
Definition edited_cell (m : Array (Array Cell)) (r c : nat) (v : string) : Cell :=
  match get2 m r c with
  | Some existingCell => with_value existingCell v
  | None => blank_record v
  end.

(** What every reachable state satisfies: the active index points into a
    non-empty sheet list, and every stored value is truthy or empty. *)
Definition state_invariant (st : ViewerState) : Prop :=
  (sheets st <> [] -> (activeSheetIndex st < length (sheets st))%nat) /\
  Forall (fun sheet => forall cell, cells_of (data sheet) cell ->
                                    stored_value (value cell)) (sheets st).

(** The records of the filled cells of one row, from column [c] on, and of
    the rows of a sheet, from row [r] on: the row-major enumeration. *)
Fixpoint row_records (r c : nat) (row : list JsVal) : list Luckysheet.CellData :=
  match row with
  | [] => []
  | cell :: row' =>
      (if is_filled cell then [luckysheet_cell r c cell] else [])
        ++ row_records r (S c) row'
  end.

Fixpoint sheet_records (r : nat) (data : list (list JsVal)) : list Luckysheet.CellData :=
  match data with
  | [] => []
  | row :: data' => row_records r 0 row ++ sheet_records (S r) data'
  end.

(** Row-major order on the positions of two records. *)
Definition position_lt (x y : Luckysheet.CellData) : Prop :=
  (Luckysheet.r x < Luckysheet.r y)%nat \/
  (Luckysheet.r x = Luckysheet.r y /\ (Luckysheet.c x < Luckysheet.c y)%nat).

End Vocabulary.

(** ** A platform to run the examples on

    A1-style addresses and the text of integer-valued doubles. The
    statements below are generic in the platform; this one serves to
    evaluate them on concrete workbooks. *)

Module Sample.

Definition decode_cell (cstr : string) : CellAddress :=
  let step (acc : Z * Z) (a : ascii) : Z * Z :=
    let cc := Z.of_N (N_of_ascii a) in
    if (48 <=? cc) && (cc <=? 57) then (10 * acc.1 + (cc - 48), acc.2)
    else if (65 <=? cc) && (cc <=? 90) then (acc.1, 26 * acc.2 + (cc - 64))
    else acc in
  let rc := fold_left step (list_ascii_of_string cstr) (0, 0) in
  {| addr_r := rc.1 - 1; addr_c := rc.2 - 1 |}.

Fixpoint split_colon (s : string) : string * option string :=
  match s with
  | EmptyString => (EmptyString, None)
  | String a s' =>
      if Ascii.eqb a ":" then (EmptyString, Some s')
      else let p := split_colon s' in (String a p.1, p.2)
  end.

Definition a1_decode_range (range : string) : Range :=
  match split_colon range with
  | (first, Some second) =>
      {| range_s := decode_cell first; range_e := decode_cell second |}
  | (first, None) =>
      {| range_s := decode_cell first; range_e := decode_cell first |}
  end.

Definition a1_encode_cell (a : CellAddress) : string :=
  getColumnLabel (addr_c a) +:+ pretty (addr_r a + 1).

Definition integer_text (x : float) : string :=
  match FloatOps.Prim2SF x with
  | SpecFloat.S754_zero _ => "0"
  | SpecFloat.S754_infinity false => "Infinity"
  | SpecFloat.S754_infinity true => "-Infinity"
  | SpecFloat.S754_nan => "NaN"
  | SpecFloat.S754_finite sign mant e =>
      if 0 <=? e
      then (if sign then "-" else "") +:+ pretty (Z.pos mant * 2 ^ e)
      else if (Z.pos mant) mod 2 ^ (- e) =? 0
      then (if sign then "-" else "") +:+ pretty (Z.pos mant / 2 ^ (- e))
      else "fraction"
  end.

Definition platform : Platform :=
  {| decode_range := a1_decode_range;
     encode_cell := a1_encode_cell;
     sheet_to_json := fun _ => [];
     number_to_string := integer_text;
     json_stringify := fun _ => "{}";
     decode_range_A1 := eq_refl |}.

(** A workbook of two sheets: a 2 x 2 sheet with a text cell, a formula
    cell and a formula cell of raw value 0 without formatted text; and a
    sheet with no declared range. *)
Definition bold_style : Style :=
  {| fill := Some {| bgColor := Some {| rgb := Some "FFFFFF00"; indexed := None |} |};
     font := Some {| font_color := None; font_bold := VBool true;
                     font_italic := VUndefined; font_sz := Some 11%float;
                     font_name := Some "Calibri" |};
     style_alignment := None;
     style_border := None |}.

Definition cell_text : CellObject :=
  {| cell_v := VStr "Total"; cell_w := Some "Total"; cell_f := None;
     cell_t := Some "s"; cell_s := Some bold_style |}.

Definition cell_sum : CellObject :=
  {| cell_v := VNum 42%float; cell_w := Some "42"; cell_f := Some "SUM(A2:A3)";
     cell_t := Some "n"; cell_s := None |}.

Definition cell_zero : CellObject :=
  {| cell_v := VNum 0%float; cell_w := None; cell_f := Some "B1-B1";
     cell_t := Some "n"; cell_s := None |}.

Definition worksheet1 : WorkSheet :=
  {| ws_ref := Some "A1:B2";
     ws_cells := <["A1" := cell_text]> (<["B1" := cell_sum]> (<["A2" := cell_zero]> ∅)) |}.

Definition worksheet2 : WorkSheet := {| ws_ref := None; ws_cells := ∅ |}.

Definition workbook : WorkBook :=
  {| SheetNames := ["Sheet1"; "Sheet2"];
     Sheets := <["Sheet1" := worksheet1]> (<["Sheet2" := worksheet2]> ∅) |}.

(** A workbook with one sheet and no declared range. *)
Definition small_workbook : WorkBook :=
  {| SheetNames := ["Sheet2"]; Sheets := <["Sheet2" := worksheet2]> ∅ |}.

(** A workbook that lists a sheet it has no worksheet for. *)
Definition broken_workbook : WorkBook :=
  {| SheetNames := ["Sheet1"]; Sheets := ∅ |}.

End Sample.

(** ** Inline styles of the inputs *)

(** The [React.CSSProperties] object [getCellStyle] builds: a property is
    [None] when it is not set. *)
Record CSSProperties : Type := {
  css_backgroundColor : option string;
  css_color : option string;
  css_fontWeight : option string;
  css_fontStyle : option string;
  css_fontSize : option string;
  css_fontFamily : option string;
  css_textAlign : option string;
  css_verticalAlign : option string;
}.

Definition getCellStyle (cell : option Cell) : CSSProperties :=
  match cell with
  | None =>
      {| css_backgroundColor := None; css_color := None;
         css_fontWeight := None; css_fontStyle := None;
         css_fontSize := None; css_fontFamily := None;
         css_textAlign := None; css_verticalAlign := None |}
  | Some cell =>
      {| css_backgroundColor := string_or_null (backgroundColor cell);
         css_color := string_or_null (textColor cell);
         css_fontWeight := if truthy (isBold cell) then Some "bold" else None;
         css_fontStyle := if truthy (isItalic cell) then Some "italic" else None;
         css_fontSize := string_or_null (fontSize cell);
         css_fontFamily := string_or_null (fontFamily cell);
         css_textAlign := horizontal <$> alignment cell;
         css_verticalAlign := vertical <$> alignment cell |}
  end.

(** ** Tooltips of the inputs *)

(** White space and line terminators among the code units below 256:
    tab, line feed, vertical tab, form feed, carriage return, space and
    no-break space. *)
Definition is_whitespace (a : ascii) : bool :=
  let cc := N_of_ascii a in
  ((9 <=? cc) && (cc <=? 13))%N || (cc =? 32)%N || (cc =? 160)%N.

Fixpoint trimStart (s : string) : string :=
  match s with
  | EmptyString => EmptyString
  | String a s' => if is_whitespace a then trimStart s' else s
  end.

Fixpoint trimEnd (s : string) : string :=
  match s with
  | EmptyString => EmptyString
  | String a s' =>
      match trimEnd s' with
      | EmptyString => if is_whitespace a then EmptyString else String a EmptyString
      | rest => String a rest
      end
  end.

(** [s.trim()] *)
Definition trim (s : string) : string := trimEnd (trimStart s).

(** The line feed of the template literals. *)
Definition newline : string := String "010" EmptyString.

Definition getCellTitle `{Platform} (cell : option Cell) : string :=
  match cell with
  | None => ""
  | Some cell =>
      let title := "" in
      let title :=
        match string_or_null (formula cell) with
        | Some f => title +:+ ("Formula: =" +:+ f +:+ newline)
        | None => title
        end in
      let title :=
        match value cell with
        | VUndefined => title
        | v => title +:+ ("Value: " +:+ to_string v +:+ newline)
        end in
      let title :=
        if string_truthy (type cell) then title +:+ ("Type: " +:+ type cell)
        else title in
      trim title
  end.

(** ** The rich-grid viewer ([ExcelViewer]) *)

(** [Math.max(...data.map(row => row.length), 0)] *)
Definition getMaxColumns (data : list (list JsVal)) : nat :=
  foldr Nat.max 0%nat (map length data).

(** [names.join(', ')] *)
Fixpoint join (sep : string) (names : list string) : string :=
  match names with
  | [] => ""
  | [x] => x
  | x :: rest => x +:+ sep +:+ join sep rest
  end.

Module ExcelViewer.

(** One entry of the list handed to [luckysheet.create] (the empty
    [config] object is left out). *)
Record SheetConfig : Type := {
  name : string;
  data : list Luckysheet.CellData;
  status : Z;
  order : nat;
  hide : Z;
  row : nat;
  column : nat;
  defaultRowHeight : Z;
  defaultColWidth : Z;
}.

(** The component's state, one field per [useState]. *)
Record State : Type := {
  isLoading : bool;
  error : option string;
  debugInfo : string;
}.

(** What the environment answers during one load: whether
    [window.luckysheet] is there at the start, the outcome of
    [file.arrayBuffer()], the outcome of [XLSX.read], and, when
    [initializeLuckysheet] runs, whether [luckysheetRef.current] and
    [window.luckysheet] are there. *)
Record LoadInput : Type := {
  library_at_start : bool;
  buffer : Completion unit;
  parsed : Completion WorkBook;
  container_at_init : bool;
  library_at_init : bool;
}.

(** What the rendered component shows. *)
Inductive View : Type :=
| ViewLoading (debug : string)
| ViewError (message debug : string)
| ViewContainer (debug : string).

End ExcelViewer.

Section RichGrid.
Context `{Platform}.

(** What [XLSX.utils.sheet_to_json] does when the workbook has no
    worksheet for the name and it is handed [undefined]. *)
Variable sheet_to_json_missing : Completion (list (list JsVal)).

(** The object the callback of [workbook.SheetNames.map] returns. *)
Definition sheet_config (sheetName : string) (index : nat) (rows : list (list JsVal))
  : ExcelViewer.SheetConfig :=
  {| ExcelViewer.name := sheetName;
     ExcelViewer.data := convertToLuckysheetData rows;
     ExcelViewer.status := if decide (index = 0%nat) then 1 else 0;
     ExcelViewer.order := index;
     ExcelViewer.hide := 0;
     ExcelViewer.row := Nat.max (length rows) 20;
     ExcelViewer.column := Nat.max (getMaxColumns rows) 10;
     ExcelViewer.defaultRowHeight := 19;
     ExcelViewer.defaultColWidth := 73 |}.

Definition sheet_rows_json (workbook : WorkBook) (sheetName : string)
  : Completion (list (list JsVal)) :=
  match Sheets workbook !! sheetName with
  | Some worksheet => Normal (sheet_to_json worksheet)
  | None => sheet_to_json_missing
  end.

(** [`Processing sheet "${sheetName}" with ${data.length} rows`] *)
Definition processing_message (sheetName : string) (rows : list (list JsVal)) : string :=
  "Processing sheet " +:+ String "034" sheetName +:+ String "034" " with "
    +:+ pretty (length rows) +:+ " rows".

(** [workbook.SheetNames.map((sheetName, index) => ...)] from [index] on:
    the last debug message set, and the entries or the exception. *)
Fixpoint map_sheets (workbook : WorkBook) (index : nat) (names : list string)
  (debug : string) : string * Completion (list ExcelViewer.SheetConfig) :=
  match names with
  | [] => (debug, Normal [])
  | sheetName :: rest =>
      match sheet_rows_json workbook sheetName with
      | Throw message => (debug, Throw message)
      | Normal rows =>
          let result :=
            map_sheets workbook (S index) rest (processing_message sheetName rows) in
          (result.1,
           bind result.2 (fun entries =>
             Normal (sheet_config sheetName index rows :: entries)))
      end
  end.

(** [`Found ${n} sheets: ${names.join(', ')}`] *)
Definition found_message (workbook : WorkBook) : string :=
  "Found " +:+ pretty (length (SheetNames workbook)) +:+ " sheets: "
    +:+ join ", " (SheetNames workbook).

Definition caught (message debug : string) : ExcelViewer.State :=
  {| ExcelViewer.isLoading := false;
     ExcelViewer.error := Some ("Error loading Excel file: " +:+ message);
     ExcelViewer.debugInfo := debug |}.

(** [loadExcelFile] of [ExcelViewer]: the state when the function is
    done, and the sheets handed to the timer [initializeLuckysheet] sets,
    if it sets one. The state the load starts from is overwritten field by
    field before anything else. *)
Definition ExcelViewer_loadExcelFile (input : ExcelViewer.LoadInput)
  : ExcelViewer.State * option (list ExcelViewer.SheetConfig) :=
  if negb (ExcelViewer.library_at_start input) then
    ({| ExcelViewer.isLoading := false;
        ExcelViewer.error :=
          Some "Luckysheet library is not loaded. Please refresh the page.";
        ExcelViewer.debugInfo := "Starting file processing..." |}, None)
  else
    match ExcelViewer.buffer input with
    | Throw message => (caught message "Starting file processing...", None)
    | Normal _ =>
        match ExcelViewer.parsed input with
        | Throw message =>
            (caught message "File read successfully, parsing Excel...", None)
        | Normal workbook =>
            match map_sheets workbook 0 (SheetNames workbook) (found_message workbook) with
            | (debug, Throw message) => (caught message debug, None)
            | (_, Normal entries) =>
                if ExcelViewer.container_at_init input
                   && ExcelViewer.library_at_init input
                then
                  ({| ExcelViewer.isLoading := false;
                      ExcelViewer.error := None;
                      ExcelViewer.debugInfo := "Initializing Luckysheet..." |},
                   Some entries)
                else
                  ({| ExcelViewer.isLoading := false;
                      ExcelViewer.error :=
                        Some "Luckysheet container or library not available";
                      ExcelViewer.debugInfo := "Initializing Luckysheet..." |},
                   None)
            end
        end
    end.

(** The callback of the timer: [create] is the outcome of
    [window.luckysheet.create]. *)
Definition timer_fires (create : Completion unit) (st : ExcelViewer.State)
  : ExcelViewer.State :=
  match create with
  | Normal _ =>
      {| ExcelViewer.isLoading := ExcelViewer.isLoading st;
         ExcelViewer.error := ExcelViewer.error st;
         ExcelViewer.debugInfo := "Luckysheet initialized successfully!" |}
  | Throw message =>
      {| ExcelViewer.isLoading := ExcelViewer.isLoading st;
         ExcelViewer.error :=
           Some ("Failed to initialize spreadsheet viewer: " +:+ message);
         ExcelViewer.debugInfo := ExcelViewer.debugInfo st |}
  end.

Definition ExcelViewer_render (st : ExcelViewer.State) : ExcelViewer.View :=
  if ExcelViewer.isLoading st then ExcelViewer.ViewLoading (ExcelViewer.debugInfo st)
  else
    match string_or_null (ExcelViewer.error st) with
    | Some message => ExcelViewer.ViewError message (ExcelViewer.debugInfo st)
    | None => ExcelViewer.ViewContainer (ExcelViewer.debugInfo st)
    end.

End RichGrid.

(** ** Vocabulary of the further statements *)

(** The matrix an edit leaves: the row, created empty when missing, with
    the edited record assigned, assigned back at its index. *)
Definition edited_data (m : Array (Array Cell)) (r c : nat) (v : string)
  : Array (Array Cell) :=
  Js.set m r (Js.set (default [] (Js.get m r)) c (edited_cell m r c v)).

(** No CSS property set. *)
Definition no_style : CSSProperties :=
  {| css_backgroundColor := None; css_color := None;
     css_fontWeight := None; css_fontStyle := None;
     css_fontSize := None; css_fontFamily := None;
     css_textAlign := None; css_verticalAlign := None |}.

(** The last character of a string is not white space; the empty string
    has none. *)
Fixpoint ends_clean (s : string) : bool :=
  match s with
  | EmptyString => true
  | String a EmptyString => negb (is_whitespace a)
  | String _ s' => ends_clean s'
  end.

(** A string that starts with ["#"]. *)
Definition hash_prefixed (s : string) : Prop := exists rest, s = "#" +:+ rest.

(** ** The column-label loop on doubles

    [getColumnLabel] above is the loop on integers. The source runs it on
    IEEE-754 doubles: [num / 26] is the rounded quotient, [Math.floor]
    and [%] are exact, [- 1] is rounded. For an integer index below [2^53]
    the two agree: the rounded quotient lies less than [1/32] from the
    true one, which lies at least [1/26] below the next integer. From
    about [2^55] on they differ. The loop on doubles is given fuel, as it
    does not end on [Infinity]. *)

(** The double of an integer of magnitude below [2^53]. *)
Definition double_of_Z (z : Z) : float :=
  match z with
  | Z0 => SF2Prim (S754_zero false)
  | Zpos p => SF2Prim (S754_finite false p 0)
  | Zneg p => SF2Prim (S754_finite true p 0)
  end.

(** The integer a finite double is, rounded towards zero; [None] for
    [NaN] and the infinities. *)
Definition double_trunc (x : float) : option Z :=
  match Prim2SF x with
  | S754_zero _ => Some 0
  | S754_finite sign m e =>
      let magnitude :=
        if 0 <=? e then Z.pos m * 2 ^ e else Z.pos m / 2 ^ (- e) in
      Some (if sign then - magnitude else magnitude)
  | _ => None
  end.

(** [Math.floor(x)] *)
Definition Math_floor (x : float) : float :=
  match Prim2SF x with
  | S754_finite sign m e =>
      if 0 <=? e then x
      else double_of_Z ((if sign then Z.neg m else Z.pos m) / 2 ^ (- e))
  | _ => x
  end.

(** [x % d] for an integer divisor [0 < d < 2^53]: exact, with the sign of
    the dividend. *)
Definition double_rem (x : float) (d : Z) : float :=
  match Prim2SF x with
  | S754_zero _ => x
  | S754_finite sign m e =>
      let r :=
        if 0 <=? e then double_of_Z ((Z.pos m * 2 ^ e) mod d)
        else FloatOps.Z.ldexp (double_of_Z (Z.pos m mod (d * 2 ^ (- e)))) e in
      if sign then (- r)%float else r
  | _ => nan
  end.

(** [String.fromCharCode(x)]: the code is [ToUint16(x)]. *)
Definition fromCharCode_double (x : float) : string :=
  fromCharCode (default 0 (double_trunc x) mod 65536).

Fixpoint getColumnLabel_double_loop (fuel : nat) (num : float) (label : string)
  : option string :=
  match fuel with
  | O => None
  | S fuel' =>
      if (0 <=? num)%float
      then getColumnLabel_double_loop fuel'
             (Math_floor (num / 26) - 1)%float
             (fromCharCode_double (65 + double_rem num 26)%float +:+ label)
      else Some label
  end.

(** [getColumnLabel] on a double; [None] when the fuel runs out. *)
Definition getColumnLabel_double (fuel : nat) (index : float) : option string :=
  getColumnLabel_double_loop fuel index "".

(** * Proofs *)

(** ** Column labels *)

Section ColumnLabel.

Lemma string_app_assoc (s t u : string) : (s +:+ t) +:+ u = s +:+ (t +:+ u).
Proof.
  induction s as [|a s IH]; [reflexivity|].
  change (String a ((s +:+ t) +:+ u) = String a (s +:+ (t +:+ u))).
  now rewrite IH.
Qed.

Lemma letter_value_fromCharCode (r : Z) (label : string) :
  0 <= r < 26 ->
  fromCharCode (65 + r) +:+ label =
    String (ascii_of_N (Z.to_N (65 + r))) label
  /\ letter_value (ascii_of_N (Z.to_N (65 + r))) = r + 1
  /\ is_upper (ascii_of_N (Z.to_N (65 + r))) = true.
Proof.
  intros Hr. split; [reflexivity|].
  unfold letter_value, is_upper.
  rewrite N_ascii_embedding by lia.
  rewrite Z2N.id by lia. split; [lia|].
  apply andb_true_iff. split; apply Z.leb_le; lia.
Qed.

Lemma fromCharCode_letter (a : ascii) :
  is_upper a = true ->
  fromCharCode (65 + (letter_value a - 1)) = String a EmptyString.
Proof.
  intros _. unfold fromCharCode, letter_value.
  replace (65 + (Z.of_N (N_of_ascii a) - 64 - 1)) with (Z.of_N (N_of_ascii a)) by lia.
  now rewrite N2Z.id, ascii_N_embedding.
Qed.

Lemma is_upper_letter_value (a : ascii) :
  is_upper a = true -> 1 <= letter_value a <= 26.
Proof.
  unfold is_upper, letter_value. intros [H1 H2]%andb_true_iff.
  apply Z.leb_le in H1, H2. lia.
Qed.

(** One turn of the loop, and its exit. *)
Lemma getColumnLabel_loop_step (num : Z) (label : string) :
  0 <= num ->
  getColumnLabel_loop num label =
    getColumnLabel_loop (num / 26 - 1)
      (fromCharCode (65 + num mod 26) +:+ label).
Proof.
  intros Hn. rewrite getColumnLabel_loop_equation_1.
  destruct (decide (0 <= num)); [reflexivity | lia].
Qed.

Lemma getColumnLabel_loop_exit (num : Z) (label : string) :
  num < 0 -> getColumnLabel_loop num label = label.
Proof.
  intros Hn. rewrite getColumnLabel_loop_equation_1.
  destruct (decide (0 <= num)); [lia | reflexivity].
Qed.

(** Induction along the loop: [num] strictly decreases towards [-1]. *)
Lemma getColumnLabel_loop_ind (P : Z -> string -> Prop) :
  (forall num label, num < 0 -> P num label) ->
  (forall num label, 0 <= num ->
     P (num / 26 - 1) (fromCharCode (65 + num mod 26) +:+ label) ->
     P num label) ->
  forall num label, P num label.
Proof.
  intros Hexit Hstep num.
  destruct (Z_lt_le_dec num 0) as [Hneg|Hpos]; [auto|].
  revert num Hpos.
  apply (Z_lt_induction (fun num => forall label, P num label)).
  intros num IH label.
  destruct (Z_lt_le_dec num 0) as [Hneg|Hpos]; [auto|].
  apply Hstep; [assumption|].
  destruct (Z_lt_le_dec (num / 26 - 1) 0) as [Hq|Hq]; [auto|].
  apply IH. split; [assumption|].
  assert (num / 26 <= num) by (apply Z.div_le_upper_bound; lia). lia.
Qed.

Lemma bijective26_loop (num : Z) (label : string) :
  -1 <= num ->
  bijective26 0 (getColumnLabel_loop num label) = bijective26 (num + 1) label.
Proof.
  revert num label. apply (getColumnLabel_loop_ind
    (fun num label => -1 <= num -> bijective26 0 (getColumnLabel_loop num label)
                                   = bijective26 (num + 1) label)).
  - intros num label Hneg Hge. rewrite getColumnLabel_loop_exit by lia.
    now replace (num + 1) with 0 by lia.
  - intros num label Hpos IH _.
    rewrite getColumnLabel_loop_step by assumption.
    assert (Hm : 0 <= num mod 26 < 26) by (apply Z.mod_pos_bound; lia).
    assert (Hq : 0 <= num / 26) by (apply Z.div_pos; lia).
    rewrite IH by lia.
    destruct (letter_value_fromCharCode (num mod 26) label Hm) as (-> & Hv & _).
    cbn [bijective26]. rewrite Hv. f_equal.
    pose proof (Z.div_mod num 26). lia.
Qed.

Lemma all_upper_loop (num : Z) (label : string) :
  all_upper label = true ->
  all_upper (getColumnLabel_loop num label) = true.
Proof.
  revert num label. apply (getColumnLabel_loop_ind
    (fun num label => all_upper label = true ->
                      all_upper (getColumnLabel_loop num label) = true)).
  - intros num label Hneg Hl. now rewrite getColumnLabel_loop_exit.
  - intros num label Hpos IH Hl.
    rewrite getColumnLabel_loop_step by assumption. apply IH.
    assert (Hm : 0 <= num mod 26 < 26) by (apply Z.mod_pos_bound; lia).
    destruct (letter_value_fromCharCode (num mod 26) label Hm) as (-> & _ & Hu).
    cbn [all_upper]. now rewrite Hu.
Qed.

(** The accumulator is only ever prepended to. *)
Lemma getColumnLabel_loop_append (num : Z) (label rest : string) :
  getColumnLabel_loop num (label +:+ rest) =
    getColumnLabel_loop num label +:+ rest.
Proof.
  revert rest. revert num label. apply (getColumnLabel_loop_ind
    (fun num label => forall rest,
       getColumnLabel_loop num (label +:+ rest)
       = getColumnLabel_loop num label +:+ rest)).
  - intros num label Hneg rest. now rewrite !getColumnLabel_loop_exit.
  - intros num label Hpos IH rest.
    rewrite (getColumnLabel_loop_step num label),
      (getColumnLabel_loop_step num (label +:+ rest)) by assumption.
    rewrite <- string_app_assoc. apply IH.
Qed.

Lemma getColumnLabel_loop_app (num : Z) (label : string) :
  getColumnLabel_loop num label = getColumnLabel_loop num "" +:+ label.
Proof. exact (getColumnLabel_loop_append num "" label). Qed.

(** Reading a label back and printing it again gives the label: the loop
    peels the letters off from the last one. *)
Lemma getColumnLabel_loop_bijective26 (s : string) :
  all_upper s = true ->
  forall acc label, 0 <= acc ->
    getColumnLabel_loop (bijective26 acc s - 1) label =
      getColumnLabel_loop (acc - 1) "" +:+ s +:+ label.
Proof.
  induction s as [|a s IH]; intros Hs acc label Hacc.
  - apply getColumnLabel_loop_app.
  - cbn [all_upper] in Hs. apply andb_true_iff in Hs as [Ha Hs].
    pose proof (is_upper_letter_value a Ha) as Hv.
    cbn [bijective26]. rewrite IH by (assumption || lia).
    rewrite (getColumnLabel_loop_step (26 * acc + letter_value a - 1)) by lia.
    replace ((26 * acc + letter_value a - 1) / 26 - 1) with (acc - 1).
    2:{ f_equal. apply (Z.div_unique _ 26 acc (letter_value a - 1)); lia. }
    replace ((26 * acc + letter_value a - 1) mod 26) with (letter_value a - 1).
    2:{ apply (Z.mod_unique _ 26 acc (letter_value a - 1)); lia. }
    rewrite fromCharCode_letter by assumption.
    rewrite (getColumnLabel_loop_app (acc - 1) (String a "" +:+ "")).
    rewrite string_app_assoc. reflexivity.
Qed.

Lemma string_app_nil_r (s : string) : s +:+ "" = s.
Proof.
  induction s as [|a s IH]; [reflexivity|].
  change (String a (s +:+ "") = String a s). now rewrite IH.
Qed.

Lemma label_index_getColumnLabel (n : Z) :
  0 <= n -> label_index (getColumnLabel n) = n.
Proof.
  intros Hn. unfold label_index, getColumnLabel.
  rewrite bijective26_loop by lia. cbn [bijective26]. lia.
Qed.

Lemma getColumnLabel_label_index (s : string) :
  all_upper s = true -> getColumnLabel (label_index s) = s.
Proof.
  intros Hs. unfold getColumnLabel, label_index.
  rewrite (getColumnLabel_loop_bijective26 s Hs 0 "") by lia.
  rewrite (getColumnLabel_loop_exit (0 - 1)) by lia.
  change ("" +:+ s +:+ "") with (s +:+ "")%string. apply string_app_nil_r.
Qed.

End ColumnLabel.

(** C5, as the code has it. For an integer index [0 <= n < 2^53],
    [getColumnLabel n] is the bijective base-26 label of [n]: the six
    sample labels are as listed, the label reads back as [n], it is the
    only string of upper-case letters that does, it is not empty, it has
    only the letters [A]-[Z], and two such indices with the same label are
    equal. *)
Theorem getColumnLabel_bijective_base26 (n m : Z)
    (Hn : 0 <= n < 2 ^ 53) (Hm : 0 <= m < 2 ^ 53) :
  (getColumnLabel 0 = "A" /\ getColumnLabel 25 = "Z" /\
   getColumnLabel 26 = "AA" /\ getColumnLabel 27 = "AB" /\
   getColumnLabel 701 = "ZZ" /\ getColumnLabel 702 = "AAA")
  /\ label_index (getColumnLabel n) = n
  /\ (forall s : string,
        all_upper s = true -> label_index s = n -> getColumnLabel n = s)
  /\ getColumnLabel n <> ""
  /\ all_upper (getColumnLabel n) = true
  /\ (getColumnLabel n = getColumnLabel m -> n = m).
Proof.
  split; [repeat split; reflexivity|].
  assert (Hn0 : 0 <= n) by lia. assert (Hm0 : 0 <= m) by lia.
  pose proof (label_index_getColumnLabel n Hn0) as Hrt.
  split; [assumption|]. split; [|split; [|split]].
  - intros s Hs <-. now apply getColumnLabel_label_index.
  - intros Heq. rewrite Heq in Hrt. unfold label_index in Hrt. cbn in Hrt. lia.
  - apply all_upper_loop. reflexivity.
  - intros Heq. rewrite <- Hrt, Heq. now apply label_index_getColumnLabel.
Qed.

Lemma getColumnLabel_bijective_base26_witness :
  label_index (getColumnLabel 27) = 27 /\ getColumnLabel 27 <> "" /\
  all_upper (getColumnLabel 27) = true /\
  (getColumnLabel 27 = getColumnLabel 730 -> 27 = 730) /\
  getColumnLabel_double 64 27%float = Some (getColumnLabel 27) /\
  getColumnLabel_double 64 730%float = Some (getColumnLabel 730).
Proof.
  destruct (getColumnLabel_bijective_base26 27 730) as (_ & H1 & _ & H2 & H3 & H4);
    [lia | lia |].
  split; [exact H1|]. split; [exact H2|]. split; [exact H3|]. split; [exact H4|].
  split; reflexivity.
Defined.

(** C5 as stated fails on large indices: the source divides doubles, and
    at [2^55] the rounded quotient [2^55 / 26] is one above the integer
    quotient. The label the loop returns there reads back as [2^55 + 26],
    so it is not the label of [2^55]; likewise the label returned at
    [10^21] does not read back as [10^21]. *)
Lemma getColumnLabel_double_large_index :
  Math_floor (0x1p55 / 26)%float = 1385722962267845%float /\
  2 ^ 55 / 26 = 1385722962267844 /\
  getColumnLabel_double 64 0x1p55%float = Some "IUESHZICGSSY" /\
  label_index "IUESHZICGSSY" = 2 ^ 55 + 26 /\
  label_index "IUESHZICGSSY" <> 2 ^ 55 /\
  getColumnLabel_double 64 1e21%float = Some "OLZYYSELZQOWGEM" /\
  label_index "OLZYYSELZQOWGEM" <> 10 ^ 21.
Proof. repeat split; try (vm_compute; reflexivity); vm_compute; discriminate. Qed.

(** Below [2^53] the two loops agree, here on sample indices up to the
    largest. *)
Lemma getColumnLabel_double_agrees :
  Forall (fun n => getColumnLabel_double 64 (double_of_Z n) = Some (getColumnLabel n))
    [0; 25; 26; 27; 701; 702; 16383; 2 ^ 31; 2 ^ 32 - 1; 2 ^ 53 - 1].
Proof.
  assert (Hlabel : forall n s, all_upper s = true -> label_index s = n ->
            getColumnLabel_double 64 (double_of_Z n) = Some s ->
            getColumnLabel_double 64 (double_of_Z n) = Some (getColumnLabel n)).
  { intros n s Hs <- ->. now rewrite getColumnLabel_label_index. }
  repeat constructor.
  all: match goal with
       | |- getColumnLabel_double 64 (double_of_Z ?n) = _ =>
           let s := eval vm_compute in (getColumnLabel_double 64 (double_of_Z n)) in
           match s with
           | Some ?l => apply (Hlabel n l); vm_compute; reflexivity
           end
       end.
Qed.

(** ** Arrays with holes *)

Section Arrays.
Context {A : Type}.
Implicit Types (a : Array A) (x : A) (i j : nat).

Lemma length_set a i x : length (Js.set a i x) = Nat.max (length a) (S i).
Proof.
  unfold Js.set. destruct (decide (i < length a)%nat).
  - rewrite length_insert. lia.
  - rewrite !length_app, length_replicate. cbn. lia.
Qed.

Lemma lookup_set_eq a i x : Js.set a i x !! i = Some (Some x).
Proof.
  unfold Js.set. destruct (decide (i < length a)%nat).
  - now apply list_lookup_insert_eq.
  - rewrite lookup_app_r by lia.
    rewrite lookup_app_r by (rewrite length_replicate; lia).
    rewrite length_replicate.
    now replace (i - length a - (i - length a))%nat with 0%nat by lia.
Qed.

Lemma get_set_eq a i x : Js.get (Js.set a i x) i = Some x.
Proof. unfold Js.get. now rewrite lookup_set_eq. Qed.

Lemma get_set_ne a i j x : i <> j -> Js.get (Js.set a i x) j = Js.get a j.
Proof.
  intros Hne. unfold Js.get, Js.set. destruct (decide (i < length a)%nat).
  - now rewrite list_lookup_insert_ne.
  - destruct (decide (j < length a)%nat).
    + now rewrite lookup_app_l.
    + rewrite lookup_app_r by lia. rewrite (lookup_ge_None_2 a) by lia.
      destruct (decide (j - length a < i - length a)%nat).
      * rewrite lookup_app_l by (rewrite length_replicate; lia).
        rewrite lookup_replicate_2 by lia. reflexivity.
      * rewrite lookup_app_r by (rewrite length_replicate; lia).
        rewrite length_replicate.
        destruct (j - length a - (i - length a))%nat eqn:E; [lia|].
        reflexivity.
Qed.

(** Inside the array an assignment changes one slot and nothing else. *)
Lemma set_in_range a i x : (i < length a)%nat -> Js.set a i x = <[i := Some x]> a.
Proof. intros Hi. unfold Js.set. now rewrite decide_True. Qed.

(** Assigning just past the end is a push. *)
Lemma set_push a x : Js.set a (length a) x = a ++ [Some x].
Proof.
  unfold Js.set. rewrite decide_False by lia.
  now replace (length a - length a)%nat with 0%nat by lia.
Qed.

(** A read that finds a value is a read inside the array. *)
Lemma get_Some_lt a i x : Js.get a i = Some x -> (i < length a)%nat.
Proof.
  unfold Js.get. destruct (a !! i) eqn:E; [|discriminate].
  intros _. now apply lookup_lt_Some in E.
Qed.

Lemma get_Some_lookup a i x : Js.get a i = Some x <-> a !! i = Some (Some x).
Proof.
  unfold Js.get. destruct (a !! i) as [[y|]|]; cbn; split; congruence.
Qed.

End Arrays.

(** A counting loop that assigns slot [i] at turn [i] builds the array of
    its values, without holes. *)
Lemma for_range_set {A : Type} (n : Z) (f : nat -> A) :
  for_range n (fun i a => Js.set a i (f i)) [] =
    map (fun i => Some (f i)) (seq 0 (Z.to_nat n)).
Proof.
  unfold for_range. generalize (Z.to_nat n) as k. clear n. intros k.
  enough (Hgen : forall start (acc : Array A),
    length acc = start ->
    fold_left (fun s i => Js.set s i (f i)) (seq start k) acc =
      acc ++ map (fun i => Some (f i)) (seq start k)).
  { now rewrite (Hgen 0%nat []). }
  induction k as [|k IH]; intros start acc Hlen; cbn [seq fold_left map].
  - now rewrite app_nil_r.
  - subst start. rewrite set_push.
    rewrite IH by (rewrite length_app; cbn; lia).
    now rewrite <- app_assoc.
Qed.

(** ** Loading *)

Section Loading.
Context `{Platform}.

Lemma cellMatrix_row_eq worksheet cols row :
  cellMatrix_row worksheet cols row =
    map (fun col => Some (cell_at worksheet row col)) (seq 0 (Z.to_nat cols)).
Proof. apply for_range_set. Qed.

Lemma cellMatrix_eq worksheet rows cols :
  cellMatrix worksheet rows cols =
    map (fun row => Some (cellMatrix_row worksheet cols row)) (seq 0 (Z.to_nat rows)).
Proof. apply (for_range_set rows (cellMatrix_row worksheet cols)). Qed.

Lemma cellMatrix_row_length worksheet cols row :
  length (cellMatrix_row worksheet cols row) = Z.to_nat cols.
Proof. now rewrite cellMatrix_row_eq, length_map, length_seq. Qed.

Lemma cellMatrix_length worksheet rows cols :
  length (cellMatrix worksheet rows cols) = Z.to_nat rows.
Proof. now rewrite cellMatrix_eq, length_map, length_seq. Qed.

Lemma cellMatrix_lookup worksheet rows cols row :
  (row < Z.to_nat rows)%nat ->
  cellMatrix worksheet rows cols !! row = Some (Some (cellMatrix_row worksheet cols row)).
Proof.
  intros Hrow. rewrite cellMatrix_eq, list_lookup_fmap.
  now rewrite lookup_seq_lt.
Qed.

Lemma cellMatrix_row_lookup worksheet cols row col :
  (col < Z.to_nat cols)%nat ->
  cellMatrix_row worksheet cols row !! col = Some (Some (cell_at worksheet row col)).
Proof.
  intros Hcol. rewrite cellMatrix_row_eq, list_lookup_fmap.
  now rewrite lookup_seq_lt.
Qed.

Lemma cellMatrix_get2 worksheet rows cols row col cell :
  get2 (cellMatrix worksheet rows cols) row col = Some cell ->
  cell = cell_at worksheet row col.
Proof.
  unfold get2. intros Hget.
  destruct (Js.get (cellMatrix worksheet rows cols) row) as [cells|] eqn:Hrow;
    [|discriminate].
  cbn in Hget.
  pose proof (get_Some_lt _ _ _ Hrow) as Hlt. rewrite cellMatrix_length in Hlt.
  apply get_Some_lookup in Hrow. rewrite cellMatrix_lookup in Hrow by assumption.
  injection Hrow as <-.
  pose proof (get_Some_lt _ _ _ Hget) as Hlt'. rewrite cellMatrix_row_length in Hlt'.
  apply get_Some_lookup in Hget. rewrite cellMatrix_row_lookup in Hget by assumption.
  congruence.
Qed.

Lemma cellMatrix_dims worksheet rows cols :
  0 <= rows -> 0 <= cols ->
  matrix_dims (cellMatrix worksheet rows cols) rows cols.
Proof.
  intros Hrows Hcols. split.
  - rewrite cellMatrix_length. lia.
  - rewrite cellMatrix_eq. apply Forall_fmap, Forall_forall. intros row _.
    exists (cellMatrix_row worksheet cols row). split; [reflexivity|]. split.
    + rewrite cellMatrix_row_length. lia.
    + rewrite cellMatrix_row_eq. apply Forall_fmap, Forall_forall.
      intros col _. now eexists.
Qed.

End Loading.

Section CellRecordFields.
Context `{Platform}.

Lemma indexedColors_lookup (i : Z) :
  (if decide (i = 0) then None
   else match indexedColors !! i with
        | Some css => if string_truthy css then Some css else None
        | None => None
        end) = indexedColors !! i.
Proof.
  destruct (decide (i = 0)) as [->|]; [reflexivity|].
  destruct (indexedColors !! i) as [css|] eqn:Hi; [|reflexivity].
  apply elem_of_list_to_map_2 in Hi.
  repeat (apply elem_of_cons in Hi as [[= -> ->]|Hi]; [reflexivity|]).
  now apply elem_of_nil in Hi.
Qed.

(** The colour helpers, read off the colour object. *)
Lemma rgb_css_lookup (color : Color) :
  rgb_css color =
    match string_or_null (rgb color) with
    | Some argb => Some ("#" +:+ slice 2 argb)
    | None => None
    end.
Proof. unfold rgb_css, string_or_null. now destruct (rgb color) as [[|a argb]|]. Qed.

Lemma getCellBackgroundColor_lookup (cell : CellObject) :
  getCellBackgroundColor cell =
    match (cell_s cell ≫= fill) ≫= bgColor with
    | Some color =>
        match string_or_null (rgb color) with
        | Some argb => Some ("#" +:+ slice 2 argb)
        | None => indexed color ≫= (fun i => indexedColors !! i)
        end
    | None => None
    end.
Proof.
  unfold getCellBackgroundColor.
  destruct ((cell_s cell ≫= fill) ≫= bgColor) as [color|]; [|reflexivity].
  rewrite rgb_css_lookup.
  destruct (string_or_null (rgb color)); [reflexivity|].
  destruct (indexed color) as [i|]; [|reflexivity].
  apply indexedColors_lookup.
Qed.

Lemma getCellTextColor_lookup (cell : CellObject) :
  getCellTextColor cell =
    match (cell_s cell ≫= font) ≫= font_color with
    | Some color =>
        match string_or_null (rgb color) with
        | Some argb => Some ("#" +:+ slice 2 argb)
        | None => None
        end
    | None => None
    end.
Proof.
  unfold getCellTextColor.
  destruct ((cell_s cell ≫= font) ≫= font_color) as [color|]; [|reflexivity].
  apply rgb_css_lookup.
Qed.

End CellRecordFields.

(** C7. The matrix built for a worksheet has [range.e.r + 1] rows; every
    row index below that holds a row of [range.e.c + 1] slots; every slot
    holds a record. For an address the worksheet has a cell at, the fields
    of the record are read off that cell: the value is [w || v || ''], the
    formula [f || null], the type [t || 'n'], the style [s]; the
    background is ["#"] and [s.fill.bgColor.rgb] without its first two
    characters, or else the entry of the indexed-colour table at
    [s.fill.bgColor.indexed]; the text colour is ["#"] and
    [s.font.color.rgb] without its first two characters; bold and italic
    are [s.font.bold] and [s.font.italic]; the font size is [s.font.sz]
    followed by ["px"]; the font family is [s.font.name]; the alignment is
    [s.alignment] with ['left'] and ['middle'] for a missing side; the
    border is [s.border]; and each of them is null (undefined for bold and
    italic) when a link of its path is missing or falsy. Otherwise the
    record is the default record (empty-string value, null formula, type
    ["n"], no style attribute). *)
Theorem cellMatrix_rectangular_populated `{Platform}
    (sheetName : string) (worksheet : WorkSheet) :
  let sheet := sheet_of_worksheet sheetName worksheet in
  let rows := Z.to_nat (sheet_rows worksheet) in
  let cols := Z.to_nat (sheet_cols worksheet) in
  length (data sheet) = rows /\
  forall row, (row < rows)%nat ->
    exists cells, data sheet !! row = Some (Some cells) /\
      length cells = cols /\
      forall col, (col < cols)%nat ->
        exists record, cells !! col = Some (Some record) /\
          match ws_cells worksheet !!
                  encode_cell {| addr_r := Z.of_nat row; addr_c := Z.of_nat col |} with
          | Some cell =>
              value record =
                Js.or (Js.or (of_opt_string (cell_w cell)) (cell_v cell)) (VStr "") /\
              formula record = string_or_null (cell_f cell) /\
              type record =
                match string_or_null (cell_t cell) with
                | Some t => t
                | None => "n"
                end /\
              style record = cell_s cell /\
              backgroundColor record =
                match (cell_s cell ≫= fill) ≫= bgColor with
                | Some color =>
                    match string_or_null (rgb color) with
                    | Some argb => Some ("#" +:+ slice 2 argb)
                    | None => indexed color ≫= (fun i => indexedColors !! i)
                    end
                | None => None
                end /\
              textColor record =
                match (cell_s cell ≫= font) ≫= font_color with
                | Some color =>
                    match string_or_null (rgb color) with
                    | Some argb => Some ("#" +:+ slice 2 argb)
                    | None => None
                    end
                | None => None
                end /\
              isBold record =
                match cell_s cell ≫= font with
                | Some f => font_bold f
                | None => VUndefined
                end /\
              isItalic record =
                match cell_s cell ≫= font with
                | Some f => font_italic f
                | None => VUndefined
                end /\
              fontSize record =
                match (cell_s cell ≫= font) ≫= font_sz with
                | Some sz =>
                    if number_truthy sz then Some (number_to_string sz +:+ "px")
                    else None
                | None => None
                end /\
              fontFamily record = string_or_null ((cell_s cell ≫= font) ≫= font_name) /\
              alignment record =
                match cell_s cell ≫= style_alignment with
                | Some a =>
                    Some {| horizontal :=
                              match string_or_null (style_horizontal a) with
                              | Some h => h
                              | None => "left"
                              end;
                            vertical :=
                              match string_or_null (style_vertical a) with
                              | Some v => v
                              | None => "middle"
                              end |}
                | None => None
                end /\
              border record = cell_s cell ≫= style_border /\
              originalCell record = Some cell
          | None =>
              record =
                {| value := VStr ""; formula := None; type := "n";
                   style := None; backgroundColor := None; textColor := None;
                   isBold := VBool false; isItalic := VBool false;
                   fontSize := None; fontFamily := None; alignment := None;
                   border := None; originalCell := None; debugInfo := None |}
          end.
Proof.
  cbn zeta. unfold sheet_of_worksheet; cbn [data]. split.
  - apply cellMatrix_length.
  - intros row Hrow.
    exists (cellMatrix_row worksheet (sheet_cols worksheet) row).
    split; [now apply cellMatrix_lookup|].
    split; [apply cellMatrix_row_length|].
    intros col Hcol. exists (cell_at worksheet row col).
    split; [now apply cellMatrix_row_lookup|].
    unfold cell_at.
    destruct (ws_cells worksheet !! _) as [cell|]; [|reflexivity].
    cbn [cell_record value formula type style backgroundColor textColor isBold
         isItalic fontSize fontFamily alignment border originalCell].
    rewrite getCellBackgroundColor_lookup, getCellTextColor_lookup.
    repeat split.
Qed.

Lemma cellMatrix_rectangular_populated_witness :
  exists cells styled unstyled,
    data (sheet_of_worksheet (H:=Sample.platform) "Sheet1" Sample.worksheet1) !! 0%nat
      = Some (Some cells) /\
    length cells = 2%nat /\
    cells !! 0%nat = Some (Some styled) /\
    cells !! 1%nat = Some (Some unstyled) /\
    (value styled = VStr "Total" /\ type styled = "s" /\
     backgroundColor styled = Some "#FFFF00" /\ textColor styled = None /\
     isBold styled = VBool true /\ isItalic styled = VUndefined /\
     fontSize styled = Some "11px" /\ fontFamily styled = Some "Calibri" /\
     alignment styled = None /\ border styled = None) /\
    (value unstyled = VStr "42" /\ formula unstyled = Some "SUM(A2:A3)" /\
     backgroundColor unstyled = None /\ isBold unstyled = VUndefined /\
     fontSize unstyled = None).
Proof.
  destruct (cellMatrix_rectangular_populated (H:=Sample.platform)
              "Sheet1" Sample.worksheet1) as [_ Hrows].
  destruct (Hrows 0%nat) as (cells & Hcells & Hlen & Hcols);
    [vm_compute; lia|].
  destruct (Hcols 0%nat) as (styled & Hstyled & Hs); [vm_compute; lia|].
  destruct (Hcols 1%nat) as (unstyled & Hunstyled & Hu); [vm_compute; lia|].
  exists cells, styled, unstyled.
  vm_compute in Hs. vm_compute in Hu.
  destruct Hs as (Hv & _ & Ht & _ & Hbg & Htc & Hb & Hi & Hfs & Hff & Ha & Hbd & _).
  destruct Hu as (Hv' & Hf' & _ & _ & Hbg' & _ & Hb' & _ & Hfs' & _).
  split; [exact Hcells|]. split; [exact Hlen|].
  split; [exact Hstyled|]. split; [exact Hunstyled|].
  split; [repeat split; assumption|]. repeat split; assumption.
Defined.

Section LoadingState.
Context `{Platform}.

Lemma map_completion_Forall2 {A B : Type} (f : A -> Completion B) l ys :
  map_completion f l = Normal ys -> Forall2 (fun x y => f x = Normal y) l ys.
Proof.
  revert ys. induction l as [|x l IH]; intros ys Hmap; cbn in Hmap.
  - injection Hmap as <-. constructor.
  - destruct (f x) as [y|m] eqn:Hfx; cbn in Hmap; [|discriminate].
    destruct (map_completion f l) as [ys'|m] eqn:Hl; cbn in Hmap; [|discriminate].
    injection Hmap as <-. constructor; auto.
Qed.

Lemma map_completion_total {A B : Type} (f : A -> Completion B) l :
  (forall x, x ∈ l -> exists y, f x = Normal y) ->
  exists ys, map_completion f l = Normal ys.
Proof.
  induction l as [|x l IH]; intros Hall; cbn.
  - now eexists.
  - destruct (Hall x) as [y ->]; [left|].
    destruct IH as [ys ->]; [intros x' Hx'; apply Hall; now right|].
    cbn. now eexists.
Qed.

(** The conversion completes when every listed name has a worksheet. *)
Lemma sheetsData_total workbook :
  (forall sheetName, sheetName ∈ SheetNames workbook ->
     is_Some (Sheets workbook !! sheetName)) ->
  exists sd, sheetsData workbook = Normal sd.
Proof.
  intros Hall. apply map_completion_total. intros sheetName Hin.
  destruct (Hall sheetName Hin) as [worksheet Hws].
  unfold sheet_entry. rewrite Hws. now eexists.
Qed.

Lemma sheetsData_entries workbook sd :
  sheetsData workbook = Normal sd ->
  Forall2 (fun sheetName sheet =>
             exists worksheet, Sheets workbook !! sheetName = Some worksheet /\
                               sheet = sheet_of_worksheet sheetName worksheet)
          (SheetNames workbook) sd.
Proof.
  intros Hsd. apply map_completion_Forall2 in Hsd.
  eapply Forall2_impl; [exact Hsd|]. cbn. intros sheetName sheet Hentry.
  unfold sheet_entry in Hentry.
  destruct (Sheets workbook !! sheetName) as [worksheet|]; [|discriminate].
  exists worksheet. split; congruence.
Qed.

(** The three ways [loadExcelFile] ends. *)
Lemma loadExcelFile_read_throws message st :
  loadExcelFile (Throw message) st =
    {| sheets := sheets st; activeSheetIndex := activeSheetIndex st;
       isLoading := false;
       error := Some ("Error loading Excel file: " +:+ message);
       showFormulas := showFormulas st |}.
Proof. reflexivity. Qed.

Lemma loadExcelFile_conversion_throws workbook message st :
  sheetsData workbook = Throw message ->
  loadExcelFile (Normal workbook) st =
    {| sheets := sheets st; activeSheetIndex := activeSheetIndex st;
       isLoading := false;
       error := Some ("Error loading Excel file: " +:+ message);
       showFormulas := showFormulas st |}.
Proof.
  intros Hsd. unfold loadExcelFile, load_updates. cbn [bind]. now rewrite Hsd.
Qed.

Lemma loadExcelFile_completes workbook sd st :
  sheetsData workbook = Normal sd ->
  loadExcelFile (Normal workbook) st =
    {| sheets := sd; activeSheetIndex := 0; isLoading := false;
       error := None; showFormulas := showFormulas st |}.
Proof.
  intros Hsd. unfold loadExcelFile, load_updates. cbn [bind]. now rewrite Hsd.
Qed.

(** Between the first and the last update of a load the loading flag is
    set, so that any render in between is the loading placeholder. *)
Lemma load_updates_loading read st k :
  (0 < k < length (load_updates read))%nat ->
  isLoading (apply_updates (take k (load_updates read)) st) = true.
Proof.
  unfold load_updates.
  destruct (bind read sheetsData) as [sd|message]; cbn [app length];
    intros Hk; do 5 (destruct k as [|k]; [first [lia | reflexivity]|]); lia.
Qed.

Lemma render_loading st : isLoading st = true -> render st = Normal ViewLoading.
Proof. unfold render. now intros ->. Qed.

(** Rendering a matrix without holes. *)
Lemma math_max_uniform (xs : list (option nat)) (k last : nat) :
  Forall (fun x => x = Some k) xs -> xs <> [] ->
  math_max xs last = Some (Nat.max k last).
Proof.
  intros Hall Hne. induction Hall as [|x xs -> Hall IH]; [congruence|].
  cbn. destruct xs as [|x' xs].
  - reflexivity.
  - unfold math_max in IH. rewrite IH by discriminate. cbn. f_equal. lia.
Qed.

Lemma maxCols_matrix_dims (sheet : Sheet) (rows cols : Z) :
  matrix_dims (data sheet) rows cols -> 1 <= rows ->
  maxCols sheet = Some (Nat.max (Z.to_nat cols) 10).
Proof.
  intros [Hlen Hrows] Hpos. unfold maxCols. apply math_max_uniform.
  - apply Forall_fmap. eapply Forall_impl; [exact Hrows|].
    cbn. intros row (cells & -> & Hc & _). cbn. f_equal. lia.
  - destruct (data sheet); cbn in *; [lia | discriminate].
Qed.

Lemma length_Array_from {A : Type} (len : option nat) (f : nat -> A) :
  length (Array_from len f) = default 0%nat len.
Proof. unfold Array_from. now rewrite length_map, length_seq. Qed.

Lemma render_grid_dims (st : ViewerState) (activeSheet : Sheet) (rows cols : Z) :
  matrix_dims (data activeSheet) rows cols -> 1 <= rows ->
  let g := render_grid st activeSheet in
  length (grid_body g) = Z.to_nat (Z.max rows 20) /\
  Forall (fun inputs => length inputs = Z.to_nat (Z.max cols 10)) (grid_body g) /\
  length (grid_header g) = Z.to_nat (Z.max cols 10).
Proof.
  intros Hdims Hpos. pose proof (maxCols_matrix_dims _ _ _ Hdims Hpos) as Hcols.
  destruct Hdims as [Hlen _]. cbn zeta. unfold render_grid. cbn [grid_body grid_header].
  rewrite Hcols. split; [|split].
  - rewrite length_Array_from. cbn. unfold maxRows. lia.
  - unfold Array_from at 1. apply Forall_fmap, Forall_forall. intros rowIndex _.
    unfold compose. rewrite length_Array_from. cbn. lia.
  - rewrite length_Array_from. cbn. lia.
Qed.

End LoadingState.

(** C3, as the code has it. When the byte read or the parse throws with
    message [m], the load leaves the error ["Error loading Excel file: " + m],
    the sheets untouched and the loading flag cleared. When the parse
    returns a workbook that has a worksheet for every listed sheet name,
    the load ends with a null error, the converted sheets stored and the
    flag cleared. An exception of the conversion itself is caught by the
    same handler and ends like a failed parse. *)
Theorem loadExcelFile_error_state `{Platform}
    (read : Completion WorkBook) (st : ViewerState) :
  let st' := loadExcelFile read st in
  (forall message, read = Throw message ->
     error st' = Some ("Error loading Excel file: " +:+ message) /\
     sheets st' = sheets st /\ isLoading st' = false)
  /\ (forall workbook, read = Normal workbook ->
        (forall sheetName, sheetName ∈ SheetNames workbook ->
           is_Some (Sheets workbook !! sheetName)) ->
        error st' = None /\ isLoading st' = false /\
        sheetsData workbook = Normal (sheets st'))
  /\ (forall workbook message, read = Normal workbook ->
        sheetsData workbook = Throw message ->
        error st' = Some ("Error loading Excel file: " +:+ message) /\
        sheets st' = sheets st /\ isLoading st' = false).
Proof.
  cbn zeta. split; [|split].
  - intros message ->. rewrite loadExcelFile_read_throws. auto.
  - intros workbook -> Hall.
    destruct (sheetsData_total workbook Hall) as [sd Hsd].
    rewrite (loadExcelFile_completes workbook sd st Hsd). auto.
  - intros workbook message -> Hsd.
    rewrite (loadExcelFile_conversion_throws workbook message st Hsd). auto.
Qed.

Lemma loadExcelFile_error_state_witness :
  let loaded := loadExcelFile (H:=Sample.platform) (Normal Sample.workbook) initial_state in
  let failed := loadExcelFile (H:=Sample.platform) (Throw "Unsupported file") loaded in
  (error loaded = None /\ isLoading loaded = false /\ length (sheets loaded) = 2%nat)
  /\ (error failed = Some "Error loading Excel file: Unsupported file" /\
      sheets failed = sheets loaded /\ isLoading failed = false).
Proof.
  cbn zeta. split.
  - destruct (loadExcelFile_error_state (H:=Sample.platform)
                (Normal Sample.workbook) initial_state) as (_ & Hok & _).
    destruct (Hok Sample.workbook eq_refl) as (He & Hl & Hs).
    + intros sheetName Hin. apply list_elem_of_In in Hin.
      destruct Hin as [<-|[<-|[]]]; vm_compute; eauto.
    + split; [exact He|]. split; [exact Hl|]. reflexivity.
  - destruct (loadExcelFile_error_state (H:=Sample.platform)
                (Throw "Unsupported file")
                (loadExcelFile (H:=Sample.platform) (Normal Sample.workbook) initial_state))
      as (Hthrow & _ & _).
    exact (Hthrow "Unsupported file" eq_refl).
Defined.

(** C3 as stated fails: a workbook that parses but lists a sheet it has
    no worksheet for ends the load with an error. *)
Lemma loadExcelFile_parsed_workbook_error :
  error (loadExcelFile (H:=Sample.platform) (Normal Sample.broken_workbook) initial_state)
    = Some "Error loading Excel file: Cannot read properties of undefined (reading '!ref')"
  /\ error (loadExcelFile (H:=Sample.platform) (Normal Sample.broken_workbook) initial_state)
       <> None.
Proof. split; [reflexivity | discriminate]. Qed.

(** C4, as the code has it. Loading a well-formed workbook stores one
    sheet per sheet name, in the order of the names; the matrix of each
    has [range.e.r + 1] rows of [range.e.c + 1] cells, which is 1 x 1 when
    the worksheet declares no range; and the grid rendered for the active
    sheet has [max(rows, 20)] rows of [max(cols, 10)] inputs under as many
    column headers. *)
Theorem loadExcelFile_sheets_and_grid `{Platform}
    (workbook : WorkBook) (st : ViewerState) :
  well_formed workbook ->
  let st' := loadExcelFile (Normal workbook) st in
  Forall2 (fun sheetName sheet =>
             name sheet = sheetName /\
             exists worksheet, Sheets workbook !! sheetName = Some worksheet /\
               matrix_dims (data sheet)
                 (addr_r (declared_end worksheet) + 1)
                 (addr_c (declared_end worksheet) + 1) /\
               (string_or_null (ws_ref worksheet) = None ->
                matrix_dims (data sheet) 1 1))
          (SheetNames workbook) (sheets st')
  /\ forall activeSheet,
       sheets st' !! activeSheetIndex st' = Some activeSheet ->
       exists worksheet g,
         Sheets workbook !! name activeSheet = Some worksheet /\
         render st' = Normal (ViewGrid g) /\
         length (grid_body g) =
           Z.to_nat (Z.max (addr_r (declared_end worksheet) + 1) 20) /\
         Forall (fun inputs =>
                   length inputs =
                     Z.to_nat (Z.max (addr_c (declared_end worksheet) + 1) 10))
                (grid_body g) /\
         length (grid_header g) =
           Z.to_nat (Z.max (addr_c (declared_end worksheet) + 1) 10).
Proof.
  intros Hwf. cbn zeta.
  destruct (sheetsData_total workbook) as [sd Hsd].
  { intros sheetName Hin. destruct (Hwf sheetName Hin) as (ws & -> & _). eauto. }
  rewrite (loadExcelFile_completes workbook sd st Hsd).
  cbn [sheets activeSheetIndex].
  assert (Hentries : Forall2 (fun sheetName sheet =>
             name sheet = sheetName /\
             exists worksheet, Sheets workbook !! sheetName = Some worksheet /\
               1 <= addr_r (declared_end worksheet) + 1 /\
               matrix_dims (data sheet)
                 (addr_r (declared_end worksheet) + 1)
                 (addr_c (declared_end worksheet) + 1) /\
               (string_or_null (ws_ref worksheet) = None ->
                matrix_dims (data sheet) 1 1))
          (SheetNames workbook) sd).
  { pose proof (sheetsData_entries workbook sd Hsd) as Hent.
    apply Forall2_same_length_lookup. split; [now apply Forall2_length in Hent|].
    intros i sheetName sheet Hname Hsheet.
    destruct (Forall2_lookup_lr _ _ _ _ _ _ Hent Hname Hsheet) as (ws & Hws & ->).
    destruct (Hwf sheetName) as (ws' & Hws' & Hr & Hc).
    { eapply list_elem_of_lookup_2; eauto. }
    assert (ws' = ws) as -> by congruence.
    split; [reflexivity|]. exists ws. split; [assumption|].
    split; [lia|]. unfold declared_end in *. split.
    - apply cellMatrix_dims; unfold sheet_rows, sheet_cols; lia.
    - intros Hnone. cbn [data sheet_of_worksheet].
      assert (Href : ref_or_default ws = "A1:A1").
      { unfold ref_or_default, string_or_default. now rewrite Hnone. }
      unfold sheet_rows, sheet_cols. rewrite Href, decode_range_A1. cbn.
      apply (cellMatrix_dims ws 1 1); lia. }
  split.
  - eapply Forall2_impl; [exact Hentries|]. cbn.
    intros sheetName sheet (Hn & ws & Hws & _ & Hd & Hdef). eauto.
  - intros activeSheet Hactive.
    destruct (Forall2_lookup_r _ _ _ _ _ Hentries Hactive)
      as (sheetName & _ & Hn & ws & Hws & Hpos & Hd & _).
    exists ws. eexists. split; [now rewrite Hn|].
    assert (Hrender : forall st0, isLoading st0 = false -> error st0 = None ->
              sheets st0 = sd -> activeSheetIndex st0 = 0%nat ->
              render st0 = Normal (ViewGrid (render_grid st0 activeSheet))).
    { intros st0 Hl He Hs Ha. unfold render. rewrite Hl, He, Hs, Ha. cbn.
      rewrite Hactive.
      destruct (decide (length sd = 0%nat)) as [Hz|]; [|reflexivity].
      apply lookup_lt_Some in Hactive. lia. }
    split; [now apply Hrender|].
    apply (render_grid_dims _ activeSheet _ _ Hd Hpos).
Qed.

Lemma loadExcelFile_sheets_and_grid_witness :
  let st' := loadExcelFile (H:=Sample.platform) (Normal Sample.workbook) initial_state in
  map name (sheets st') = ["Sheet1"; "Sheet2"] /\
  exists g, render (H:=Sample.platform) st' = Normal (ViewGrid g) /\
            length (grid_body g) = 20%nat /\ length (grid_header g) = 10%nat.
Proof.
  cbn zeta. split; [reflexivity|].
  destruct (loadExcelFile_sheets_and_grid (H:=Sample.platform)
              Sample.workbook initial_state) as [_ Hgrid].
  - intros sheetName Hin. apply list_elem_of_In in Hin.
    destruct Hin as [<-|[<-|[]]]; eexists; (split; [reflexivity|]);
      vm_compute; split; discriminate.
  - destruct (Hgrid (sheet_of_worksheet (H:=Sample.platform) "Sheet1" Sample.worksheet1) eq_refl)
      as (ws & g & Hws & Hrender & Hrows & _ & Hcols).
    exists g. split; [exact Hrender|].
    injection Hws as <-. split; [exact Hrows | exact Hcols].
Defined.

(** C4 as stated fails at its last part: for a 1 x 1 sheet the rendered
    grid has 20 rows and 10 columns, not 1 and 1. *)
Lemma rendered_grid_is_padded :
  let st' := loadExcelFile (H:=Sample.platform) (Normal Sample.small_workbook) initial_state in
  well_formed (H:=Sample.platform) Sample.small_workbook /\
  exists activeSheet g,
    sheets st' !! activeSheetIndex st' = Some activeSheet /\
    render (H:=Sample.platform) st' = Normal (ViewGrid g) /\
    matrix_dims (data activeSheet) 1 1 /\
    length (grid_body g) = 20%nat /\ length (grid_header g) = 10%nat /\
    length (grid_body g) <> length (data activeSheet) /\
    Forall (fun inputs => length inputs = 10%nat) (grid_body g).
Proof.
  cbn zeta. split.
  - intros sheetName Hin. apply list_elem_of_In in Hin.
    destruct Hin as [<-|[]]. eexists. split; [reflexivity|].
    vm_compute. split; discriminate.
  - eexists. eexists. split; [reflexivity|]. split; [reflexivity|].
    split; [|split; [reflexivity|split; [reflexivity|split]]].
    + split; [reflexivity|]. repeat constructor. eexists.
      split; [reflexivity|]. split; [reflexivity|]. repeat constructor. eauto.
    + vm_compute. discriminate.
    + vm_compute. repeat constructor.
Qed.

(** ** Editing *)

Section Editing.
Context `{Platform}.

Lemma get2_set_set (m : Array (Array Cell)) (cells : Array Cell) r c x r' c' :
  get2 (Js.set m r (Js.set cells c x)) r' c' =
    if decide (r' = r)
    then (if decide (c' = c) then Some x else Js.get cells c')
    else get2 m r' c'.
Proof.
  unfold get2. destruct (decide (r' = r)) as [->|Hr].
  - rewrite get_set_eq. cbn. destruct (decide (c' = c)) as [->|Hc].
    + apply get_set_eq.
    + now apply get_set_ne.
  - now rewrite get_set_ne by congruence.
Qed.

(** The matrix [handleCellChange] leaves in the active sheet. *)
Lemma handleCellChange_data st sheet r c v :
  sheets st !! activeSheetIndex st = Some sheet ->
  exists data2,
    handleCellChange r c v st =
      Normal (setSheets (<[activeSheetIndex st := with_data sheet data2]> (sheets st)) st)
    /\ get2 data2 r c = Some (edited_cell (data sheet) r c v)
    /\ (forall r' c', (r', c') <> (r, c) ->
          get2 data2 r' c' = get2 (data sheet) r' c')
    /\ (forall cells, Js.get (data sheet) r = Some cells ->
          data2 = Js.set (data sheet) r (Js.set cells c (edited_cell (data sheet) r c v)))
    /\ (Js.get (data sheet) r = None ->
          data2 = Js.set (Js.set (data sheet) r []) r (Js.set [] c (blank_record v))).
Proof.
  intros Hsheet. unfold handleCellChange. rewrite Hsheet.
  assert (Hedit : edited_cell (data sheet) r c v =
            match Js.get (data sheet) r with
            | Some cells =>
                match Js.get cells c with
                | Some existingCell => with_value existingCell v
                | None => blank_record v
                end
            | None => blank_record v
            end).
  { unfold edited_cell, get2. now destruct (Js.get (data sheet) r). }
  rewrite Hedit.
  destruct (Js.get (data sheet) r) as [cells|] eqn:Hrow; cbv beta iota zeta.
  - eexists. split; [reflexivity|]. split; [|split; [|split]].
    + rewrite get2_set_set, !decide_True by reflexivity. reflexivity.
    + intros r' c' Hne. rewrite get2_set_set.
      destruct (decide (r' = r)) as [->|]; [|reflexivity].
      rewrite decide_False by congruence. unfold get2. now rewrite Hrow.
    + intros cells' [= <-]. reflexivity.
    + discriminate.
  - assert (Hnil : Js.get (A:=Cell) [] c = None) by reflexivity.
    rewrite Hnil.
    eexists. split; [reflexivity|]. split; [|split; [|split]].
    + rewrite get2_set_set, !decide_True by reflexivity. reflexivity.
    + intros r' c' Hne. rewrite get2_set_set.
      destruct (decide (r' = r)) as [->|].
      * rewrite decide_False by congruence. unfold get2. rewrite Hrow.
        unfold Js.get. now rewrite lookup_nil.
      * unfold get2. now rewrite get_set_ne by congruence.
    + discriminate.
    + reflexivity.
Qed.

End Editing.

(** C2. Editing a position that holds a record with text [v] gives a state
    in which that record has value [v] and every other field as before;
    every other position of the active sheet reads as before and the shape
    of its matrix, its name and its raw rows are as before; every other
    sheet, and the rest of the state, is as before. *)
Theorem handleCellChange_frame `{Platform}
    (st : ViewerState) (sheet : Sheet) (rowIndex colIndex : nat)
    (existingCell : Cell) (v : string) :
  sheets st !! activeSheetIndex st = Some sheet ->
  get2 (data sheet) rowIndex colIndex = Some existingCell ->
  exists st' sheet' cell',
    handleCellChange rowIndex colIndex v st = Normal st' /\
    sheets st' !! activeSheetIndex st = Some sheet' /\
    get2 (data sheet') rowIndex colIndex = Some cell' /\
    (value cell' = VStr v /\
     formula cell' = formula existingCell /\
     type cell' = type existingCell /\
     style cell' = style existingCell /\
     backgroundColor cell' = backgroundColor existingCell /\
     textColor cell' = textColor existingCell /\
     isBold cell' = isBold existingCell /\
     isItalic cell' = isItalic existingCell /\
     fontSize cell' = fontSize existingCell /\
     fontFamily cell' = fontFamily existingCell /\
     alignment cell' = alignment existingCell /\
     border cell' = border existingCell /\
     originalCell cell' = originalCell existingCell /\
     debugInfo cell' = debugInfo existingCell) /\
    (forall r c, (r, c) <> (rowIndex, colIndex) ->
       get2 (data sheet') r c = get2 (data sheet) r c) /\
    row_lengths (data sheet') = row_lengths (data sheet) /\
    name sheet' = name sheet /\ rawData sheet' = rawData sheet /\
    (forall j, j <> activeSheetIndex st -> sheets st' !! j = sheets st !! j) /\
    length (sheets st') = length (sheets st) /\
    activeSheetIndex st' = activeSheetIndex st /\
    isLoading st' = isLoading st /\ error st' = error st /\
    showFormulas st' = showFormulas st.
Proof.
  intros Hsheet Hcell.
  destruct (handleCellChange_data st sheet rowIndex colIndex v Hsheet)
    as (data2 & Hrun & Hat & Hother & Hrow & _).
  unfold edited_cell in Hat, Hrow. rewrite Hcell in Hat, Hrow.
  eexists. exists (with_data sheet data2), (with_value existingCell v).
  split; [exact Hrun|]. cbn [sheets setSheets activeSheetIndex isLoading error showFormulas].
  split; [apply list_lookup_insert_eq; now apply lookup_lt_Some in Hsheet|].
  cbn [data with_data name rawData].
  split; [exact Hat|]. split; [repeat split|]. split; [exact Hother|].
  split.
  - unfold get2 in Hcell.
    destruct (Js.get (data sheet) rowIndex) as [cells|] eqn:Hcells; [|discriminate].
    cbn in Hcell. rewrite (Hrow cells eq_refl).
    pose proof (get_Some_lt _ _ _ Hcells) as Hr.
    pose proof (get_Some_lt _ _ _ Hcell) as Hc.
    rewrite (set_in_range (data sheet)) by assumption.
    rewrite (set_in_range cells) by assumption.
    unfold row_lengths.
    rewrite (list_fmap_insert (fmap (M:=option) (length (A:=option Cell)))).
    cbn. rewrite length_insert.
    apply list_insert_id. rewrite list_lookup_fmap.
    apply get_Some_lookup in Hcells. now rewrite Hcells.
  - split; [reflexivity|]. split; [reflexivity|].
    split; [intros j Hj; now apply list_lookup_insert_ne|].
    split; [apply length_insert|]. auto.
Qed.

Lemma handleCellChange_frame_witness :
  let st := loadExcelFile (H:=Sample.platform) (Normal Sample.workbook) initial_state in
  exists st' sheet' cell',
    handleCellChange 0 0 "Sum" st = Normal st' /\
    sheets st' !! 0%nat = Some sheet' /\
    get2 (data sheet') 0 0 = Some cell' /\
    value cell' = VStr "Sum" /\
    backgroundColor cell' = Some "#FFFF00" /\ isBold cell' = VBool true /\
    get2 (data sheet') 0 1 =
      Some (cell_record (H:=Sample.platform) Sample.cell_sum).
Proof.
  cbn zeta.
  destruct (handleCellChange_frame (H:=Sample.platform)
              (loadExcelFile (H:=Sample.platform) (Normal Sample.workbook) initial_state)
              (sheet_of_worksheet (H:=Sample.platform) "Sheet1" Sample.worksheet1)
              0 0 (cell_record (H:=Sample.platform) Sample.cell_text) "Sum"
              eq_refl eq_refl)
    as (st' & sheet' & cell' & Hrun & Hs & Hc & Hfields & Hother & _).
  exists st', sheet', cell'.
  destruct Hfields as (Hv & _ & _ & _ & Hbg & _ & Hb & _).
  split; [exact Hrun|]. split; [exact Hs|]. split; [exact Hc|].
  split; [exact Hv|]. split; [exact Hbg|]. split; [exact Hb|].
  rewrite (Hother 0%nat 1%nat) by discriminate. reflexivity.
Defined.

(** C9. The grid rendered for a matrix without holes has at least 20 rows
    of at least 10 inputs. With a sheet at the active index, which a
    rendered grid has, the edit returns a state for every [rowIndex] and
    [colIndex], inside the matrix or not: the position
    then holds the existing record with the typed value, or, where there
    was none, the default record (null formula, type ["n"], no styling)
    with the typed value; a missing row is first created empty, so that it
    holds nothing but that record. *)
Theorem handleCellChange_total `{Platform}
    (st : ViewerState) (sheet : Sheet) (rowIndex colIndex : nat) (v : string) :
  sheets st !! activeSheetIndex st = Some sheet ->
  (forall rows cols, matrix_dims (data sheet) rows cols -> 1 <= rows ->
     (20 <= length (grid_body (render_grid st sheet)))%nat /\
     Forall (fun inputs => (10 <= length inputs)%nat)
       (grid_body (render_grid st sheet))) /\
  exists st' sheet',
    handleCellChange rowIndex colIndex v st = Normal st' /\
    sheets st' !! activeSheetIndex st' = Some sheet' /\
    get2 (data sheet') rowIndex colIndex =
      Some (match get2 (data sheet) rowIndex colIndex with
            | Some existingCell => with_value existingCell v
            | None =>
                {| value := VStr v; formula := None; type := "n";
                   style := None; backgroundColor := None; textColor := None;
                   isBold := VBool false; isItalic := VBool false;
                   fontSize := None; fontFamily := None; alignment := None;
                   border := None; originalCell := None; debugInfo := None |}
            end) /\
    (Js.get (data sheet) rowIndex = None ->
       Js.get (data sheet') rowIndex = Some (Js.set [] colIndex (blank_record v)) /\
       forall c, c <> colIndex -> get2 (data sheet') rowIndex c = None).
Proof.
  intros Hsheet. split.
  { intros rows cols Hdims Hpos.
    destruct (render_grid_dims st sheet rows cols Hdims Hpos) as (Hr & Hc & _).
    split; [lia|]. eapply Forall_impl; [exact Hc|]. cbn. lia. }
  destruct (handleCellChange_data st sheet rowIndex colIndex v Hsheet)
    as (data2 & Hrun & Hat & Hother & _ & Hrow).
  eexists. exists (with_data sheet data2).
  split; [exact Hrun|]. cbn [sheets setSheets activeSheetIndex data with_data].
  split; [apply list_lookup_insert_eq; now apply lookup_lt_Some in Hsheet|].
  split; [exact Hat|].
  intros Hnone. split.
  - rewrite (Hrow Hnone). apply get_set_eq.
  - intros c Hc. rewrite Hother by congruence. unfold get2. now rewrite Hnone.
Qed.

Lemma handleCellChange_total_witness :
  let st := loadExcelFile (H:=Sample.platform) (Normal Sample.small_workbook) initial_state in
  exists st' sheet',
    handleCellChange 5 3 "x" st = Normal st' /\
    sheets st' !! 0%nat = Some sheet' /\
    get2 (data sheet') 5 3 = Some (blank_record "x") /\
    Js.get (data sheet') 5 = Some [None; None; None; Some (blank_record "x")].
Proof.
  cbn zeta.
  destruct (handleCellChange_total (H:=Sample.platform)
              (loadExcelFile (H:=Sample.platform) (Normal Sample.small_workbook) initial_state)
              (sheet_of_worksheet (H:=Sample.platform) "Sheet2" Sample.worksheet2)
              5 3 "x" eq_refl)
    as (_ & st' & sheet' & Hrun & Hs & Hc & Hrow).
  exists st', sheet'. split; [exact Hrun|].
  assert (Hidx : activeSheetIndex st' = 0%nat).
  { vm_compute in Hrun. injection Hrun as <-. reflexivity. }
  rewrite Hidx in Hs.
  split; [exact Hs|]. split; [exact Hc|].
  exact (proj1 (Hrow eq_refl)).
Defined.

(** An edit two rows or more below the matrix leaves holes between the
    last row and the new one; the spread of the row lengths then contains
    [undefined], [Math.max] returns [NaN], and the next render has no
    column. *)
Lemma edit_below_matrix_renders_no_column :
  let st := loadExcelFile (H:=Sample.platform) (Normal Sample.small_workbook) initial_state in
  exists st' sheet' g,
    handleCellChange 5 3 "x" st = Normal st' /\
    sheets st' !! 0%nat = Some sheet' /\
    row_lengths (data sheet') = [Some 1; None; None; None; None; Some 4]%nat /\
    maxCols sheet' = None /\
    render (H:=Sample.platform) st' = Normal (ViewGrid g) /\
    grid_header g = [] /\ length (grid_body g) = 20%nat /\
    Forall (fun inputs => inputs = []) (grid_body g).
Proof.
  cbn zeta. eexists. eexists. eexists.
  split; [reflexivity|]. split; [reflexivity|]. split; [reflexivity|].
  split; [reflexivity|]. split; [reflexivity|]. split; [reflexivity|].
  split; [reflexivity|]. vm_compute. repeat constructor.
Qed.

(** ** Display text and the reachable states *)

Section Display.
Context `{Platform}.

Lemma stored_value_or (v : JsVal) :
  stored_value v -> to_string (Js.or v (VStr "")) = to_string v.
Proof. unfold Js.or. intros [->| ->]; reflexivity. Qed.

Lemma falsy_or (v : JsVal) :
  truthy v = false -> to_string (Js.or v (VStr "")) = "".
Proof. unfold Js.or. now intros ->. Qed.

Lemma stored_value_VStr (s : string) : stored_value (VStr s).
Proof. destruct s; [now right | now left]. Qed.

Lemma stored_value_cell_record (cell : CellObject) :
  stored_value (value (cell_record cell)).
Proof.
  cbn [value cell_record]. unfold stored_value.
  set (v := Js.or (of_opt_string (cell_w cell)) (cell_v cell)).
  unfold Js.or. destruct (truthy v) eqn:Hv; auto.
Qed.

Lemma stored_value_cell_at worksheet row col :
  stored_value (value (cell_at worksheet row col)).
Proof.
  unfold cell_at. destruct (ws_cells worksheet !! _).
  - apply stored_value_cell_record.
  - now right.
Qed.

Lemma getCellDisplayValue_value (toggle : bool) (cell : Cell) :
  toggle && has_formula cell = false ->
  getCellDisplayValue toggle (Some cell) = to_string (Js.or (value cell) (VStr "")).
Proof.
  unfold getCellDisplayValue, has_formula.
  destruct (formula cell) as [f|]; [|reflexivity]. now intros ->.
Qed.

Lemma getCellDisplayValue_formula (cell : Cell) (f : string) :
  formula cell = Some f -> f <> "" ->
  getCellDisplayValue true (Some cell) = "=" +:+ f.
Proof.
  intros Hf Hne. unfold getCellDisplayValue. rewrite Hf.
  destruct f; [congruence | reflexivity].
Qed.

(** What a rendered grid is. *)
Lemma render_ViewGrid st g :
  render st = Normal (ViewGrid g) ->
  exists activeSheet,
    sheets st !! activeSheetIndex st = Some activeSheet /\
    g = render_grid st activeSheet.
Proof.
  unfold render. destruct (isLoading st); [discriminate|].
  destruct (string_or_null (error st)); [discriminate|].
  destruct (decide (length (sheets st) = 0%nat)); [discriminate|].
  destruct (sheets st !! activeSheetIndex st) as [activeSheet|]; [|discriminate].
  intros [= <-]. eauto.
Qed.

Lemma lookup_Array_from {A : Type} (len : option nat) (f : nat -> A) i x :
  Array_from len f !! i = Some x -> x = f i.
Proof.
  unfold Array_from. rewrite list_lookup_fmap.
  destruct (seq 0 (default 0%nat len) !! i) as [j|] eqn:Hj; [|discriminate].
  apply lookup_seq in Hj as [-> _]. cbn. congruence.
Qed.

(** The text of the input rendered at a position. *)
Lemma render_grid_text st activeSheet rowIndex colIndex text :
  grid_body (render_grid st activeSheet) !! rowIndex
    ≫= (fun inputs => inputs !! colIndex) = Some text ->
  text = getCellDisplayValue (showFormulas st)
           (get2 (data activeSheet) rowIndex colIndex).
Proof.
  cbn [grid_body render_grid]. intros Htext.
  destruct (Array_from (Some (maxRows activeSheet)) _ !! rowIndex)
    as [inputs|] eqn:Hrow; [|discriminate].
  apply lookup_Array_from in Hrow. subst inputs. cbn in Htext.
  now apply lookup_Array_from in Htext.
Qed.

Lemma grid_tabs_index st activeSheet index sheetName :
  (index, sheetName) ∈ grid_tabs (render_grid st activeSheet) ->
  (index < length (sheets st))%nat.
Proof.
  cbn [grid_tabs render_grid].
  destruct (decide (1 < length (sheets st))%nat); [|now intros ?%elem_of_nil].
  intros (i & sheet & [= -> _] & Hsheet)%elem_of_lookup_imap.
  now apply lookup_lt_Some in Hsheet.
Qed.

(** The invariant, established by the initial state and kept by every
    event. *)
Lemma state_invariant_initial : state_invariant initial_state.
Proof. split; [now intros []|constructor]. Qed.

Lemma state_invariant_load read st :
  state_invariant st -> state_invariant (loadExcelFile read st).
Proof.
  intros [Hidx Hcells].
  assert (Hkeep : forall message,
    state_invariant
      {| sheets := sheets st; activeSheetIndex := activeSheetIndex st;
         isLoading := false;
         error := Some ("Error loading Excel file: " +:+ message);
         showFormulas := showFormulas st |}) by (intros; now split).
  destruct read as [workbook|message];
    [|rewrite loadExcelFile_read_throws; apply Hkeep].
  destruct (sheetsData workbook) as [sd|message] eqn:Hsd;
    [|rewrite (loadExcelFile_conversion_throws _ _ _ Hsd); apply Hkeep].
  rewrite (loadExcelFile_completes _ _ _ Hsd). split; cbn.
  - destruct sd; [congruence | cbn; lia].
  - apply sheetsData_entries in Hsd.
    apply Forall_forall. intros sheet Hin.
    apply list_elem_of_lookup in Hin as [i Hi].
    destruct (Forall2_lookup_r _ _ _ _ _ Hsd Hi) as (sheetName & _ & ws & _ & ->).
    intros cell (row & col & Hget). cbn [data sheet_of_worksheet] in Hget.
    apply cellMatrix_get2 in Hget as ->. apply stored_value_cell_at.
Qed.

Lemma state_invariant_edit st rowIndex colIndex v st' :
  state_invariant st ->
  handleCellChange rowIndex colIndex v st = Normal st' ->
  state_invariant st'.
Proof.
  intros [Hidx Hcells] Hrun.
  destruct (sheets st !! activeSheetIndex st) as [sheet|] eqn:Hsheet;
    [|unfold handleCellChange in Hrun; rewrite Hsheet in Hrun; discriminate].
  destruct (handleCellChange_data st sheet rowIndex colIndex v Hsheet)
    as (data2 & Hrun' & Hat & Hother & _).
  rewrite Hrun' in Hrun. injection Hrun as <-. split; cbn.
  - rewrite length_insert. intros _. now apply lookup_lt_Some in Hsheet.
  - apply Forall_insert; [assumption|].
    intros cell (r & c & Hget). cbn [data with_data] in Hget.
    destruct (decide ((r, c) = (rowIndex, colIndex))) as [[= -> ->]|Hne].
    + rewrite Hat in Hget. injection Hget as <-. unfold edited_cell.
      destruct (get2 (data sheet) rowIndex colIndex); apply stored_value_VStr.
    + rewrite Hother in Hget by assumption.
      eapply Forall_lookup_1 in Hcells; [|exact Hsheet].
      apply Hcells. now exists r, c.
Qed.

Lemma state_invariant_step st e st' :
  state_invariant st -> step st e st' -> state_invariant st'.
Proof.
  intros Hinv Hstep. destruct Hstep as
    [st read | st g index sheetName Hrender Htab | st g Hrender
    | st g rowIndex colIndex text v st' Hrender Htext Hrun].
  - now apply state_invariant_load.
  - apply render_ViewGrid in Hrender as (activeSheet & _ & ->).
    apply grid_tabs_index in Htab. destruct Hinv as [_ Hcells]. now split.
  - exact Hinv.
  - eapply state_invariant_edit; eauto.
Qed.

Lemma reachable_invariant st : reachable st -> state_invariant st.
Proof.
  induction 1 as [|st e st' _ IH Hstep].
  - apply state_invariant_initial.
  - eapply state_invariant_step; eauto.
Qed.

End Display.

Lemma reachable_sample_loaded :
  reachable (H:=Sample.platform)
    (loadExcelFile (H:=Sample.platform) (Normal Sample.workbook) initial_state).
Proof. eapply reachable_step; [apply reachable_initial | apply step_load]. Qed.

Lemma reachable_sample_second_tab :
  reachable (H:=Sample.platform)
    (setActiveSheetIndex 1
       (loadExcelFile (H:=Sample.platform) (Normal Sample.workbook) initial_state)).
Proof.
  eapply reachable_step; [apply reachable_sample_loaded|].
  eapply (step_tab _ _ 1%nat "Sheet2"); [reflexivity|].
  apply list_elem_of_In. vm_compute. auto.
Qed.

(** C8, as the code has it. A worksheet cell of raw value 0 or [false]
    without formatted text is stored with the empty string as value; and a
    record whose value is falsy displays as the empty string whenever its
    value is what is displayed, that is with the toggle off or without a
    formula. With the toggle on, a record that has a formula displays ["="]
    and the formula whatever its value. *)
Theorem falsy_value_display `{Platform}
    (cell : CellObject) (record : Cell) (toggle : bool) :
  (cell_w cell = None ->
   cell_v cell = VNum 0%float \/ cell_v cell = VBool false ->
   value (cell_record cell) = VStr "" /\
   (toggle && has_formula (cell_record cell) = false ->
    getCellDisplayValue toggle (Some (cell_record cell)) = "")) /\
  (truthy (value record) = false ->
   toggle && has_formula record = false ->
   getCellDisplayValue toggle (Some record) = "") /\
  (forall f, toggle = true -> formula record = Some f -> f <> "" ->
     getCellDisplayValue toggle (Some record) = "=" +:+ f).
Proof.
  assert (Hfalsy : forall r : Cell, truthy (value r) = false ->
            toggle && has_formula r = false ->
            getCellDisplayValue toggle (Some r) = "").
  { intros r Hv Hshown. rewrite getCellDisplayValue_value by assumption.
    now apply falsy_or. }
  split; [|split].
  - intros Hw Hv.
    assert (Hvalue : value (cell_record cell) = VStr "").
    { cbn [value cell_record]. rewrite Hw. now destruct Hv as [-> | ->]. }
    split; [assumption|]. apply Hfalsy. now rewrite Hvalue.
  - apply Hfalsy.
  - intros f -> Hf Hne. now apply getCellDisplayValue_formula.
Qed.

Lemma falsy_value_display_witness :
  let zero :=
    {| cell_v := VNum 0%float; cell_w := None; cell_f := None;
       cell_t := Some "n"; cell_s := None |} in
  value (cell_record (H:=Sample.platform) zero) = VStr "" /\
  getCellDisplayValue (H:=Sample.platform) true
    (Some (cell_record (H:=Sample.platform) zero)) = "" /\
  getCellDisplayValue (H:=Sample.platform) false
    (Some (cell_record (H:=Sample.platform) Sample.cell_zero)) = "" /\
  getCellDisplayValue (H:=Sample.platform) true
    (Some (cell_record (H:=Sample.platform) Sample.cell_zero)) = "=B1-B1".
Proof.
  cbn zeta.
  destruct (falsy_value_display (H:=Sample.platform)
              {| cell_v := VNum 0%float; cell_w := None; cell_f := None;
                 cell_t := Some "n"; cell_s := None |}
              (cell_record (H:=Sample.platform) Sample.cell_zero) true)
    as (Hstore & _ & Hformula).
  destruct (Hstore eq_refl (or_introl eq_refl)) as [Hvalue Hshown].
  destruct (falsy_value_display (H:=Sample.platform) Sample.cell_zero
              (cell_record (H:=Sample.platform) Sample.cell_zero) false)
    as (_ & Hoff & _).
  split; [exact Hvalue|]. split; [exact (Hshown eq_refl)|].
  split; [exact (Hoff eq_refl eq_refl)|].
  apply (Hformula "B1-B1"); [reflexivity | reflexivity | discriminate].
Defined.

(** C8 as stated fails: with the toggle on, a formula cell of raw value 0
    without formatted text, stored with the empty string as value, displays
    its formula and not the empty string. *)
Lemma zero_formula_cell_displays_formula :
  let record := cell_record (H:=Sample.platform) Sample.cell_zero in
  cell_v Sample.cell_zero = VNum 0%float /\ cell_w Sample.cell_zero = None /\
  value record = VStr "" /\ truthy (value record) = false /\
  getCellDisplayValue (H:=Sample.platform) true (Some record) = "=B1-B1" /\
  getCellDisplayValue (H:=Sample.platform) true (Some record) <> "".
Proof. cbn zeta. repeat split; try reflexivity. discriminate. Qed.

(** C10. In every state the viewer can reach, a non-empty sheet list has a
    sheet at the active index and rendering does not throw; a load that
    completes sets the index to 0, and between its first and its last
    state update only the loading placeholder is rendered; and a tab can
    only select an index below the number of sheets. *)
Theorem activeSheetIndex_valid `{Platform} (st : ViewerState) :
  reachable st ->
  (sheets st <> [] -> (activeSheetIndex st < length (sheets st))%nat) /\
  (exists view, render st = Normal view) /\
  (forall workbook sd, sheetsData workbook = Normal sd ->
     sheets (loadExcelFile (Normal workbook) st) = sd /\
     activeSheetIndex (loadExcelFile (Normal workbook) st) = 0%nat) /\
  (forall read k, (0 < k < length (load_updates read))%nat ->
     render (apply_updates (take k (load_updates read)) st) = Normal ViewLoading) /\
  (forall index st', step st (SelectTab index) st' ->
     (index < length (sheets st))%nat /\ st' = setActiveSheetIndex index st).
Proof.
  intros Hreach. destruct (reachable_invariant st Hreach) as [Hidx _].
  split; [exact Hidx|]. split; [|split; [|split]].
  - unfold render. destruct (isLoading st); [eauto|].
    destruct (string_or_null (error st)); [eauto|].
    destruct (decide (length (sheets st) = 0%nat)) as [|Hne]; [eauto|].
    destruct (lookup_lt_is_Some_2 (sheets st) (activeSheetIndex st)) as [sheet ->];
      [|eauto].
    apply Hidx. intros Hnil. now rewrite Hnil in Hne.
  - intros workbook sd Hsd. now rewrite (loadExcelFile_completes _ _ _ Hsd).
  - intros read k Hk. now apply render_loading, load_updates_loading.
  - intros index st' Hstep. inversion Hstep as [| ? g ? sheetName Hrender Htab | |]; subst.
    apply render_ViewGrid in Hrender as (activeSheet & _ & ->).
    apply grid_tabs_index in Htab. now split.
Qed.

Lemma activeSheetIndex_valid_witness :
  let st := setActiveSheetIndex 1
              (loadExcelFile (H:=Sample.platform) (Normal Sample.workbook) initial_state) in
  (activeSheetIndex st < length (sheets st))%nat /\
  exists view, render (H:=Sample.platform) st = Normal view.
Proof.
  cbn zeta.
  destruct (activeSheetIndex_valid (H:=Sample.platform) _ reachable_sample_second_tab)
    as (Hidx & Hrender & _).
  split; [apply Hidx; discriminate | exact Hrender].
Defined.

(** ** The rich-grid conversion *)

Section Conversion.
Context `{Platform}.

Lemma forEach_row r c row (result : list Luckysheet.CellData) :
  forEach_from c (fun cell colIndex result =>
      if is_filled cell
      then result ++ [luckysheet_cell r colIndex cell]
      else result) row result
  = result ++ row_records r c row.
Proof.
  revert c result. induction row as [|cell row IH]; intros c result; cbn.
  - now rewrite app_nil_r.
  - rewrite IH. destruct (is_filled cell); cbn; [|reflexivity].
    now rewrite <- app_assoc.
Qed.

Lemma forEach_sheet r data (result : list Luckysheet.CellData) :
  forEach_from r (fun row rowIndex result =>
      forEach (fun cell colIndex result =>
        if is_filled cell
        then result ++ [luckysheet_cell rowIndex colIndex cell]
        else result) row result) data result
  = result ++ sheet_records r data.
Proof.
  revert r result. induction data as [|row data IH]; intros r result; cbn.
  - now rewrite app_nil_r.
  - rewrite IH. unfold forEach. rewrite forEach_row. now rewrite <- app_assoc.
Qed.

Lemma elem_of_row_records r c row x :
  x ∈ row_records r c row <->
  exists k cell, row !! k = Some cell /\ is_filled cell = true /\
                 x = luckysheet_cell r (c + k) cell.
Proof.
  revert c. induction row as [|cell row IH]; intros c; cbn.
  - split; [now intros ?%elem_of_nil | now intros (k & cell & Hk & _)].
  - rewrite elem_of_app, IH. split.
    + intros [Hhead | (k & cell' & Hk & Hf & ->)].
      * destruct (is_filled cell) eqn:Hf; [|now apply elem_of_nil in Hhead].
        apply list_elem_of_singleton in Hhead as ->.
        exists 0%nat, cell. rewrite Nat.add_0_r. auto.
      * exists (S k), cell'. rewrite Nat.add_succ_r. auto.
    + intros ([|k] & cell' & Hk & Hf & ->); cbn in Hk.
      * injection Hk as ->. left. rewrite Hf, Nat.add_0_r.
        now apply list_elem_of_singleton.
      * right. exists k, cell'. rewrite Nat.add_succ_r. auto.
Qed.

Lemma elem_of_sheet_records r data x :
  x ∈ sheet_records r data <->
  exists i row k cell, data !! i = Some row /\ row !! k = Some cell /\
                       is_filled cell = true /\
                       x = luckysheet_cell (r + i) k cell.
Proof.
  revert r. induction data as [|row data IH]; intros r; cbn.
  - split; [now intros ?%elem_of_nil | now intros (i & row & k & cell & Hi & _)].
  - rewrite elem_of_app, IH, elem_of_row_records. split.
    + intros [(k & cell & Hk & Hf & ->) | (i & row' & k & cell & Hi & Hk & Hf & ->)].
      * exists 0%nat, row, k, cell. rewrite Nat.add_0_r. auto.
      * exists (S i), row', k, cell. rewrite Nat.add_succ_r. auto.
    + intros ([|i] & row' & k & cell & Hi & Hk & Hf & ->); cbn in Hi.
      * injection Hi as ->. left. exists k, cell. rewrite Nat.add_0_r. auto.
      * right. exists i, row', k, cell. rewrite Nat.add_succ_r. auto.
Qed.

Lemma row_records_sorted r c row :
  StronglySorted position_lt (row_records r c row).
Proof.
  revert c. induction row as [|cell row IH]; intros c; cbn; [constructor|].
  apply StronglySorted_app_2; [| |apply IH].
  - intros x y Hx (k & cell' & _ & _ & ->)%elem_of_row_records.
    destruct (is_filled cell); [|now apply elem_of_nil in Hx].
    apply list_elem_of_singleton in Hx as ->. right. cbn. lia.
  - destruct (is_filled cell); repeat constructor.
Qed.

Lemma sheet_records_sorted r data :
  StronglySorted position_lt (sheet_records r data).
Proof.
  revert r. induction data as [|row data IH]; intros r; cbn; [constructor|].
  apply StronglySorted_app_2; [|apply row_records_sorted|apply IH].
  intros x y (k & cell & _ & _ & ->)%elem_of_row_records
             (i & row' & k' & cell' & _ & _ & _ & ->)%elem_of_sheet_records.
  left. cbn. lia.
Qed.

End Conversion.

(** C6. The conversion returns the records of the filled cells (neither
    [null], nor [undefined], nor the empty string) in row-major order: a
    record is in the result exactly when it is the record of a filled cell
    at its position, positions strictly increase along the result, so that
    each filled cell has one record and the others none, and every record
    carries the row, the column, the raw value, its string form as text and
    the fixed style fields. *)
Theorem convertToLuckysheetData_records `{Platform} (data : list (list JsVal)) :
  let result := convertToLuckysheetData data in
  result = sheet_records 0 data /\
  (forall x, x ∈ result <->
     exists r c cell,
       data !! r ≫= (fun row => row !! c) = Some cell /\
       is_filled cell = true /\ x = luckysheet_cell r c cell) /\
  StronglySorted position_lt result /\
  (forall r c cell,
     luckysheet_cell r c cell =
       {| Luckysheet.r := r; Luckysheet.c := c;
          Luckysheet.cell :=
            {| Luckysheet.v := cell;
               Luckysheet.ct := {| Luckysheet.fa := "General"; Luckysheet.t := "g" |};
               Luckysheet.m := to_string cell;
               Luckysheet.bg := None; Luckysheet.bl := 0; Luckysheet.it := 0;
               Luckysheet.ff := "Arial"; Luckysheet.fs := 10;
               Luckysheet.fc := "#000000";
               Luckysheet.ht := 1; Luckysheet.vt := 1 |} |}) /\
  (forall cell, is_filled cell = true <->
     cell <> VNull /\ cell <> VUndefined /\ cell <> VStr "").
Proof.
  cbn zeta.
  assert (Heq : convertToLuckysheetData data = sheet_records 0 data).
  { exact (forEach_sheet 0 data []). }
  rewrite Heq. split; [reflexivity|]. split; [|split; [|split]].
  - intros x. rewrite elem_of_sheet_records. split.
    + intros (i & row & k & cell & Hi & Hk & Hf & ->).
      exists i, k, cell. rewrite Hi. cbn. auto.
    + intros (r & c & cell & Hget & Hf & ->).
      destruct (data !! r) as [row|] eqn:Hr; [|discriminate].
      exists r, row, c, cell. auto.
  - apply sheet_records_sorted.
  - reflexivity.
  - intros cell. destruct cell as [| | b | x | [|a s]]; cbn;
      split; try congruence; try (intros (? & ? & ?); congruence);
      repeat split; discriminate.
Qed.

Lemma convertToLuckysheetData_records_witness :
  let data := [[VStr "a"; VStr ""]; [VNull; VBool false]] in
  luckysheet_cell (H:=Sample.platform) 1 1 (VBool false)
    ∈ convertToLuckysheetData (H:=Sample.platform) data /\
  convertToLuckysheetData (H:=Sample.platform) data =
    [luckysheet_cell (H:=Sample.platform) 0 0 (VStr "a");
     luckysheet_cell (H:=Sample.platform) 1 1 (VBool false)].
Proof.
  cbn zeta.
  destruct (convertToLuckysheetData_records (H:=Sample.platform)
              [[VStr "a"; VStr ""]; [VNull; VBool false]]) as (Heq & Hmem & _).
  split; [|exact Heq].
  apply Hmem. exists 1%nat, 1%nat, (VBool false). auto.
Defined.

(** * Further properties *)

(** ** Column labels and headers *)

(** X1. The label of an integer index [0 <= n < 2^53] is the label of
    [n / 26 - 1] followed by the letter number [n mod 26]; below 26 it is
    that one letter, and a negative index has the empty label. *)
Theorem getColumnLabel_last_letter (n : Z) :
  (n < 0 -> getColumnLabel n = "") /\
  (0 <= n < 2 ^ 53 ->
     getColumnLabel n =
       getColumnLabel (n / 26 - 1) +:+ fromCharCode (65 + n mod 26)) /\
  (0 <= n < 26 -> getColumnLabel n = fromCharCode (65 + n)).
Proof.
  assert (Hstep : 0 <= n ->
            getColumnLabel n =
              getColumnLabel (n / 26 - 1) +:+ fromCharCode (65 + n mod 26)).
  { intros Hn. unfold getColumnLabel.
    rewrite getColumnLabel_loop_step by assumption.
    rewrite getColumnLabel_loop_app.
    now rewrite (string_app_nil_r (fromCharCode (65 + n mod 26))). }
  split; [|split].
  - intros Hn. unfold getColumnLabel. now apply getColumnLabel_loop_exit.
  - intros Hn. apply Hstep. lia.
  - intros Hn. rewrite Hstep by lia.
    rewrite Z.div_small, Z.mod_small by lia.
    unfold getColumnLabel. now rewrite getColumnLabel_loop_exit by lia.
Qed.

Lemma getColumnLabel_last_letter_witness :
  getColumnLabel 730 = getColumnLabel 27 +:+ "C" /\ getColumnLabel 3 = "D" /\
  getColumnLabel (-1) = "".
Proof.
  destruct (getColumnLabel_last_letter 730) as (_ & Hstep & _).
  destruct (getColumnLabel_last_letter 3) as (_ & _ & Hsmall).
  destruct (getColumnLabel_last_letter (-1)) as (Hneg & _).
  split; [exact (Hstep ltac:(lia))|].
  split; [exact (Hsmall ltac:(lia)) | exact (Hneg ltac:(lia))].
Defined.

(** X2. The column headers of a rendered grid are the labels of
    [0, 1, 2, ...] in order, each reads back as its column number, and no
    two headers are equal. *)
Theorem grid_header_labels `{Platform} (st : ViewerState) (g : Grid) :
  render st = Normal (ViewGrid g) ->
  (forall colIndex label, grid_header g !! colIndex = Some label ->
     label = getColumnLabel (Z.of_nat colIndex) /\
     label_index label = Z.of_nat colIndex) /\
  NoDup (grid_header g).
Proof.
  intros (activeSheet & _ & ->)%render_ViewGrid.
  assert (Hlookup : forall colIndex label,
            grid_header (render_grid st activeSheet) !! colIndex = Some label ->
            label = getColumnLabel (Z.of_nat colIndex) /\
            label_index label = Z.of_nat colIndex).
  { intros colIndex label Hl. cbn [grid_header render_grid] in Hl.
    apply lookup_Array_from in Hl as ->.
    split; [reflexivity|]. apply label_index_getColumnLabel. lia. }
  split; [exact Hlookup|].
  apply NoDup_alt. intros i j label Hi Hj.
  apply Hlookup in Hi as [_ Hi], Hj as [_ Hj]. lia.
Qed.

Lemma grid_header_labels_witness :
  exists g,
    render (H:=Sample.platform)
      (loadExcelFile (H:=Sample.platform) (Normal Sample.workbook) initial_state)
      = Normal (ViewGrid g) /\
    grid_header g = ["A"; "B"; "C"; "D"; "E"; "F"; "G"; "H"; "I"; "J"] /\
    NoDup (grid_header g).
Proof.
  eexists. split; [reflexivity|]. split; [reflexivity|].
  eapply proj2, (grid_header_labels (H:=Sample.platform)
    (loadExcelFile (H:=Sample.platform) (Normal Sample.workbook) initial_state)).
  reflexivity.
Defined.

(** ** Edits *)

Section MoreArrays.
Context {A : Type}.
Implicit Types (a : Array A) (x y : A) (i j k : nat).

(** Every slot of an array after an assignment. *)
Lemma lookup_set a i x k :
  Js.set a i x !! k =
    if decide (k = i) then Some (Some x)
    else if decide (k < length a)%nat then a !! k
    else if decide (k < i)%nat then Some None
    else None.
Proof.
  destruct (decide (k = i)) as [->|Hne]; [apply lookup_set_eq|].
  unfold Js.set. destruct (decide (i < length a)%nat).
  - rewrite list_lookup_insert_ne by congruence.
    destruct (decide (k < length a)%nat); [reflexivity|].
    rewrite lookup_ge_None_2 by lia. now rewrite decide_False by lia.
  - destruct (decide (k < length a)%nat); [now rewrite lookup_app_l|].
    rewrite lookup_app_r by lia.
    destruct (decide (k < i)%nat).
    + rewrite lookup_app_l by (rewrite length_replicate; lia).
      now rewrite lookup_replicate_2 by lia.
    + rewrite lookup_app_r by (rewrite length_replicate; lia).
      rewrite length_replicate.
      destruct (k - length a - (i - length a))%nat eqn:E; [lia | reflexivity].
Qed.

Lemma set_set a i x y : Js.set (Js.set a i x) i y = Js.set a i y.
Proof.
  apply list_eq. intros k. rewrite !lookup_set, length_set.
  repeat case_decide; try reflexivity; lia.
Qed.

Lemma set_comm a i j x y :
  i <> j -> Js.set (Js.set a i x) j y = Js.set (Js.set a j y) i x.
Proof.
  intros Hne. apply list_eq. intros k. rewrite !lookup_set, !length_set.
  repeat case_decide; try reflexivity; lia.
Qed.

End MoreArrays.

Lemma math_max_None (xs : list (option nat)) (last : nat) :
  math_max xs last = None <-> None ∈ xs.
Proof.
  induction xs as [|[n|] xs IH]; cbn.
  - split; [discriminate | now intros ?%elem_of_nil].
  - rewrite elem_of_cons. unfold math_max in IH.
    destruct (foldr _ _ xs) as [m|] eqn:E; cbn.
    + split; [discriminate|]. intros [?|Hin]; [discriminate|].
      now apply IH in Hin.
    + split; [intros _; right; now apply IH | reflexivity].
  - split; [intros _; left | reflexivity].
Qed.

Lemma math_max_Some (xs : list (option nat)) (last m : nat) :
  math_max xs last = Some m ->
  (last <= m)%nat /\ forall n, Some n ∈ xs -> (n <= m)%nat.
Proof.
  revert m. induction xs as [|[n|] xs IH]; intros m; cbn.
  - intros [= <-]. split; [lia|]. now intros n ?%elem_of_nil.
  - unfold math_max in IH. destruct (foldr _ _ xs) as [m'|]; cbn; [|discriminate].
    intros [= <-]. destruct (IH m' eq_refl) as [Hlast Hall]. split; [lia|].
    intros n' [[= ->]|Hin]%elem_of_cons; [lia|].
    specialize (Hall n' Hin). lia.
  - discriminate.
Qed.

Section MoreEditing.
Context `{Platform}.

Lemma with_data_with_data sheet d1 d2 :
  with_data (with_data sheet d1) d2 = with_data sheet d2.
Proof. reflexivity. Qed.

Lemma handleCellChange_throws rowIndex colIndex v st :
  sheets st !! activeSheetIndex st = None ->
  handleCellChange rowIndex colIndex v st = Throw (TypeError_undefined "data").
Proof. intros Hnone. unfold handleCellChange. now rewrite Hnone. Qed.

(** The state an edit returns, in one equation. *)
Lemma handleCellChange_eq st sheet r c v :
  sheets st !! activeSheetIndex st = Some sheet ->
  handleCellChange r c v st =
    Normal (setSheets
      (<[activeSheetIndex st :=
           with_data sheet
             (Js.set
                (match Js.get (data sheet) r with
                 | Some _ => data sheet
                 | None => Js.set (data sheet) r []
                 end) r
                (Js.set (default [] (Js.get (data sheet) r)) c
                   (edited_cell (data sheet) r c v)))]> (sheets st)) st).
Proof.
  intros Hsheet. unfold handleCellChange. rewrite Hsheet.
  unfold edited_cell, get2.
  destruct (Js.get (data sheet) r) as [cells|]; reflexivity.
Qed.

End MoreEditing.

(** X3. Two edits of the same position in a row end in the state the second
    edit alone gives: the last text typed is the one kept, and nothing of
    the first remains. *)
Theorem handleCellChange_last_edit_wins `{Platform}
    (st st1 : ViewerState) (rowIndex colIndex : nat) (v1 v2 : string) :
  handleCellChange rowIndex colIndex v1 st = Normal st1 ->
  handleCellChange rowIndex colIndex v2 st1 = handleCellChange rowIndex colIndex v2 st.
Proof.
  intros Hfirst.
  destruct (sheets st !! activeSheetIndex st) as [sheet|] eqn:Hsheet;
    [|rewrite handleCellChange_throws in Hfirst by assumption; discriminate].
  rewrite (handleCellChange_eq st sheet) in Hfirst by assumption.
  injection Hfirst as <-.
  set (m1 := match Js.get (data sheet) rowIndex with
             | Some _ => data sheet
             | None => Js.set (data sheet) rowIndex []
             end).
  set (row := default [] (Js.get (data sheet) rowIndex)).
  set (new1 := edited_cell (data sheet) rowIndex colIndex v1).
  assert (Hlt : (activeSheetIndex st < length (sheets st))%nat)
    by now apply lookup_lt_Some in Hsheet.
  rewrite (handleCellChange_eq _ (with_data sheet (Js.set m1 rowIndex (Js.set row colIndex new1))))
    by (cbn; now apply list_lookup_insert_eq).
  rewrite (handleCellChange_eq st sheet) by assumption.
  cbn [sheets setSheets activeSheetIndex data with_data]. fold m1 row.
  rewrite get_set_eq. cbn [default from_option]. unfold id.
  assert (Hnew : edited_cell (Js.set m1 rowIndex (Js.set row colIndex new1))
                   rowIndex colIndex v2
                 = edited_cell (data sheet) rowIndex colIndex v2).
  { unfold edited_cell at 1. rewrite get2_set_set, !decide_True by reflexivity.
    unfold new1, edited_cell.
    now destruct (get2 (data sheet) rowIndex colIndex). }
  rewrite Hnew, !set_set, list_insert_insert_eq, with_data_with_data.
  reflexivity.
Qed.

Lemma handleCellChange_last_edit_wins_witness :
  let st := loadExcelFile (H:=Sample.platform) (Normal Sample.workbook) initial_state in
  exists st1,
    handleCellChange 7 2 "a" st = Normal st1 /\
    handleCellChange 7 2 "ab" st1 = handleCellChange 7 2 "ab" st.
Proof.
  cbn zeta. eexists. split; [reflexivity|].
  apply (handleCellChange_last_edit_wins (H:=Sample.platform) _ _ 7 2 "a" "ab").
  reflexivity.
Defined.

Section EditedData.
Context `{Platform}.

Lemma handleCellChange_edited_data st sheet r c v :
  sheets st !! activeSheetIndex st = Some sheet ->
  handleCellChange r c v st =
    Normal (setSheets
      (<[activeSheetIndex st := with_data sheet (edited_data (data sheet) r c v)]>
         (sheets st)) st).
Proof.
  intros Hsheet. rewrite (handleCellChange_eq st sheet) by assumption.
  unfold edited_data. destruct (Js.get (data sheet) r); [reflexivity|].
  now rewrite set_set.
Qed.

Lemma get2_edited_data m r c v r' c' :
  get2 (edited_data m r c v) r' c' =
    if decide ((r', c') = (r, c)) then Some (edited_cell m r c v) else get2 m r' c'.
Proof.
  unfold edited_data. rewrite get2_set_set.
  destruct (decide (r' = r)) as [->|Hr].
  - destruct (decide (c' = c)) as [->|Hc].
    + now rewrite decide_True.
    + rewrite decide_False by congruence. unfold get2.
      destruct (Js.get m r); [reflexivity|]. cbn. unfold Js.get.
      now rewrite lookup_nil.
  - now rewrite decide_False by congruence.
Qed.

Lemma get_edited_data_ne m r c v r' :
  r' <> r -> Js.get (edited_data m r c v) r' = Js.get m r'.
Proof. intros Hne. unfold edited_data. now rewrite get_set_ne by congruence. Qed.

Lemma edited_cell_edited_data_ne m r c v r' c' v' :
  (r', c') <> (r, c) ->
  edited_cell (edited_data m r c v) r' c' v' = edited_cell m r' c' v'.
Proof.
  intros Hne. unfold edited_cell.
  now rewrite get2_edited_data, decide_False.
Qed.

Lemma edited_data_comm m r1 c1 v1 r2 c2 v2 :
  (r1, c1) <> (r2, c2) ->
  edited_data (edited_data m r1 c1 v1) r2 c2 v2 =
    edited_data (edited_data m r2 c2 v2) r1 c1 v1.
Proof.
  intros Hne. unfold edited_data at 1 3.
  rewrite !edited_cell_edited_data_ne by congruence.
  destruct (decide (r1 = r2)) as [<-|Hr].
  - assert (c1 <> c2) by congruence.
    unfold edited_data. rewrite !get_set_eq. cbn [default from_option]. unfold id.
    rewrite !set_set. f_equal. now apply set_comm.
  - rewrite !get_edited_data_ne by congruence.
    unfold edited_data. now apply set_comm.
Qed.

End EditedData.

(** X4. Edits of two different positions commute: done in either order they
    end in the same state, or both throw when no sheet is active. *)
Theorem handleCellChange_commute `{Platform}
    (st : ViewerState) (r1 c1 r2 c2 : nat) (v1 v2 : string) :
  (r1, c1) <> (r2, c2) ->
  bind (handleCellChange r1 c1 v1 st) (handleCellChange r2 c2 v2) =
  bind (handleCellChange r2 c2 v2 st) (handleCellChange r1 c1 v1).
Proof.
  intros Hne.
  destruct (sheets st !! activeSheetIndex st) as [sheet|] eqn:Hsheet;
    [|now rewrite !handleCellChange_throws by assumption].
  assert (Hlt : (activeSheetIndex st < length (sheets st))%nat)
    by now apply lookup_lt_Some in Hsheet.
  rewrite !(handleCellChange_edited_data st sheet) by assumption. cbn [bind].
  rewrite !(handleCellChange_edited_data _ (with_data sheet _))
    by (cbn; now apply list_lookup_insert_eq).
  cbn [sheets setSheets activeSheetIndex data with_data].
  rewrite !list_insert_insert_eq, !with_data_with_data.
  now rewrite (edited_data_comm (data sheet) r1 c1 v1 r2 c2 v2) by assumption.
Qed.

Lemma handleCellChange_commute_witness :
  let st := loadExcelFile (H:=Sample.platform) (Normal Sample.workbook) initial_state in
  bind (handleCellChange 0 0 "a" st) (handleCellChange 3 12 "b") =
  bind (handleCellChange 3 12 "b" st) (handleCellChange 0 0 "a") /\
  exists st', bind (handleCellChange 0 0 "a" st) (handleCellChange 3 12 "b") = Normal st'.
Proof.
  cbn zeta. split.
  - apply (handleCellChange_commute (H:=Sample.platform)). discriminate.
  - eexists. reflexivity.
Defined.

(** X5. An edit, inside the matrix or not, changes the record at its
    position only: every other position of the active sheet reads as
    before; the matrix has [max(length, rowIndex + 1)] rows; the sheet keeps
    its name and raw rows; the other sheets, their number, the active index
    and the flags are as before. *)
Theorem handleCellChange_elsewhere `{Platform}
    (st st' : ViewerState) (sheet : Sheet) (rowIndex colIndex : nat) (v : string) :
  sheets st !! activeSheetIndex st = Some sheet ->
  handleCellChange rowIndex colIndex v st = Normal st' ->
  exists sheet',
    sheets st' !! activeSheetIndex st = Some sheet' /\
    (forall r c, (r, c) <> (rowIndex, colIndex) ->
       get2 (data sheet') r c = get2 (data sheet) r c) /\
    length (data sheet') = Nat.max (length (data sheet)) (S rowIndex) /\
    name sheet' = name sheet /\ rawData sheet' = rawData sheet /\
    (forall j, j <> activeSheetIndex st -> sheets st' !! j = sheets st !! j) /\
    length (sheets st') = length (sheets st) /\
    activeSheetIndex st' = activeSheetIndex st /\
    isLoading st' = isLoading st /\ error st' = error st /\
    showFormulas st' = showFormulas st.
Proof.
  intros Hsheet Hrun.
  rewrite (handleCellChange_edited_data st sheet) in Hrun by assumption.
  injection Hrun as <-. eexists.
  cbn [sheets setSheets activeSheetIndex isLoading error showFormulas].
  split; [apply list_lookup_insert_eq; now apply lookup_lt_Some in Hsheet|].
  cbn [data with_data name rawData]. split; [|split].
  - intros r c Hne. now rewrite get2_edited_data, decide_False.
  - unfold edited_data. apply length_set.
  - split; [reflexivity|]. split; [reflexivity|].
    split; [intros j Hj; now apply list_lookup_insert_ne|].
    split; [apply length_insert|]. auto.
Qed.

Lemma handleCellChange_elsewhere_witness :
  let st := loadExcelFile (H:=Sample.platform) (Normal Sample.workbook) initial_state in
  exists st' sheet',
    handleCellChange 7 2 "x" st = Normal st' /\
    sheets st' !! 0%nat = Some sheet' /\
    length (data sheet') = 8%nat /\
    get2 (data sheet') 0 1 = Some (cell_record (H:=Sample.platform) Sample.cell_sum).
Proof.
  cbn zeta. eexists.
  destruct (handleCellChange_elsewhere (H:=Sample.platform)
              (loadExcelFile (H:=Sample.platform) (Normal Sample.workbook) initial_state)
              _ (sheet_of_worksheet (H:=Sample.platform) "Sheet1" Sample.worksheet1)
              7 2 "x" eq_refl eq_refl)
    as (sheet' & Hs & Hother & Hlen & _).
  exists sheet'. split; [reflexivity|]. split; [exact Hs|].
  split; [exact Hlen|]. rewrite Hother by discriminate. reflexivity.
Defined.

Section EditRender.
Context `{Platform}.

Lemma getCellDisplayValue_typed (toggle : bool) (cell : Cell) (v : string) :
  toggle && has_formula cell = false ->
  getCellDisplayValue toggle (Some (with_value cell v)) = v.
Proof.
  intros Hshown.
  rewrite getCellDisplayValue_value by exact Hshown.
  cbn [value with_value]. now destruct v.
Qed.

Lemma render_after_edit st g rowIndex colIndex v st' :
  render st = Normal (ViewGrid g) ->
  handleCellChange rowIndex colIndex v st = Normal st' ->
  exists sheet sheet',
    sheets st !! activeSheetIndex st = Some sheet /\
    sheets st' !! activeSheetIndex st' = Some sheet' /\
    data sheet' = edited_data (data sheet) rowIndex colIndex v /\
    render st' = Normal (ViewGrid (render_grid st' sheet')).
Proof.
  intros Hrender Hrun.
  destruct (render_ViewGrid _ _ Hrender) as (sheet & Hsheet & _).
  rewrite (handleCellChange_edited_data st sheet) in Hrun by assumption.
  injection Hrun as <-. exists sheet. eexists.
  assert (Hlt : (activeSheetIndex st < length (sheets st))%nat)
    by now apply lookup_lt_Some in Hsheet.
  cbn [sheets setSheets activeSheetIndex].
  split; [assumption|]. split; [now apply list_lookup_insert_eq|].
  split; [reflexivity|].
  unfold render in *. cbn [sheets setSheets activeSheetIndex isLoading error].
  destruct (isLoading st); [discriminate|].
  destruct (string_or_null (error st)); [discriminate|].
  rewrite length_insert.
  destruct (decide (length (sheets st) = 0%nat)); [discriminate|].
  now rewrite list_lookup_insert_eq.
Qed.

Lemma maxCols_None sheet :
  maxCols sheet = None <-> exists i, data sheet !! i = Some None.
Proof.
  unfold maxCols. rewrite math_max_None, list_elem_of_fmap. split.
  - intros ([row|] & Hnone & Hin); [discriminate|].
    now apply list_elem_of_lookup in Hin.
  - intros [i Hi]. exists None. split; [reflexivity|].
    apply list_elem_of_lookup. eauto.
Qed.

Lemma maxCols_Some sheet m :
  maxCols sheet = Some m ->
  (10 <= m)%nat /\
  forall i row, data sheet !! i = Some (Some row) -> (length row <= m)%nat.
Proof.
  intros Hm. apply math_max_Some in Hm as [Hlast Hall]. split; [assumption|].
  intros i row Hi. apply Hall. apply list_elem_of_fmap.
  exists (Some row). split; [reflexivity|]. apply list_elem_of_lookup. eauto.
Qed.

End EditRender.

(** X6. After an edit the edited position displays the typed text when the
    toggle is off, and also when it is on unless the record there had a
    formula before the edit: then the input goes on showing ["="] and the
    formula, whatever was typed. *)
Theorem edit_then_display `{Platform}
    (st st' : ViewerState) (sheet : Sheet) (rowIndex colIndex : nat) (v : string) :
  sheets st !! activeSheetIndex st = Some sheet ->
  handleCellChange rowIndex colIndex v st = Normal st' ->
  exists sheet',
    sheets st' !! activeSheetIndex st' = Some sheet' /\
    getCellDisplayValue false (get2 (data sheet') rowIndex colIndex) = v /\
    (forall existingCell f,
       get2 (data sheet) rowIndex colIndex = Some existingCell ->
       formula existingCell = Some f -> f <> "" ->
       getCellDisplayValue true (get2 (data sheet') rowIndex colIndex) = "=" +:+ f) /\
    ((forall existingCell,
        get2 (data sheet) rowIndex colIndex = Some existingCell ->
        has_formula existingCell = false) ->
     getCellDisplayValue true (get2 (data sheet') rowIndex colIndex) = v).
Proof.
  intros Hsheet Hrun.
  rewrite (handleCellChange_edited_data st sheet) in Hrun by assumption.
  injection Hrun as <-. eexists.
  cbn [sheets setSheets activeSheetIndex].
  split; [apply list_lookup_insert_eq; now apply lookup_lt_Some in Hsheet|].
  cbn [data with_data]. rewrite get2_edited_data, decide_True by reflexivity.
  unfold edited_cell.
  destruct (get2 (data sheet) rowIndex colIndex) as [existingCell|].
  - split; [now apply getCellDisplayValue_typed|]. split.
    + intros ? f [= <-] Hf Hne. now apply getCellDisplayValue_formula.
    + intros Hnone. apply getCellDisplayValue_typed.
      now rewrite (Hnone existingCell eq_refl).
  - split; [now destruct v|]. split; [discriminate|]. intros _. now destruct v.
Qed.

Lemma edit_then_display_witness :
  let st := loadExcelFile (H:=Sample.platform) (Normal Sample.workbook) initial_state in
  exists st' sheet',
    handleCellChange 0 1 "7" st = Normal st' /\
    sheets st' !! 0%nat = Some sheet' /\
    getCellDisplayValue (H:=Sample.platform) false (get2 (data sheet') 0 1) = "7" /\
    getCellDisplayValue (H:=Sample.platform) true (get2 (data sheet') 0 1) = "=SUM(A2:A3)".
Proof.
  cbn zeta. eexists.
  destruct (edit_then_display (H:=Sample.platform)
              (loadExcelFile (H:=Sample.platform) (Normal Sample.workbook) initial_state)
              _ (sheet_of_worksheet (H:=Sample.platform) "Sheet1" Sample.worksheet1)
              0 1 "7" eq_refl eq_refl)
    as (sheet' & Hs & Hoff & Hon & _).
  exists sheet'. split; [reflexivity|]. split; [exact Hs|]. split; [exact Hoff|].
  apply (Hon (cell_record (H:=Sample.platform) Sample.cell_sum) "SUM(A2:A3)");
    [reflexivity | reflexivity | discriminate].
Defined.

(** X7. An edit of a rendered input more than one row below the last row
    of the matrix leaves a hole at the first missing row; the spread of the
    row lengths then holds [undefined], [Math.max] gives [NaN], and the
    next render is a grid with no column header and no input. *)
Theorem edit_below_last_row_loses_columns `{Platform}
    (st st' : ViewerState) (g : Grid) (sheet : Sheet)
    (rowIndex colIndex : nat) (v : string) :
  render st = Normal (ViewGrid g) ->
  sheets st !! activeSheetIndex st = Some sheet ->
  (length (data sheet) < rowIndex)%nat ->
  handleCellChange rowIndex colIndex v st = Normal st' ->
  exists sheet' g',
    sheets st' !! activeSheetIndex st' = Some sheet' /\
    data sheet' !! length (data sheet) = Some None /\
    maxCols sheet' = None /\
    render st' = Normal (ViewGrid g') /\
    grid_header g' = [] /\
    length (grid_body g') = Nat.max (S rowIndex) 20 /\
    Forall (fun inputs => inputs = []) (grid_body g').
Proof.
  intros Hrender Hsheet Hbelow Hrun.
  destruct (render_after_edit _ _ _ _ _ _ Hrender Hrun)
    as (sheet0 & sheet' & Hsheet0 & Hsheet' & Hdata & Hrender').
  assert (sheet0 = sheet) as -> by congruence.
  assert (Hhole : data sheet' !! length (data sheet) = Some None).
  { rewrite Hdata. unfold edited_data. rewrite lookup_set.
    rewrite decide_False by lia. rewrite decide_False by lia.
    now rewrite decide_True by lia. }
  assert (Hnan : maxCols sheet' = None) by (apply maxCols_None; eauto).
  exists sheet', (render_grid st' sheet').
  split; [assumption|]. split; [assumption|]. split; [assumption|].
  split; [assumption|]. cbn [grid_header grid_body render_grid]. rewrite Hnan.
  split; [reflexivity|]. split.
  - rewrite length_Array_from. cbn. unfold maxRows.
    rewrite Hdata. unfold edited_data. rewrite length_set. lia.
  - unfold Array_from at 1. apply Forall_fmap, Forall_forall. now intros i _.
Qed.

Lemma edit_below_last_row_loses_columns_witness :
  let st := loadExcelFile (H:=Sample.platform) (Normal Sample.workbook) initial_state in
  exists st' g',
    handleCellChange 4 0 "x" st = Normal st' /\
    render (H:=Sample.platform) st' = Normal (ViewGrid g') /\
    grid_header g' = [] /\ length (grid_body g') = 20%nat.
Proof.
  cbn zeta.
  assert (Hbelow : (length (data (sheet_of_worksheet (H:=Sample.platform)
                                   "Sheet1" Sample.worksheet1)) < 4)%nat)
    by (vm_compute; lia).
  destruct (edit_below_last_row_loses_columns (H:=Sample.platform)
              (loadExcelFile (H:=Sample.platform) (Normal Sample.workbook) initial_state)
              _ _ (sheet_of_worksheet (H:=Sample.platform) "Sheet1" Sample.worksheet1)
              4 0 "x" eq_refl eq_refl Hbelow eq_refl)
    as (sheet' & g' & _ & _ & _ & Hr & Hh & Hl & _).
  eexists. exists g'. split; [reflexivity|]. split; [exact Hr|].
  split; [exact Hh | exact Hl].
Defined.

(** X8. An edit in a matrix with no missing row, at a row index up to its
    length, leaves no missing row: the next grid has a column count that
    is a number, at least 10 and above the edited column. *)
Theorem edit_within_rows_keeps_columns `{Platform}
    (st st' : ViewerState) (sheet : Sheet) (rowIndex colIndex : nat) (v : string) :
  sheets st !! activeSheetIndex st = Some sheet ->
  Forall is_Some (data sheet) ->
  (rowIndex <= length (data sheet))%nat ->
  handleCellChange rowIndex colIndex v st = Normal st' ->
  exists sheet' m,
    sheets st' !! activeSheetIndex st' = Some sheet' /\
    Forall is_Some (data sheet') /\
    maxCols sheet' = Some m /\ (10 <= m)%nat /\ (colIndex < m)%nat /\
    length (grid_header (render_grid st' sheet')) = m.
Proof.
  intros Hsheet Hdense Hrow Hrun.
  rewrite (handleCellChange_edited_data st sheet) in Hrun by assumption.
  injection Hrun as <-.
  set (sheet' := with_data sheet (edited_data (data sheet) rowIndex colIndex v)).
  assert (Hdense' : Forall is_Some (data sheet')).
  { apply Forall_lookup. intros k x Hk. cbn [data sheet' with_data] in Hk.
    unfold edited_data in Hk. rewrite lookup_set in Hk.
    destruct (decide (k = rowIndex)); [injection Hk as <-; eauto|].
    destruct (decide (k < length (data sheet))%nat).
    - eapply Forall_lookup_1; eauto.
    - destruct (decide (k < rowIndex)%nat); [lia | discriminate]. }
  destruct (maxCols sheet') as [m|] eqn:Hm.
  - exists sheet', m. cbn [sheets setSheets activeSheetIndex].
    split; [apply list_lookup_insert_eq; now apply lookup_lt_Some in Hsheet|].
    split; [assumption|]. split; [exact Hm|].
    destruct (maxCols_Some _ _ Hm) as [Hten Hall]. split; [assumption|]. split.
    + specialize (Hall rowIndex _ (lookup_set_eq _ _ _)).
      rewrite length_set in Hall. lia.
    + cbn [grid_header render_grid]. rewrite Hm. apply length_Array_from.
  - apply maxCols_None in Hm as [i Hi].
    eapply Forall_lookup_1 in Hdense'; [|exact Hi]. now destruct Hdense'.
Qed.

Lemma edit_within_rows_keeps_columns_witness :
  let st := loadExcelFile (H:=Sample.platform) (Normal Sample.workbook) initial_state in
  exists st' sheet' m,
    handleCellChange 2 14 "x" st = Normal st' /\
    sheets st' !! 0%nat = Some sheet' /\
    maxCols sheet' = Some m /\ (14 < m)%nat.
Proof.
  cbn zeta.
  assert (Hdense : Forall is_Some (data (sheet_of_worksheet (H:=Sample.platform)
                                          "Sheet1" Sample.worksheet1)))
    by (vm_compute; repeat constructor; eauto).
  assert (Hrow : (2 <= length (data (sheet_of_worksheet (H:=Sample.platform)
                                       "Sheet1" Sample.worksheet1)))%nat)
    by (vm_compute; lia).
  destruct (edit_within_rows_keeps_columns (H:=Sample.platform)
              (loadExcelFile (H:=Sample.platform) (Normal Sample.workbook) initial_state)
              _ (sheet_of_worksheet (H:=Sample.platform) "Sheet1" Sample.worksheet1)
              2 14 "x" eq_refl Hdense Hrow eq_refl)
    as (sheet' & m & Hs & _ & Hm & _ & Hc & _).
  eexists. exists sheet', m. split; [reflexivity|]. split; [exact Hs|].
  split; [exact Hm | exact Hc].
Defined.

(** X9. An edit changes the inline style of no input: at the edited
    position the formatting of the record is kept, or stays absent for a
    new record, and every other position keeps its record. *)
Theorem edit_keeps_styles `{Platform}
    (st st' : ViewerState) (sheet : Sheet) (rowIndex colIndex : nat) (v : string) :
  sheets st !! activeSheetIndex st = Some sheet ->
  handleCellChange rowIndex colIndex v st = Normal st' ->
  exists sheet',
    sheets st' !! activeSheetIndex st' = Some sheet' /\
    forall r c,
      getCellStyle (get2 (data sheet') r c) = getCellStyle (get2 (data sheet) r c).
Proof.
  intros Hsheet Hrun.
  rewrite (handleCellChange_edited_data st sheet) in Hrun by assumption.
  injection Hrun as <-. eexists.
  cbn [sheets setSheets activeSheetIndex].
  split; [apply list_lookup_insert_eq; now apply lookup_lt_Some in Hsheet|].
  intros r c. cbn [data with_data]. rewrite get2_edited_data.
  destruct (decide ((r, c) = (rowIndex, colIndex))) as [[= -> ->]|]; [|reflexivity].
  unfold edited_cell. now destruct (get2 (data sheet) rowIndex colIndex).
Qed.

Lemma edit_keeps_styles_witness :
  let st := loadExcelFile (H:=Sample.platform) (Normal Sample.workbook) initial_state in
  exists st' sheet',
    handleCellChange 0 0 "Sum" st = Normal st' /\
    sheets st' !! 0%nat = Some sheet' /\
    css_backgroundColor (getCellStyle (get2 (data sheet') 0 0)) = Some "#FFFF00" /\
    css_fontWeight (getCellStyle (get2 (data sheet') 0 0)) = Some "bold".
Proof.
  cbn zeta. eexists.
  destruct (edit_keeps_styles (H:=Sample.platform)
              (loadExcelFile (H:=Sample.platform) (Normal Sample.workbook) initial_state)
              _ (sheet_of_worksheet (H:=Sample.platform) "Sheet1" Sample.worksheet1)
              0 0 "Sum" eq_refl eq_refl)
    as (sheet' & Hs & Hstyle).
  exists sheet'. split; [reflexivity|]. split; [exact Hs|].
  rewrite (Hstyle 0%nat 0%nat). split; reflexivity.
Defined.

(** ** Loads and renders *)

Section MoreRender.
Context `{Platform}.

Lemma render_error_view st message :
  isLoading st = false ->
  error st = Some ("Error loading Excel file: " +:+ message) ->
  render st = Normal (ViewError ("Error loading Excel file: " +:+ message)).
Proof. unfold render. now intros -> ->. Qed.

Lemma render_grid_view st sheet :
  isLoading st = false -> error st = None ->
  sheets st !! activeSheetIndex st = Some sheet ->
  render st = Normal (ViewGrid (render_grid st sheet)).
Proof.
  intros Hl He Hs. unfold render. rewrite Hl, He, Hs. cbn.
  destruct (decide (length (sheets st) = 0%nat)); [|reflexivity].
  apply lookup_lt_Some in Hs. lia.
Qed.

End MoreRender.

(** X10. After a load that fails, in the read, the parse or the
    conversion, the component renders the error message and no grid,
    although the sheets of the earlier load and the active index are kept;
    a later load that completes with at least one sheet renders a grid
    again, with a null error. *)
Theorem failed_load_shows_error `{Platform}
    (read : Completion WorkBook) (message : string) (st : ViewerState) :
  read = Throw message \/
  (exists workbook, read = Normal workbook /\ sheetsData workbook = Throw message) ->
  let st' := loadExcelFile read st in
  render st' = Normal (ViewError ("Error loading Excel file: " +:+ message)) /\
  sheets st' = sheets st /\ activeSheetIndex st' = activeSheetIndex st /\
  forall workbook sd,
    sheetsData workbook = Normal sd -> sd <> [] ->
    error (loadExcelFile (Normal workbook) st') = None /\
    exists g, render (loadExcelFile (Normal workbook) st') = Normal (ViewGrid g).
Proof.
  intros Hfail. cbn zeta.
  assert (Hst' : loadExcelFile read st =
            {| sheets := sheets st; activeSheetIndex := activeSheetIndex st;
               isLoading := false;
               error := Some ("Error loading Excel file: " +:+ message);
               showFormulas := showFormulas st |}).
  { destruct Hfail as [->|(workbook & -> & Hsd)].
    - apply loadExcelFile_read_throws.
    - now apply loadExcelFile_conversion_throws. }
  rewrite Hst'. split; [now apply render_error_view|].
  split; [reflexivity|]. split; [reflexivity|].
  intros workbook sd Hsd Hne. rewrite (loadExcelFile_completes _ _ _ Hsd).
  split; [reflexivity|]. destruct sd as [|sheet sd]; [congruence|].
  eexists. now apply (render_grid_view _ sheet).
Qed.

Lemma failed_load_shows_error_witness :
  let st := loadExcelFile (H:=Sample.platform) (Normal Sample.workbook) initial_state in
  let st' := loadExcelFile (H:=Sample.platform) (Normal Sample.broken_workbook) st in
  render (H:=Sample.platform) st' =
    Normal (ViewError
      "Error loading Excel file: Cannot read properties of undefined (reading '!ref')") /\
  sheets st' = sheets st.
Proof.
  cbn zeta.
  destruct (failed_load_shows_error (H:=Sample.platform)
              (Normal Sample.broken_workbook)
              "Cannot read properties of undefined (reading '!ref')"
              (loadExcelFile (H:=Sample.platform) (Normal Sample.workbook) initial_state))
    as (Hr & Hs & _).
  - right. exists Sample.broken_workbook. split; reflexivity.
  - split; [exact Hr | exact Hs].
Defined.

(** X11. A workbook with no sheet name loads without an error into an
    empty sheet list, and the component then renders nothing. *)
Theorem empty_workbook_renders_nothing `{Platform}
    (workbook : WorkBook) (st : ViewerState) :
  SheetNames workbook = [] ->
  let st' := loadExcelFile (Normal workbook) st in
  sheets st' = [] /\ error st' = None /\ isLoading st' = false /\
  render st' = Normal ViewNothing.
Proof.
  intros Hnames. cbn zeta.
  assert (Hsd : sheetsData workbook = Normal []).
  { unfold sheetsData. now rewrite Hnames. }
  rewrite (loadExcelFile_completes _ _ _ Hsd). repeat split.
Qed.

Lemma empty_workbook_renders_nothing_witness :
  render (H:=Sample.platform)
    (loadExcelFile (H:=Sample.platform)
       (Normal {| SheetNames := []; Sheets := ∅ |})
       (loadExcelFile (H:=Sample.platform) (Normal Sample.workbook) initial_state))
  = Normal ViewNothing.
Proof.
  apply (empty_workbook_renders_nothing (H:=Sample.platform)
           {| SheetNames := []; Sheets := ∅ |}). reflexivity.
Defined.

(** X12. The body of a rendered grid is the full rectangle of
    [max(rows, 20)] rows by [maxCols] inputs; the input at a position shows
    the display text of what the matrix holds there, and the empty string
    where it holds nothing, as in all the padding. *)
Theorem grid_body_texts `{Platform} (st : ViewerState) (g : Grid) (sheet : Sheet) :
  render st = Normal (ViewGrid g) ->
  sheets st !! activeSheetIndex st = Some sheet ->
  length (grid_body g) = Nat.max (length (data sheet)) 20 /\
  (forall r c text,
     grid_body g !! r ≫= (fun inputs => inputs !! c) = Some text ->
     text = getCellDisplayValue (showFormulas st) (get2 (data sheet) r c) /\
     (get2 (data sheet) r c = None -> text = "")) /\
  (forall m r c,
     maxCols sheet = Some m ->
     (r < Nat.max (length (data sheet)) 20)%nat -> (c < m)%nat ->
     is_Some (grid_body g !! r ≫= (fun inputs => inputs !! c))).
Proof.
  intros (activeSheet & Hactive & ->)%render_ViewGrid Hsheet.
  assert (activeSheet = sheet) as -> by congruence.
  split; [|split].
  - cbn [grid_body render_grid]. now rewrite length_Array_from.
  - intros r c text Htext. apply render_grid_text in Htext.
    split; [assumption|]. intros Hnone. now rewrite Hnone in Htext.
  - intros m r c Hm Hr Hc. cbn [grid_body render_grid]. rewrite Hm.
    unfold Array_from, maxRows. rewrite list_lookup_fmap.
    rewrite lookup_seq_lt by (cbn; lia). cbn.
    rewrite list_lookup_fmap, lookup_seq_lt by (cbn; lia). cbn. eauto.
Qed.

Lemma grid_body_texts_witness :
  exists g,
    render (H:=Sample.platform)
      (loadExcelFile (H:=Sample.platform) (Normal Sample.workbook) initial_state)
      = Normal (ViewGrid g) /\
    grid_body g !! 0%nat ≫= (fun inputs => inputs !! 1%nat) = Some "42" /\
    grid_body g !! 19%nat ≫= (fun inputs => inputs !! 9%nat) = Some "".
Proof.
  eexists. split; [reflexivity|].
  destruct (grid_body_texts (H:=Sample.platform)
              (loadExcelFile (H:=Sample.platform) (Normal Sample.workbook) initial_state)
              _ (sheet_of_worksheet (H:=Sample.platform) "Sheet1" Sample.worksheet1)
              eq_refl eq_refl) as (_ & Htext & Hfull).
  split.
  - destruct (Hfull 10%nat 0%nat 1%nat eq_refl) as [text Ht];
      [vm_compute; lia | lia |].
    rewrite Ht. f_equal. now destruct (Htext _ _ _ Ht) as [-> _].
  - destruct (Hfull 10%nat 19%nat 9%nat eq_refl) as [text Ht];
      [vm_compute; lia | lia |].
    rewrite Ht. f_equal. destruct (Htext _ _ _ Ht) as [_ ->]; reflexivity.
Defined.

(** X13. A rendered grid has sheet tabs exactly when there are two sheets
    or more; there is then one tab per sheet, in order, under the sheet's
    name, and clicking a tab renders the grid of the sheet of that name. *)
Theorem grid_tabs_sheets `{Platform} (st : ViewerState) (g : Grid) :
  render st = Normal (ViewGrid g) ->
  ((length (sheets st) <= 1)%nat -> grid_tabs g = []) /\
  ((1 < length (sheets st))%nat ->
     length (grid_tabs g) = length (sheets st) /\
     forall index sheet, sheets st !! index = Some sheet ->
       grid_tabs g !! index = Some (index, name sheet)) /\
  (forall index sheetName st',
     (index, sheetName) ∈ grid_tabs g ->
     step st (SelectTab index) st' ->
     exists sheet,
       sheets st !! index = Some sheet /\ name sheet = sheetName /\
       activeSheetIndex st' = index /\
       render st' = Normal (ViewGrid (render_grid st' sheet))).
Proof.
  intros Hrender.
  destruct (render_ViewGrid _ _ Hrender) as (activeSheet & Hactive & ->).
  cbn [grid_tabs render_grid]. split; [|split].
  - intros Hle. now rewrite decide_False by lia.
  - intros Hlt. rewrite decide_True by assumption. split.
    + apply length_imap.
    + intros index sheet Hs. rewrite list_lookup_imap, Hs. reflexivity.
  - intros index sheetName st' Htab Hstep.
    destruct (decide (1 < length (sheets st))%nat); [|now apply elem_of_nil in Htab].
    apply elem_of_lookup_imap in Htab as (i & sheet & [= -> ->] & Hs).
    inversion Hstep; subst. exists sheet.
    split; [assumption|]. split; [reflexivity|]. split; [reflexivity|].
    unfold render in *. cbn [isLoading error sheets activeSheetIndex setActiveSheetIndex].
    destruct (isLoading st); [discriminate|].
    destruct (string_or_null (error st)); [discriminate|].
    destruct (decide (length (sheets st) = 0%nat)); [discriminate|].
    now rewrite Hs.
Qed.

Lemma grid_tabs_sheets_witness :
  exists g,
    render (H:=Sample.platform)
      (loadExcelFile (H:=Sample.platform) (Normal Sample.workbook) initial_state)
      = Normal (ViewGrid g) /\
    grid_tabs g = [(0%nat, "Sheet1"); (1%nat, "Sheet2")].
Proof.
  eexists. split; [reflexivity|].
  destruct (grid_tabs_sheets (H:=Sample.platform)
              (loadExcelFile (H:=Sample.platform) (Normal Sample.workbook) initial_state)
              _ eq_refl) as (_ & Htabs & _).
  destruct Htabs as [_ Hlookup]; [vm_compute; lia|].
  apply list_eq. intros [|[|i]].
  - exact (Hlookup 0%nat _ eq_refl).
  - exact (Hlookup 1%nat _ eq_refl).
  - reflexivity.
Defined.

(** X14. In every state the viewer can reach the loading flag is clear and
    the error is null or a message of a failed load: the component never
    shows the loading placeholder once an event is done, and any error it
    shows starts with ["Error loading Excel file: "]. *)
Theorem reachable_never_loading `{Platform} (st : ViewerState) :
  reachable st ->
  isLoading st = false /\
  (error st = None \/
   exists message, error st = Some ("Error loading Excel file: " +:+ message)) /\
  render st <> Normal ViewLoading /\
  (forall shown, render st = Normal (ViewError shown) ->
     exists message, shown = "Error loading Excel file: " +:+ message).
Proof.
  intros Hreach.
  assert (Hinv : isLoading st = false /\
                 (error st = None \/
                  exists message,
                    error st = Some ("Error loading Excel file: " +:+ message))).
  { induction Hreach as [|st e st' _ IH Hstep]; [split; [reflexivity | now left]|].
    destruct Hstep as
      [st read | st g index sheetName _ _ | st g _
      | st g rowIndex colIndex text v st' Hrender _ Hrun].
    - destruct read as [workbook|message].
      + destruct (sheetsData workbook) as [sd|message] eqn:Hsd.
        * rewrite (loadExcelFile_completes _ _ _ Hsd). split; [reflexivity | now left].
        * rewrite (loadExcelFile_conversion_throws _ _ _ Hsd).
          split; [reflexivity | right; eauto].
      + rewrite loadExcelFile_read_throws. split; [reflexivity | right; eauto].
    - exact IH.
    - exact IH.
    - destruct (render_ViewGrid _ _ Hrender) as (sheet & Hsheet & _).
      rewrite (handleCellChange_edited_data st sheet) in Hrun by assumption.
      injection Hrun as <-. exact IH. }
  destruct Hinv as [Hl He]. split; [assumption|]. split; [assumption|].
  unfold render. rewrite Hl. split.
  - destruct (string_or_null (error st)); [discriminate|].
    destruct (decide (length (sheets st) = 0%nat)); [discriminate|].
    destruct (sheets st !! activeSheetIndex st); discriminate.
  - intros shown Hshown. destruct He as [He|[message He]]; rewrite He in Hshown.
    + cbn in Hshown. destruct (decide (length (sheets st) = 0%nat)); [discriminate|].
      destruct (sheets st !! activeSheetIndex st); discriminate.
    + injection Hshown as <-. eauto.
Qed.

Lemma reachable_never_loading_witness :
  isLoading (setActiveSheetIndex 1
    (loadExcelFile (H:=Sample.platform) (Normal Sample.workbook) initial_state)) = false.
Proof.
  exact (proj1 (reachable_never_loading (H:=Sample.platform) _ reachable_sample_second_tab)).
Defined.

(** X15. Every input of a rendered grid can be edited: whatever the text,
    the edit returns a state, and that state renders as a grid again. *)
Theorem rendered_input_editable `{Platform}
    (st : ViewerState) (g : Grid) (rowIndex colIndex : nat) (text v : string) :
  render st = Normal (ViewGrid g) ->
  grid_body g !! rowIndex ≫= (fun inputs => inputs !! colIndex) = Some text ->
  exists st' g',
    step st (Edit rowIndex colIndex v) st' /\
    render st' = Normal (ViewGrid g').
Proof.
  intros Hrender Htext.
  destruct (render_ViewGrid _ _ Hrender) as (sheet & Hsheet & _).
  pose proof (handleCellChange_edited_data st sheet rowIndex colIndex v Hsheet) as Hrun.
  destruct (render_after_edit _ _ _ _ _ _ Hrender Hrun)
    as (_ & sheet' & _ & _ & _ & Hrender').
  eexists. eexists. split; [|exact Hrender']. econstructor; eauto.
Qed.

Lemma rendered_input_editable_witness :
  exists st' g',
    step (H:=Sample.platform)
      (loadExcelFile (H:=Sample.platform) (Normal Sample.workbook) initial_state)
      (Edit 19 9 "x") st' /\
    render (H:=Sample.platform) st' = Normal (ViewGrid g').
Proof.
  apply (rendered_input_editable (H:=Sample.platform)
           (loadExcelFile (H:=Sample.platform) (Normal Sample.workbook) initial_state)
           _ 19 9 "" "x" eq_refl).
  reflexivity.
Defined.

(** ** Formatting *)

Section Formatting.
Context `{Platform}.

Lemma indexedColors_css (i : Z) (css : string) :
  indexedColors !! i = Some css ->
  hash_prefixed css /\ String.length css = 7%nat.
Proof.
  intros Hi. apply elem_of_list_to_map_2 in Hi.
  repeat (apply elem_of_cons in Hi as [[= -> ->]|Hi];
          [split; [eexists|]; reflexivity|]).
  now apply elem_of_nil in Hi.
Qed.

Lemma rgb_css_Some (color : Color) (css : string) :
  rgb_css color = Some css ->
  exists argb, rgb color = Some argb /\ argb <> "" /\ css = "#" +:+ slice 2 argb.
Proof.
  unfold rgb_css. destruct (rgb color) as [[|a argb]|]; try discriminate.
  intros [= <-]. eexists. split; [reflexivity|]. split; [discriminate | reflexivity].
Qed.

Lemma string_or_null_hash_prefixed (o : option string) :
  (forall s, o = Some s -> hash_prefixed s) -> string_or_null o = o.
Proof.
  destruct o as [s|]; [|reflexivity]. intros Hs.
  destruct (Hs s eq_refl) as [rest ->]. reflexivity.
Qed.

Lemma string_or_null_idemp (o : option string) :
  string_or_null (string_or_null o) = string_or_null o.
Proof. now destruct o as [[|a s]|]. Qed.

Lemma length_slice (n : nat) (s : string) :
  String.length (slice n s) = (String.length s - n)%nat.
Proof.
  revert s. induction n as [|n IH]; intros s; cbn; [lia|].
  destruct s; cbn; [reflexivity | apply IH].
Qed.

Lemma getCellBackgroundColor_hash (cell : CellObject) (css : string) :
  getCellBackgroundColor cell = Some css -> hash_prefixed css.
Proof.
  unfold getCellBackgroundColor.
  destruct ((cell_s cell ≫= fill) ≫= bgColor) as [color|]; [|discriminate].
  destruct (rgb_css color) as [css'|] eqn:Hrgb.
  - intros [= <-]. apply rgb_css_Some in Hrgb as (argb & _ & _ & ->). now eexists.
  - destruct (indexed color) as [i|]; [|discriminate].
    destruct (decide (i = 0)); [discriminate|].
    destruct (indexedColors !! i) as [css'|] eqn:Hi; [|discriminate].
    apply indexedColors_css in Hi as [Hhash _].
    destruct (string_truthy css'); [|discriminate]. now intros [= <-].
Qed.

Lemma getCellTextColor_hash (cell : CellObject) (css : string) :
  getCellTextColor cell = Some css -> hash_prefixed css.
Proof.
  unfold getCellTextColor.
  destruct ((cell_s cell ≫= font) ≫= font_color) as [color|]; [|discriminate].
  intros (argb & _ & _ & ->)%rgb_css_Some. now eexists.
Qed.

End Formatting.

(** X16. A background or text colour the helpers return starts with ["#"].
    For the background, an [rgb] of eight characters (alpha, red, green,
    blue) gives the seven characters ["#"] and the last six, whatever
    [indexed] says; without a truthy [rgb], the colour is the entry of the
    twelve-colour table at [indexed], seven characters long, and null for
    an index the table does not have. *)
Theorem cell_colours `{Platform} (cell : CellObject) (color : Color) :
  (forall css, getCellBackgroundColor cell = Some css -> hash_prefixed css) /\
  (forall css, getCellTextColor cell = Some css -> hash_prefixed css) /\
  ((cell_s cell ≫= fill) ≫= bgColor = Some color ->
     (forall argb, rgb color = Some argb -> String.length argb = 8%nat ->
        getCellBackgroundColor cell = Some ("#" +:+ slice 2 argb) /\
        String.length ("#" +:+ slice 2 argb) = 7%nat) /\
     (string_or_null (rgb color) = None ->
        getCellBackgroundColor cell = indexed color ≫= (fun i => indexedColors !! i) /\
        forall css, getCellBackgroundColor cell = Some css ->
                    String.length css = 7%nat)).
Proof.
  split; [apply getCellBackgroundColor_hash|].
  split; [apply getCellTextColor_hash|].
  intros Hcolor. unfold getCellBackgroundColor. rewrite Hcolor. split.
  - intros argb Hrgb Hlen. unfold rgb_css. rewrite Hrgb.
    destruct argb as [|a argb]; [discriminate|]. cbn [string_truthy].
    split; [reflexivity|].
    change (S (String.length (slice 2 (String a argb))) = 7%nat).
    rewrite length_slice, Hlen. reflexivity.
  - intros Hrgb.
    assert (Hcss : rgb_css color = None).
    { unfold rgb_css. unfold string_or_null in Hrgb.
      destruct (rgb color) as [argb|]; [|reflexivity].
      now destruct (string_truthy argb). }
    rewrite Hcss.
    assert (Heq : match indexed color with
                  | Some i =>
                      if decide (i = 0) then None
                      else match indexedColors !! i with
                           | Some css => if string_truthy css then Some css else None
                           | None => None
                           end
                  | None => None
                  end = indexed color ≫= (fun i => indexedColors !! i)).
    { destruct (indexed color) as [i|]; [|reflexivity].
      change ((if decide (i = 0) then None
               else match indexedColors !! i with
                    | Some css => if string_truthy css then Some css else None
                    | None => None
                    end) = indexedColors !! i).
      destruct (decide (i = 0)) as [->|]; [reflexivity|].
      destruct (indexedColors !! i) as [css|] eqn:Hi; [|reflexivity].
      apply indexedColors_css in Hi as [[rest ->] _]. reflexivity. }
    rewrite Heq. split; [reflexivity|].
    intros css Hcssi. destruct (indexed color) as [i|]; [|discriminate].
    change (indexedColors !! i = Some css) in Hcssi.
    now apply indexedColors_css in Hcssi as [_ Hlen].
Qed.

Lemma cell_colours_witness :
  getCellBackgroundColor Sample.cell_text = Some "#FFFF00" /\
  hash_prefixed "#FFFF00".
Proof.
  destruct (cell_colours (H:=Sample.platform) Sample.cell_text
              {| rgb := Some "FFFFFF00"; indexed := None |})
    as (Hhash & _ & Hbg).
  destruct (Hbg eq_refl) as [Hrgb _].
  destruct (Hrgb "FFFFFF00" eq_refl eq_refl) as [Hcss _].
  split; [exact Hcss | exact (Hhash _ Hcss)].
Defined.

(** X17. No style attribute of a record built from a worksheet cell is an
    empty string, so [getCellStyle] sets exactly the attributes that are not
    null: the background, the text colour, the font size and the font
    family as stored, the weight and the slant when the font flag is
    truthy, and the two alignments together. A cell without a style object,
    a position without a cell and a missing record get no inline style. *)
Theorem getCellStyle_cell_record `{Platform} (cell : CellObject) (v : string) :
  let record := cell_record cell in
  let css := getCellStyle (Some record) in
  (css_backgroundColor css = getCellBackgroundColor cell /\
   css_color css = getCellTextColor cell /\
   css_fontSize css = getCellFontSize cell /\
   css_fontFamily css = getCellFontFamily cell /\
   (css_fontWeight css = Some "bold" <-> truthy (isCellBold cell) = true) /\
   (css_fontStyle css = Some "italic" <-> truthy (isCellItalic cell) = true) /\
   (is_Some (css_textAlign css) <-> is_Some (cell_s cell ≫= style_alignment)) /\
   (is_Some (css_verticalAlign css) <-> is_Some (cell_s cell ≫= style_alignment)) /\
   css_textAlign css <> Some "" /\ css_verticalAlign css <> Some "") /\
  (cell_s cell = None -> css = no_style) /\
  getCellStyle (Some (blank_record v)) = no_style /\
  getCellStyle None = no_style.
Proof.
  cbn zeta. split; [|split; [|split; reflexivity]].
  - cbn [getCellStyle cell_record backgroundColor textColor fontSize fontFamily
         isBold isItalic alignment css_backgroundColor css_color css_fontSize
         css_fontFamily css_fontWeight css_fontStyle css_textAlign
         css_verticalAlign].
    split; [apply string_or_null_hash_prefixed, getCellBackgroundColor_hash|].
    split; [apply string_or_null_hash_prefixed, getCellTextColor_hash|].
    split.
    { unfold getCellFontSize.
      destruct ((cell_s cell ≫= font) ≫= font_sz) as [sz|]; [|reflexivity].
      destruct (number_truthy sz); [|reflexivity].
      cbn. now destruct (number_to_string sz). }
    split; [apply string_or_null_idemp|].
    split; [destruct (truthy (isCellBold cell)); split; congruence|].
    split; [destruct (truthy (isCellItalic cell)); split; congruence|].
    unfold getCellAlignment.
    destruct (cell_s cell ≫= style_alignment) as [a|]; cbn.
    + split; [split; eauto|]. split; [split; eauto|].
      unfold string_or_default. split.
      * destruct (style_horizontal a) as [[|]|]; discriminate.
      * destruct (style_vertical a) as [[|]|]; discriminate.
    + split; [split; intros []; discriminate|].
      split; [split; intros []; discriminate|]. split; discriminate.
  - intros Hs. unfold getCellStyle, cell_record, no_style.
    cbn [backgroundColor textColor fontSize fontFamily isBold isItalic alignment].
    unfold getCellBackgroundColor, getCellTextColor, getCellFontSize,
      getCellFontFamily, isCellBold, isCellItalic, getCellAlignment.
    rewrite Hs. reflexivity.
Qed.

Lemma getCellStyle_cell_record_witness :
  getCellStyle (Some (cell_record (H:=Sample.platform) Sample.cell_sum)) = no_style /\
  css_backgroundColor (getCellStyle (Some (cell_record (H:=Sample.platform) Sample.cell_text)))
    = Some "#FFFF00".
Proof.
  destruct (getCellStyle_cell_record (H:=Sample.platform) Sample.cell_sum "")
    as (_ & Hnone & _).
  destruct (getCellStyle_cell_record (H:=Sample.platform) Sample.cell_text "")
    as ((Hbg & _) & _).
  split; [exact (Hnone eq_refl) | exact Hbg].
Defined.

(** ** The rich-grid viewer *)

Section RichGridFacts.
Context `{Platform}.
Variable sheet_to_json_missing : Completion (list (list JsVal)).

Lemma getMaxColumns_ge (data : list (list JsVal)) (row : list JsVal) :
  row ∈ data -> (length row <= getMaxColumns data)%nat.
Proof.
  unfold getMaxColumns. induction data as [|row' data IH]; cbn.
  - now intros ?%elem_of_nil.
  - intros [->|Hin]%elem_of_cons; [lia|]. specialize (IH Hin). lia.
Qed.

Lemma map_sheets_Normal workbook index names debug debug' entries :
  map_sheets sheet_to_json_missing workbook index names debug
    = (debug', Normal entries) ->
  Forall2 (fun sheetName entry =>
             exists rows, sheet_rows_json sheet_to_json_missing workbook sheetName
                          = Normal rows /\
                          exists position, entry = sheet_config sheetName position rows)
          names entries /\
  forall i entry, entries !! i = Some entry ->
    ExcelViewer.order entry = (index + i)%nat.
Proof.
  revert index debug debug' entries.
  induction names as [|sheetName names IH]; intros index debug debug' entries; cbn.
  - intros [= <- <-]. split; [constructor|]. intros i entry. now rewrite lookup_nil.
  - destruct (sheet_rows_json _ workbook sheetName) as [rows|message] eqn:Hrows;
      [|discriminate].
    destruct (map_sheets _ workbook (S index) names (processing_message sheetName rows))
      as [d [rest|message]] eqn:Hrest; cbn; [|discriminate].
    intros [= <- <-]. destruct (IH _ _ _ _ Hrest) as [Hall Horder]. split.
    + constructor; [|assumption]. exists rows. split; [assumption|]. now eexists.
    + intros [|i] entry; cbn.
      * intros [= <-]. cbn. lia.
      * intros Hi. rewrite (Horder i entry Hi). lia.
Qed.

Lemma ExcelViewer_load_ok_state (input : ExcelViewer.LoadInput) :
  ExcelViewer.error (ExcelViewer_loadExcelFile sheet_to_json_missing input).1 = None ->
  (ExcelViewer_loadExcelFile sheet_to_json_missing input).1 =
    {| ExcelViewer.isLoading := false; ExcelViewer.error := None;
       ExcelViewer.debugInfo := "Initializing Luckysheet..." |}.
Proof.
  unfold ExcelViewer_loadExcelFile.
  destruct (ExcelViewer.library_at_start input); cbn [negb]; [|discriminate].
  destruct (ExcelViewer.buffer input); [|discriminate].
  destruct (ExcelViewer.parsed input) as [workbook|]; [|discriminate].
  destruct (map_sheets _ workbook 0 _ _) as [debug [entries|]]; [|discriminate].
  destruct (ExcelViewer.container_at_init input && ExcelViewer.library_at_init input);
    [reflexivity | discriminate].
Qed.

End RichGridFacts.

(** X18. [getMaxColumns] is the length of a longest row: no row is longer,
    some row is that long unless there is no row, and it is 0 for no row. *)
Theorem getMaxColumns_longest_row (data : list (list JsVal)) :
  (forall row, row ∈ data -> (length row <= getMaxColumns data)%nat) /\
  (data <> [] -> exists row, row ∈ data /\ length row = getMaxColumns data) /\
  (data = [] -> getMaxColumns data = 0%nat).
Proof.
  split; [intros row; apply getMaxColumns_ge|]. split; [|now intros ->].
  induction data as [|row data IH]; [congruence|]. intros _.
  destruct data as [|row' data].
  - exists row. split; [left|]. unfold getMaxColumns. cbn. lia.
  - destruct IH as (longest & Hin & Hlen); [discriminate|].
    change (getMaxColumns (row :: row' :: data))
      with (Nat.max (length row) (getMaxColumns (row' :: data))).
    destruct (Nat.max_spec (length row) (getMaxColumns (row' :: data)))
      as [[_ ->]|[_ ->]].
    + exists longest. split; [now right | assumption].
    + exists row. split; [left | reflexivity].
Qed.

Lemma getMaxColumns_longest_row_witness :
  getMaxColumns [[VStr "a"]; [VStr "b"; VNull; VStr "c"]; []] = 3%nat.
Proof.
  destruct (getMaxColumns_longest_row [[VStr "a"]; [VStr "b"; VNull; VStr "c"]; []])
    as (Hge & Hex & _).
  apply Nat.le_antisymm.
  - destruct (Hex ltac:(discriminate)) as (row & Hin & Hlen). rewrite <- Hlen.
    apply list_elem_of_In in Hin. cbn in Hin.
    destruct Hin as [<-|[<-|[<-|[]]]]; cbn; lia.
  - apply (Hge [VStr "b"; VNull; VStr "c"]). apply list_elem_of_In. cbn. auto.
Defined.

(** X19. In the entry built for a sheet, the declared size holds every
    converted cell: each record's row is below [row] and its column below
    [column]; and the size is at least 20 rows by 10 columns. *)
Theorem sheet_config_holds_cells `{Platform}
    (sheetName : string) (index : nat) (rows : list (list JsVal)) :
  let entry := sheet_config sheetName index rows in
  (20 <= ExcelViewer.row entry)%nat /\ (10 <= ExcelViewer.column entry)%nat /\
  forall x, x ∈ ExcelViewer.data entry ->
    (Luckysheet.r x < ExcelViewer.row entry)%nat /\
    (Luckysheet.c x < ExcelViewer.column entry)%nat.
Proof.
  cbn zeta. cbn [sheet_config ExcelViewer.row ExcelViewer.column ExcelViewer.data].
  split; [lia|]. split; [lia|]. intros x Hx.
  rewrite (forEach_sheet 0 rows [] : convertToLuckysheetData rows = _) in Hx.
  apply elem_of_sheet_records in Hx as (i & row & k & cell & Hi & Hk & _ & ->).
  cbn [luckysheet_cell Luckysheet.r Luckysheet.c].
  pose proof (lookup_lt_Some _ _ _ Hi). pose proof (lookup_lt_Some _ _ _ Hk).
  assert (length row <= getMaxColumns rows)%nat.
  { apply getMaxColumns_ge. apply list_elem_of_lookup. eauto. }
  lia.
Qed.

Lemma sheet_config_holds_cells_witness :
  let rows := [[VStr "a"]; [VStr "b"; VNull; VStr "c"]] in
  let entry := sheet_config (H:=Sample.platform) "Sheet1" 0 rows in
  (Luckysheet.r (luckysheet_cell (H:=Sample.platform) 1 2 (VStr "c"))
     < ExcelViewer.row entry)%nat /\
  ExcelViewer.row entry = 20%nat /\ ExcelViewer.column entry = 10%nat.
Proof.
  cbn zeta.
  destruct (sheet_config_holds_cells (H:=Sample.platform) "Sheet1" 0
              [[VStr "a"]; [VStr "b"; VNull; VStr "c"]]) as (_ & _ & Hin).
  destruct (Hin (luckysheet_cell (H:=Sample.platform) 1 2 (VStr "c"))) as [Hr _].
  - apply list_elem_of_In. vm_compute. auto.
  - split; [exact Hr|]. split; reflexivity.
Defined.

(** X20. When the conversion of the sheet names completes, the list handed
    to the widget has one entry per sheet name, in order and under that
    name, built from the rows of that sheet; [order] is the position in the
    list, and [status] is 1 for the first entry and 0 for every other. *)
Theorem map_sheets_entries `{Platform}
    (sheet_to_json_missing : Completion (list (list JsVal)))
    (workbook : WorkBook) (debug debug' : string)
    (entries : list ExcelViewer.SheetConfig) :
  map_sheets sheet_to_json_missing workbook 0 (SheetNames workbook) debug
    = (debug', Normal entries) ->
  length entries = length (SheetNames workbook) /\
  forall i entry, entries !! i = Some entry ->
    SheetNames workbook !! i = Some (ExcelViewer.name entry) /\
    ExcelViewer.order entry = i /\
    (ExcelViewer.status entry = if decide (i = 0%nat) then 1 else 0) /\
    exists rows,
      sheet_rows_json sheet_to_json_missing workbook (ExcelViewer.name entry)
        = Normal rows /\
      entry = sheet_config (ExcelViewer.name entry) i rows.
Proof.
  intros Hmap. destruct (map_sheets_Normal _ _ _ _ _ _ _ Hmap) as [Hall Horder].
  split; [symmetry; now apply Forall2_length in Hall|].
  intros i entry Hi.
  destruct (Forall2_lookup_r _ _ _ _ _ Hall Hi)
    as (sheetName & Hname & rows & Hrows & position & ->).
  specialize (Horder i _ Hi). cbn [sheet_config ExcelViewer.order] in Horder.
  cbn [Nat.add] in Horder. subst position.
  cbn [sheet_config ExcelViewer.name ExcelViewer.order ExcelViewer.status].
  split; [assumption|]. split; [reflexivity|]. split; [reflexivity|].
  exists rows. split; [assumption | reflexivity].
Qed.

Lemma map_sheets_entries_witness :
  exists debug' first second,
    map_sheets (H:=Sample.platform) (Normal []) Sample.workbook 0
      (SheetNames Sample.workbook) (found_message Sample.workbook)
      = (debug', Normal [first; second]) /\
    ExcelViewer.status first = 1 /\ ExcelViewer.status second = 0 /\
    ExcelViewer.order second = 1%nat.
Proof.
  eexists. eexists. eexists. split; [reflexivity|].
  destruct (map_sheets_entries (H:=Sample.platform) (Normal []) Sample.workbook
              (found_message Sample.workbook) _ _ eq_refl) as [_ Hentry].
  destruct (Hentry 0%nat _ eq_refl) as (_ & _ & Hs0 & _).
  destruct (Hentry 1%nat _ eq_refl) as (_ & Ho1 & Hs1 & _).
  split; [exact Hs0|]. split; [exact Hs1 | exact Ho1].
Defined.

(** X21. However a load of the rich-grid viewer goes, it ends with the
    loading flag clear. The timer that creates the widget is set exactly
    when the load ends without an error, which is exactly when the library
    is there at the start, the read, the parse and the conversion all
    return, and the container and the library are there at the end; in
    every other case the component renders the error view. When the timer
    fires, a [create] that returns leaves the container with the success
    line, and one that throws leaves the error view with its own message. *)
Theorem ExcelViewer_load_outcome `{Platform}
    (sheet_to_json_missing : Completion (list (list JsVal)))
    (input : ExcelViewer.LoadInput) :
  let result := ExcelViewer_loadExcelFile sheet_to_json_missing input in
  ExcelViewer.isLoading result.1 = false /\
  (is_Some result.2 <-> ExcelViewer.error result.1 = None) /\
  (ExcelViewer.error result.1 = None <->
     ExcelViewer.library_at_start input = true /\
     (exists u, ExcelViewer.buffer input = Normal u) /\
     (exists workbook debug entries,
        ExcelViewer.parsed input = Normal workbook /\
        map_sheets sheet_to_json_missing workbook 0 (SheetNames workbook)
          (found_message workbook) = (debug, Normal entries) /\
        result.2 = Some entries) /\
     ExcelViewer.container_at_init input = true /\
     ExcelViewer.library_at_init input = true) /\
  (ExcelViewer.error result.1 <> None ->
     exists message debug,
       ExcelViewer_render result.1 = ExcelViewer.ViewError message debug /\
       ExcelViewer.error result.1 = Some message) /\
  (ExcelViewer.error result.1 = None ->
     ExcelViewer_render result.1 = ExcelViewer.ViewContainer "Initializing Luckysheet...") /\
  (ExcelViewer.error result.1 = None ->
     forall create,
       ExcelViewer_render (timer_fires create result.1) =
         match create with
         | Normal _ => ExcelViewer.ViewContainer "Luckysheet initialized successfully!"
         | Throw message =>
             ExcelViewer.ViewError
               ("Failed to initialize spreadsheet viewer: " +:+ message)
               "Initializing Luckysheet..."
         end).
Proof.
  cbn zeta.
  assert (Htimer :
    ExcelViewer.error (ExcelViewer_loadExcelFile sheet_to_json_missing input).1 = None ->
    forall create,
      ExcelViewer_render
        (timer_fires create (ExcelViewer_loadExcelFile sheet_to_json_missing input).1) =
        match create with
        | Normal _ => ExcelViewer.ViewContainer "Luckysheet initialized successfully!"
        | Throw message =>
            ExcelViewer.ViewError
              ("Failed to initialize spreadsheet viewer: " +:+ message)
              "Initializing Luckysheet..."
        end).
  { intros Hok create. rewrite (ExcelViewer_load_ok_state _ _ Hok).
    now destruct create. }
  enough (Hrest :
    ExcelViewer.isLoading (ExcelViewer_loadExcelFile sheet_to_json_missing input).1 = false /\
    (is_Some (ExcelViewer_loadExcelFile sheet_to_json_missing input).2 <->
     ExcelViewer.error (ExcelViewer_loadExcelFile sheet_to_json_missing input).1 = None) /\
    (ExcelViewer.error (ExcelViewer_loadExcelFile sheet_to_json_missing input).1 = None <->
       ExcelViewer.library_at_start input = true /\
       (exists u, ExcelViewer.buffer input = Normal u) /\
       (exists workbook debug entries,
          ExcelViewer.parsed input = Normal workbook /\
          map_sheets sheet_to_json_missing workbook 0 (SheetNames workbook)
            (found_message workbook) = (debug, Normal entries) /\
          (ExcelViewer_loadExcelFile sheet_to_json_missing input).2 = Some entries) /\
       ExcelViewer.container_at_init input = true /\
       ExcelViewer.library_at_init input = true) /\
    (ExcelViewer.error (ExcelViewer_loadExcelFile sheet_to_json_missing input).1 <> None ->
       exists message debug,
         ExcelViewer_render (ExcelViewer_loadExcelFile sheet_to_json_missing input).1
           = ExcelViewer.ViewError message debug /\
         ExcelViewer.error (ExcelViewer_loadExcelFile sheet_to_json_missing input).1
           = Some message) /\
    (ExcelViewer.error (ExcelViewer_loadExcelFile sheet_to_json_missing input).1 = None ->
       ExcelViewer_render (ExcelViewer_loadExcelFile sheet_to_json_missing input).1
         = ExcelViewer.ViewContainer "Initializing Luckysheet...")).
  { destruct Hrest as (H1 & H2 & H3 & H4 & H5). auto 10. }
  clear Htimer. unfold ExcelViewer_loadExcelFile.
  destruct (ExcelViewer.library_at_start input) eqn:Hlib; cbn [negb].
  2:{ cbn. split; [reflexivity|]. split; [split; [intros []|]; discriminate|].
      split; [split; [discriminate | intros (? & _); discriminate]|].
      split; [intros _; eauto | discriminate]. }
  destruct (ExcelViewer.buffer input) as [u|message] eqn:Hbuf.
  2:{ cbn. split; [reflexivity|]. split; [split; [intros []|]; discriminate|].
      split; [split; [discriminate | intros (_ & (? & ?) & _); discriminate]|].
      split; [intros _; eauto | discriminate]. }
  destruct (ExcelViewer.parsed input) as [workbook|message] eqn:Hparsed.
  2:{ cbn. split; [reflexivity|]. split; [split; [intros []|]; discriminate|].
      split; [split; [discriminate
                     | intros (_ & _ & (? & ? & ? & ? & _) & _); discriminate]|].
      split; [intros _; eauto | discriminate]. }
  destruct (map_sheets _ workbook 0 (SheetNames workbook) (found_message workbook))
    as [debug [entries|message]] eqn:Hmap.
  2:{ cbn. split; [reflexivity|]. split; [split; [intros []|]; discriminate|].
      split; [split; [discriminate|]|].
      - intros (_ & _ & (wb & d & e & [= <-] & Hmap' & _) & _).
        rewrite Hmap in Hmap'. discriminate.
      - split; [intros _; eauto | discriminate]. }
  destruct (ExcelViewer.container_at_init input) eqn:Hc;
    destruct (ExcelViewer.library_at_init input) eqn:Hl; cbn.
  - split; [reflexivity|]. split; [split; eauto|]. split.
    + split; [|reflexivity]. intros _. split; [reflexivity|]. split; [eauto|].
      split; [|auto]. exists workbook, debug, entries. auto.
    + split; [congruence | reflexivity].
  - split; [reflexivity|]. split; [split; [intros []|]; discriminate|].
    split; [split; [discriminate | intros (_ & _ & _ & _ & ?); discriminate]|].
    split; [intros _; eauto | discriminate].
  - split; [reflexivity|]. split; [split; [intros []|]; discriminate|].
    split; [split; [discriminate | intros (_ & _ & _ & ? & _); discriminate]|].
    split; [intros _; eauto | discriminate].
  - split; [reflexivity|]. split; [split; [intros []|]; discriminate|].
    split; [split; [discriminate | intros (_ & _ & _ & ? & _); discriminate]|].
    split; [intros _; eauto | discriminate].
Qed.

Lemma ExcelViewer_load_outcome_witness :
  let input :=
    {| ExcelViewer.library_at_start := true;
       ExcelViewer.buffer := Normal tt;
       ExcelViewer.parsed := Normal Sample.workbook;
       ExcelViewer.container_at_init := false;
       ExcelViewer.library_at_init := true |} in
  let result := ExcelViewer_loadExcelFile (H:=Sample.platform) (Normal []) input in
  result.2 = None /\
  ExcelViewer_render result.1 =
    ExcelViewer.ViewError "Luckysheet container or library not available"
      "Initializing Luckysheet...".
Proof.
  cbn zeta.
  destruct (ExcelViewer_load_outcome (H:=Sample.platform) (Normal [])
              {| ExcelViewer.library_at_start := true;
                 ExcelViewer.buffer := Normal tt;
                 ExcelViewer.parsed := Normal Sample.workbook;
                 ExcelViewer.container_at_init := false;
                 ExcelViewer.library_at_init := true |})
    as (_ & Htimer & _ & Herr & _ & _).
  split.
  - destruct (ExcelViewer_loadExcelFile _ _).2 as [entries|] eqn:E; [|reflexivity].
    assert (Hsome : is_Some (Some entries)) by eauto.
    apply Htimer in Hsome. vm_compute in Hsome. discriminate.
  - destruct Herr as (message & debug & Hview & Hmsg); [vm_compute; discriminate|].
    rewrite Hview. vm_compute in Hmsg. vm_compute in Hview.
    injection Hview as <- <-. reflexivity.
Defined.

(** ** Tooltips *)

Section Trim.

Lemma trimEnd_ends_clean (s : string) : ends_clean s = true -> trimEnd s = s.
Proof.
  induction s as [|a s IH]; [reflexivity|]. cbn [ends_clean trimEnd].
  destruct s as [|b s].
  - cbn. now intros ->%negb_true_iff.
  - intros Hclean. rewrite (IH Hclean). reflexivity.
Qed.

Lemma ends_clean_app (s t : string) :
  t <> "" -> ends_clean (s +:+ t) = ends_clean t.
Proof.
  intros Ht. induction s as [|a s IH]; [reflexivity|].
  change (String a s +:+ t) with (String a (s +:+ t)). cbn [ends_clean].
  destruct (s +:+ t) eqn:E; [|exact IH].
  destruct s as [|b s].
  - change (t = "") in E. congruence.
  - change (String b (s +:+ t) = "") in E. discriminate.
Qed.

Lemma trim_clean (a : ascii) (s : string) :
  is_whitespace a = false -> ends_clean (String a s) = true ->
  trim (String a s) = String a s.
Proof.
  intros Ha Hclean. unfold trim. cbn [trimStart]. rewrite Ha.
  now apply trimEnd_ends_clean.
Qed.

End Trim.

(** X22. The tooltip of a record whose value is not [undefined] and whose
    type is not empty and does not end in white space is the formula line,
    when the record has a formula, then the value line and the type line;
    the final [trim] removes nothing. A missing record has the empty
    tooltip. *)
Theorem getCellTitle_lines `{Platform} (cell : Cell) :
  value cell <> VUndefined ->
  type cell <> "" ->
  ends_clean (type cell) = true ->
  getCellTitle (Some cell) =
    (match string_or_null (formula cell) with
     | Some f => "Formula: =" +:+ f +:+ newline
     | None => ""
     end)
    +:+ "Value: " +:+ to_string (value cell) +:+ newline
    +:+ "Type: " +:+ type cell
  /\ getCellTitle None = "".
Proof.
  intros Hv Ht Hclean. split; [|reflexivity].
  unfold getCellTitle.
  assert (Htruthy : string_truthy (type cell) = true)
    by (destruct (type cell); [congruence | reflexivity]).
  rewrite Htruthy.
  assert (Hvalue : forall title : string,
            match value cell with
            | VUndefined => title
            | v => title +:+ ("Value: " +:+ to_string v +:+ newline)
            end = title +:+ ("Value: " +:+ to_string (value cell) +:+ newline))
    by (intros title; destruct (value cell); congruence).
  rewrite Hvalue.
  assert (Htail : forall s : string,
            ends_clean (s +:+ "Type: " +:+ type cell) = true).
  { intros s. rewrite ends_clean_app by discriminate.
    rewrite (ends_clean_app "Type: " (type cell)) by assumption. assumption. }
  destruct (string_or_null (formula cell)) as [f|].
  - rewrite !string_app_assoc.
    change ("" +:+ "Formula: =" +:+ f +:+ newline +:+ "Value: "
              +:+ to_string (value cell) +:+ newline +:+ "Type: " +:+ type cell)
      with (String "F" ("ormula: =" +:+ f +:+ newline +:+ "Value: "
              +:+ to_string (value cell) +:+ newline +:+ "Type: " +:+ type cell)).
    apply trim_clean; [reflexivity|].
    pose proof (Htail ("Formula: =" +:+ f +:+ newline +:+ "Value: "
                         +:+ to_string (value cell) +:+ newline)) as Hc.
    rewrite !string_app_assoc in Hc. exact Hc.
  - rewrite !string_app_assoc.
    change ("" +:+ "Value: " +:+ to_string (value cell) +:+ newline
              +:+ "Type: " +:+ type cell)
      with (String "V" ("alue: " +:+ to_string (value cell) +:+ newline
              +:+ "Type: " +:+ type cell)).
    apply trim_clean; [reflexivity|].
    pose proof (Htail ("Value: " +:+ to_string (value cell) +:+ newline)) as Hc.
    rewrite !string_app_assoc in Hc. exact Hc.
Qed.

Lemma getCellTitle_lines_witness :
  getCellTitle (H:=Sample.platform) (Some (cell_record (H:=Sample.platform) Sample.cell_sum))
  = "Formula: =SUM(A2:A3)" +:+ newline +:+ "Value: 42" +:+ newline +:+ "Type: n".
Proof.
  destruct (getCellTitle_lines (H:=Sample.platform)
              (cell_record (H:=Sample.platform) Sample.cell_sum)) as [Htitle _];
    [discriminate | discriminate | reflexivity |].
  rewrite Htitle. reflexivity.
Defined.

(** ** The formula toggle *)

Section ToggleFacts.
Context `{Platform}.

Lemma render_grid_input_exists st activeSheet m r c :
  maxCols activeSheet = Some m ->
  (r < Nat.max (length (data activeSheet)) 20)%nat -> (c < m)%nat ->
  is_Some (grid_body (render_grid st activeSheet) !! r
             ≫= (fun inputs => inputs !! c)).
Proof.
  intros Hm Hr Hc. cbn [grid_body render_grid]. rewrite Hm.
  unfold Array_from, maxRows. rewrite list_lookup_fmap.
  rewrite lookup_seq_lt by (cbn; lia). cbn.
  rewrite list_lookup_fmap, lookup_seq_lt by (cbn; lia). cbn. eauto.
Qed.

(** With no row missing, every record of the matrix has its input. *)
Lemma record_input_exists st activeSheet r c cell :
  Forall is_Some (data activeSheet) ->
  get2 (data activeSheet) r c = Some cell ->
  is_Some (grid_body (render_grid st activeSheet) !! r
             ≫= (fun inputs => inputs !! c)).
Proof.
  intros Hdense Hcell. unfold get2 in Hcell.
  destruct (Js.get (data activeSheet) r) as [cells|] eqn:Hcells; [|discriminate].
  cbn in Hcell.
  pose proof (get_Some_lt _ _ _ Hcells) as Hr.
  pose proof (get_Some_lt _ _ _ Hcell) as Hc.
  apply get_Some_lookup in Hcells.
  destruct (maxCols activeSheet) as [m|] eqn:Hm.
  - destruct (maxCols_Some _ _ Hm) as [_ Hall]. specialize (Hall r cells Hcells).
    apply (render_grid_input_exists st activeSheet m); [assumption | lia | lia].
  - apply maxCols_None in Hm as [i Hi].
    eapply Forall_lookup_1 in Hdense; [|exact Hi]. now destruct Hdense.
Qed.

(** The matrices of a completed load have no missing row. *)
Lemma sheetsData_rows_present workbook sd sheet :
  sheetsData workbook = Normal sd -> sheet ∈ sd -> Forall is_Some (data sheet).
Proof.
  intros Hsd Hin. apply sheetsData_entries in Hsd.
  apply list_elem_of_lookup in Hin as [i Hi].
  destruct (Forall2_lookup_r _ _ _ _ _ Hsd Hi) as (sheetName & _ & ws & _ & ->).
  cbn [data sheet_of_worksheet]. rewrite cellMatrix_eq.
  apply Forall_fmap, Forall_forall. intros row _. cbn. eauto.
Qed.

(** What the toggle button does. *)
Lemma step_toggle_inv st st' :
  step st ToggleFormulas st' ->
  st' = setShowFormulas (negb (showFormulas st)) st /\
  exists sheet,
    sheets st !! activeSheetIndex st = Some sheet /\
    render st' = Normal (ViewGrid (render_grid st' sheet)).
Proof.
  intros Hstep. inversion Hstep as [| | ? g Hrender |]; subst.
  split; [reflexivity|].
  destruct (render_ViewGrid _ _ Hrender) as (sheet & Hsheet & _).
  exists sheet. split; [assumption|].
  unfold render in *. cbn [isLoading error sheets activeSheetIndex setShowFormulas].
  destruct (isLoading st); [discriminate|].
  destruct (string_or_null (error st)); [discriminate|].
  destruct (decide (length (sheets st) = 0%nat)); [discriminate|].
  now rewrite Hsheet.
Qed.

End ToggleFacts.

(** C1. In every state the viewer can reach, for every record of a sheet
    matrix: with the toggle on and a formula that is neither null nor
    empty, the text is ["="] followed by the formula; with the toggle off
    the text is the string form of the stored value; without a formula the
    text is the string form of the value whatever the toggle. In the grid
    rendered for the active sheet the input at the record's position shows
    the text for the current toggle, and there is such an input whenever no
    row of the matrix is missing, as after a load. The toggle button of a
    rendered grid can be clicked; a click negates the toggle and changes
    nothing else, and in the grid rendered next the input shows the text
    for the negated toggle: the formula text in place of the value, or the
    value in place of the formula text, for a record with a formula, and
    the same text for a record without. *)
Theorem getCellDisplayValue_formula_toggle `{Platform}
    (st : ViewerState) (sheet : Sheet) (rowIndex colIndex : nat) (cell : Cell) :
  reachable st ->
  sheet ∈ sheets st ->
  get2 (data sheet) rowIndex colIndex = Some cell ->
  (forall f, formula cell = Some f -> f <> "" ->
     getCellDisplayValue true (Some cell) = "=" +:+ f) /\
  getCellDisplayValue false (Some cell) = to_string (value cell) /\
  (has_formula cell = false ->
   forall toggle, getCellDisplayValue toggle (Some cell) = to_string (value cell)) /\
  (forall g,
     render st = Normal (ViewGrid g) ->
     sheets st !! activeSheetIndex st = Some sheet ->
     (forall text,
        grid_body g !! rowIndex ≫= (fun inputs => inputs !! colIndex) = Some text ->
        text = getCellDisplayValue (showFormulas st) (Some cell)) /\
     (Forall is_Some (data sheet) ->
      grid_body g !! rowIndex ≫= (fun inputs => inputs !! colIndex)
        = Some (getCellDisplayValue (showFormulas st) (Some cell))) /\
     exists st', step st ToggleFormulas st') /\
  (forall workbook st0 sd,
     sheetsData workbook = Normal sd ->
     st = loadExcelFile (Normal workbook) st0 ->
     Forall is_Some (data sheet)) /\
  (forall st',
     step st ToggleFormulas st' ->
     showFormulas st' = negb (showFormulas st) /\
     sheets st' = sheets st /\
     activeSheetIndex st' = activeSheetIndex st /\
     isLoading st' = isLoading st /\ error st' = error st /\
     exists g',
       render st' = Normal (ViewGrid g') /\
       (sheets st !! activeSheetIndex st = Some sheet ->
        (forall text,
           grid_body g' !! rowIndex ≫= (fun inputs => inputs !! colIndex) = Some text ->
           text = getCellDisplayValue (negb (showFormulas st)) (Some cell)) /\
        (Forall is_Some (data sheet) ->
         grid_body g' !! rowIndex ≫= (fun inputs => inputs !! colIndex)
           = Some (getCellDisplayValue (negb (showFormulas st)) (Some cell))))).
Proof.
  intros Hreach Hin Hcell.
  assert (Hstored : stored_value (value cell)).
  { destruct (reachable_invariant st Hreach) as [_ Hcells].
    rewrite Forall_forall in Hcells. apply (Hcells sheet Hin).
    now exists rowIndex, colIndex. }
  assert (Hshown : forall st0 activeSheet,
            get2 (data activeSheet) rowIndex colIndex = Some cell ->
            (forall text,
               grid_body (render_grid st0 activeSheet) !! rowIndex
                 ≫= (fun inputs => inputs !! colIndex) = Some text ->
               text = getCellDisplayValue (showFormulas st0) (Some cell)) /\
            (Forall is_Some (data activeSheet) ->
             grid_body (render_grid st0 activeSheet) !! rowIndex
               ≫= (fun inputs => inputs !! colIndex)
             = Some (getCellDisplayValue (showFormulas st0) (Some cell)))).
  { intros st0 activeSheet Hc.
    assert (Htext : forall text,
              grid_body (render_grid st0 activeSheet) !! rowIndex
                ≫= (fun inputs => inputs !! colIndex) = Some text ->
              text = getCellDisplayValue (showFormulas st0) (Some cell)).
    { intros text Htext. apply render_grid_text in Htext. now rewrite Hc in Htext. }
    split; [exact Htext|]. intros Hdense.
    destruct (record_input_exists st0 activeSheet rowIndex colIndex cell Hdense Hc)
      as [text Ht].
    rewrite Ht. f_equal. now apply Htext. }
  split; [intros f; apply getCellDisplayValue_formula|].
  split; [rewrite getCellDisplayValue_value by reflexivity;
          now apply stored_value_or|].
  split; [|split; [|split]].
  - intros Hnone toggle.
    rewrite getCellDisplayValue_value by (rewrite Hnone; apply andb_false_r).
    now apply stored_value_or.
  - intros g Hrender Hactive.
    pose proof Hrender as Hrender0.
    apply render_ViewGrid in Hrender as (activeSheet & Hactive' & ->).
    assert (activeSheet = sheet) as -> by congruence.
    destruct (Hshown st sheet Hcell) as [Htext Hexists].
    split; [exact Htext|]. split; [exact Hexists|].
    eexists. eapply step_toggle. exact Hrender0.
  - intros workbook st0 sd Hsd ->.
    rewrite (loadExcelFile_completes _ _ _ Hsd) in Hin. cbn [sheets] in Hin.
    eapply sheetsData_rows_present; eauto.
  - intros st' Hstep.
    destruct (step_toggle_inv st st' Hstep) as (-> & activeSheet & Hactive & Hrender').
    cbn [showFormulas sheets activeSheetIndex isLoading error setShowFormulas].
    split; [reflexivity|]. split; [reflexivity|]. split; [reflexivity|].
    split; [reflexivity|]. split; [reflexivity|].
    eexists. split; [exact Hrender'|]. intros Hsheet.
    assert (activeSheet = sheet) as -> by congruence.
    exact (Hshown (setShowFormulas (negb (showFormulas st)) st) sheet Hcell).
Qed.

Lemma getCellDisplayValue_formula_toggle_witness :
  let st := loadExcelFile (H:=Sample.platform) (Normal Sample.workbook) initial_state in
  let record := cell_record (H:=Sample.platform) Sample.cell_sum in
  getCellDisplayValue (H:=Sample.platform) true (Some record) = "=SUM(A2:A3)" /\
  getCellDisplayValue (H:=Sample.platform) false (Some record) = "42" /\
  exists g st' g',
    render (H:=Sample.platform) st = Normal (ViewGrid g) /\
    grid_body g !! 0%nat ≫= (fun inputs => inputs !! 1%nat) = Some "42" /\
    step (H:=Sample.platform) st ToggleFormulas st' /\
    showFormulas st' = true /\
    render (H:=Sample.platform) st' = Normal (ViewGrid g') /\
    grid_body g' !! 0%nat ≫= (fun inputs => inputs !! 1%nat) = Some "=SUM(A2:A3)".
Proof.
  cbn zeta.
  destruct (getCellDisplayValue_formula_toggle (H:=Sample.platform)
              (loadExcelFile (H:=Sample.platform) (Normal Sample.workbook) initial_state)
              (sheet_of_worksheet (H:=Sample.platform) "Sheet1" Sample.worksheet1)
              0 1 (cell_record (H:=Sample.platform) Sample.cell_sum)
              reachable_sample_loaded)
    as (Hon & Hoff & _ & Hgrid & Hloaded & Htoggle).
  - apply list_elem_of_lookup. now exists 0%nat.
  - reflexivity.
  - assert (Hdense : Forall is_Some
              (data (sheet_of_worksheet (H:=Sample.platform) "Sheet1" Sample.worksheet1)))
      by (apply (Hloaded Sample.workbook initial_state _ eq_refl eq_refl)).
    destruct (Hgrid _ eq_refl eq_refl) as (_ & Hbefore & st' & Hstep).
    destruct (Htoggle st' Hstep) as (Hflag & _ & _ & _ & _ & g' & Hrender' & Hafter).
    destruct (Hafter eq_refl) as [_ Hafter'].
    split; [apply (Hon "SUM(A2:A3)"); [reflexivity | discriminate]|].
    split; [exact Hoff|].
    eexists. exists st', g'. split; [reflexivity|].
    split; [exact (Hbefore Hdense)|]. split; [exact Hstep|].
    split; [exact Hflag|]. split; [exact Hrender'|]. exact (Hafter' Hdense).
Defined.
